(** * Smart_assistant: the analysis pipeline and the chat backend

  A shallow embedding of
    - [tools/analytics/safety_validator.py]  (module [SafetyValidator]),
    - [tools/analytics/sandbox/executor.py]  (module [Sandbox]),
    - [tools/analytics/code_generator.py], [tools/analytics/result_processor.py]
      and [agents/python_analysis_agent.py]  (module [Agent]),
    - [backend/main.py]                      (module [Backend]),
  followed by the properties of the specification stated over it.

  A Python [str] is the [string] of its UTF-8 bytes, lists are [list]s,
  insertion-ordered [dict]s are association lists.  What the program obtains from outside
  (the [ast] parser, the [re] engine, the [json] decoder, the Docker daemon,
  the LLM, the clock) is a parameter of the model: a [Variable] of a
  section or a field of an oracle record. *)

From Stdlib Require Import List String Ascii Bool Arith ZArith Lia.
Import ListNotations.
Open Scope string_scope.
Set Warnings "-register-all".

(* ================================================================= *)
(** ** Python strings *)

Module PyStr.

(** [c.lower()] on one character.  Only the letters A to Z have a lower
    case here: the texts the program lower-cases are its own messages and
    the identifiers of the analysed source, taken to be ASCII. *)
Definition lower_ascii (c : ascii) : ascii :=
  let n := nat_of_ascii c in
  if andb (Nat.leb 65 n) (Nat.leb n 90) then ascii_of_nat (n + 32) else c.

(** [s.lower()] *)
Fixpoint lower (s : string) : string :=
  match s with
  | EmptyString => EmptyString
  | String c s' => String (lower_ascii c) (lower s')
  end.

(** [s.startswith(p)] *)
Fixpoint startswith (s p : string) : bool :=
  match p, s with
  | EmptyString, _ => true
  | String a p', String b s' => if Ascii.eqb a b then startswith s' p' else false
  | String _ _, EmptyString => false
  end.

(** [needle in hay] *)
Fixpoint contains (needle hay : string) : bool :=
  if startswith hay needle then true
  else match hay with
       | EmptyString => false
       | String _ hay' => contains needle hay'
       end.

(** [s.endswith(p)] *)
Definition endswith (s p : string) : bool :=
  let ls := String.length s in
  let lp := String.length p in
  if Nat.leb lp ls then String.eqb (substring (ls - lp) lp s) p else false.

(** [s.split(sep)[0]] for a one-character separator. *)
Fixpoint split_head (sep : ascii) (s : string) : string :=
  match s with
  | EmptyString => EmptyString
  | String c s' => if Ascii.eqb c sep then EmptyString else String c (split_head sep s')
  end.

(** [sep.join(l)] *)
Fixpoint join (sep : string) (l : list string) : string :=
  match l with
  | [] => ""
  | [x] => x
  | x :: rest => x ++ sep ++ join sep rest
  end.

(** [not l] for a list: the list is empty. *)
Definition is_empty {A : Type} (l : list A) : bool :=
  match l with [] => true | _ :: _ => false end.

(** [c.isspace()] for a character of one byte: tab to carriage return,
    the four separators 28 to 31, and the space. *)
Definition is_space (c : ascii) : bool :=
  let n := nat_of_ascii c in
  (Nat.leb 9 n && Nat.leb n 13) || (Nat.leb 28 n && Nat.leb n 32).

(** The white space of two bytes: U+0085 and U+00A0. *)
Definition is_space2 (c1 c2 : ascii) : bool :=
  let n2 := nat_of_ascii c2 in
  Nat.eqb (nat_of_ascii c1) 194 && (Nat.eqb n2 133 || Nat.eqb n2 160).

(** The white space of three bytes: U+1680, U+2000 to U+200A, U+2028,
    U+2029, U+202F, U+205F and U+3000. *)
Definition is_space3 (c1 c2 c3 : ascii) : bool :=
  let n1 := nat_of_ascii c1 in
  let n2 := nat_of_ascii c2 in
  let n3 := nat_of_ascii c3 in
  (Nat.eqb n1 225 && Nat.eqb n2 154 && Nat.eqb n3 128)
  || (Nat.eqb n1 226 && Nat.eqb n2 128
      && ((Nat.leb 128 n3 && Nat.leb n3 138)
          || Nat.eqb n3 168 || Nat.eqb n3 169 || Nat.eqb n3 175))
  || (Nat.eqb n1 226 && Nat.eqb n2 129 && Nat.eqb n3 159)
  || (Nat.eqb n1 227 && Nat.eqb n2 128 && Nat.eqb n3 128).

(** [s.lstrip()]: the white-space characters [s] starts with are passed
    over, each with all its bytes. *)
Fixpoint lstrip (s : string) : string :=
  match s with
  | EmptyString => EmptyString
  | String c1 s1 =>
      if is_space c1 then lstrip s1
      else match s1 with
           | String c2 s2 =>
               if is_space2 c1 c2 then lstrip s2
               else match s2 with
                    | String c3 s3 =>
                        if is_space3 c1 c2 c3 then lstrip s3 else s
                    | EmptyString => s
                    end
           | EmptyString => s
           end
  end.

(** [s.rstrip()]: nothing is left of a text that is white space from here
    to its end; otherwise this byte stays and the rest is stripped. *)
Fixpoint rstrip (s : string) : string :=
  match s with
  | EmptyString => EmptyString
  | String c s' =>
      if String.eqb (lstrip (String c s')) "" then EmptyString
      else String c (rstrip s')
  end.

(** [s.strip()] *)
Definition strip (s : string) : string := rstrip (lstrip s).

(** [x in l] for a list or a set of strings. *)
Definition mem (x : string) (l : list string) : bool :=
  existsb (String.eqb x) l.

(** One character as a string, by its code. *)
Definition chr (n : nat) : string := String (ascii_of_nat n) EmptyString.

Definition newline : string := chr 10.
Definition dquote : string := chr 34.

(** [repr] of a list of strings none of which holds a quote, a backslash
    or a non-printable character. *)
Definition repr_list (l : list string) : string :=
  "[" ++ join ", " (map (fun s => "'" ++ s ++ "'") l) ++ "]".

End PyStr.

(* ================================================================= *)
(** ** Python values shared by the pipeline and the backend *)

Module Py.
Import PyStr.

(** A finite [float], the number [mantissa * 2 ^ exponent].  The model never
    computes with floats: it passes them on and tests them for zero. *)
Inductive float := Float (mantissa exponent : Z).

Definition float_zero : float := Float 0 0.

(** What [json.load] gives. *)
Inductive json : Type :=
| JNull
| JBool (b : bool)
| JInt (n : Z)
| JFloat (x : float)
| JStr (s : string)
| JArr (items : list json)
| JObj (members : list (string * json)).

(** What a collected output file holds: a decoded JSON document, a [str]
    or [bytes]. *)
Inductive content :=
| CJson (j : json)
| CStr (s : string)
| CBytes (b : string).

(** Truth value of an object in an [if] or an [or]. *)
Definition json_truthy (j : json) : bool :=
  match j with
  | JNull => false
  | JBool b => b
  | JInt n => negb (Z.eqb n 0)
  | JFloat (Float m _) => negb (Z.eqb m 0)
  | JStr s => negb (String.eqb s "")
  | JArr items => negb (is_empty items)
  | JObj members => negb (is_empty members)
  end.

Definition truthy (c : content) : bool :=
  match c with
  | CJson j => json_truthy j
  | CStr s => negb (String.eqb s "")
  | CBytes b => negb (String.eqb b "")
  end.

(** The exceptions the program tells apart, and [OtherException] for every
    other subclass of [Exception]; each carries its [str(e)]. *)
Inductive exn :=
| SyntaxError (msg : string)
| ContainerError (msg : string)
| ReadTimeout (msg : string)
| JSONDecodeError (msg : string)
| UnicodeDecodeError (msg : string)
| KeyError (msg : string)
| AttributeError (msg : string)
| ValueError (msg : string)
| WebSocketDisconnect
| OtherException (msg : string).

(** [str(e)] *)
Definition str_exn (e : exn) : string :=
  match e with
  | SyntaxError msg => msg
  | ContainerError msg => msg
  | ReadTimeout msg => msg
  | JSONDecodeError msg => msg
  | UnicodeDecodeError msg => msg
  | KeyError msg => msg
  | AttributeError msg => msg
  | ValueError msg => msg
  | WebSocketDisconnect => ""
  | OtherException msg => msg
  end.

(** How a call ends: with a value or with an exception. *)
Inductive outcome (A : Type) :=
| Return (a : A)
| Raise (e : exn).
Arguments Return {A} a.
Arguments Raise {A} e.

(** An insertion-ordered [dict] with [str] keys. *)
Definition dict (V : Type) := list (string * V).

(** [d.get(k)] *)
Fixpoint dict_get {V : Type} (d : dict V) (k : string) : option V :=
  match d with
  | [] => None
  | (k', v) :: rest => if String.eqb k' k then Some v else dict_get rest k
  end.

(** [k in d] *)
Definition dict_has {V : Type} (d : dict V) (k : string) : bool :=
  match dict_get d k with Some _ => true | None => false end.

(** [d[k] = v]: a key already there keeps its place. *)
Fixpoint dict_set {V : Type} (d : dict V) (k : string) (v : V) : dict V :=
  match d with
  | [] => [(k, v)]
  | (k', v') :: rest =>
      if String.eqb k' k then (k, v) :: rest else (k', v') :: dict_set rest k v
  end.

(** [del d[k]] *)
Fixpoint dict_del {V : Type} (d : dict V) (k : string) : dict V :=
  match d with
  | [] => []
  | (k', v') :: rest =>
      if String.eqb k' k then rest else (k', v') :: dict_del rest k
  end.

(** [d.get(k, default)] *)
Definition dict_get_default {V : Type} (d : dict V) (k : string) (default : V) : V :=
  match dict_get d k with Some v => v | None => default end.

End Py.

(* ================================================================= *)
(** ** The abstract syntax tree seen by [ast.walk] *)

Module Ast.

(** [ast.alias] *)
Record alias := mk_alias { name : string; asname : option string }.

(** The node classes the validator tells apart; every other class of
    [ast] is [Other], with its child nodes in field order.  The load/store
    context below a [Name] or an [Attribute] is such a childless node and
    is not listed: no check looks at it. *)
Inductive node : Type :=
| Import (names : list alias)
| ImportFrom (module : option string) (names : list alias) (level : nat)
| Call (func : node) (args : list node) (keywords : list node)
| Name (id : string)
| Attribute (value : node) (attr : string)
| AliasNode (a : alias)
| Other (fields : list node).

(** [ast.iter_child_nodes] *)
Definition iter_child_nodes (n : node) : list node :=
  match n with
  | Import names => map AliasNode names
  | ImportFrom _ names _ => map AliasNode names
  | Call func args keywords => func :: args ++ keywords
  | Name _ => []
  | Attribute value _ => [value]
  | AliasNode _ => []
  | Other fields => fields
  end.

(** Number of nodes of a tree: the number of turns of the loop of
    [ast.walk]. *)
Fixpoint size (n : node) : nat :=
  match n with
  | Import names => S (List.length names)
  | ImportFrom _ names _ => S (List.length names)
  | Call func args keywords =>
      S (size func + list_sum (map size args) + list_sum (map size keywords))
  | Name _ => 1
  | Attribute value _ => S (size value)
  | AliasNode _ => 1
  | Other fields => S (list_sum (map size fields))
  end.

(** The loop of [ast.walk]: pop the queue on the left, push the children
    on the right, yield the node. *)
Fixpoint walk_queue (fuel : nat) (todo : list node) : list node :=
  match fuel with
  | 0 => []
  | S fuel' =>
      match todo with
      | [] => []
      | n :: rest => n :: walk_queue fuel' (rest ++ iter_child_nodes n)
      end
  end.

(** [ast.walk(tree)] *)
Definition walk (tree : node) : list node := walk_queue (size tree) [tree].

(** [d] occurs in the tree [n]: it is [n] or occurs in a child of [n]. *)
Inductive occurs_in : node -> node -> Prop :=
| occurs_here (n : node) : occurs_in n n
| occurs_below (n c d : node) :
    In c (iter_child_nodes n) -> occurs_in c d -> occurs_in n d.

(** Number of nodes waiting in and below a queue of trees. *)
Definition forest_size (l : list node) : nat := list_sum (map size l).

End Ast.

(* ================================================================= *)
(** ** tools/analytics/safety_validator.py *)

Module SafetyValidator.
Import PyStr Py Ast.

(** [ValidationResult] *)
Record ValidationResult := mk_ValidationResult {
  is_safe : bool;
  violations : list string;
  warnings : list string;
  risk_level : string   (* 'safe', 'low', 'medium', 'high', 'critical' *)
}.

Definition BLOCKED_IMPORTS : list string :=
  [ "os"; "subprocess"; "sys"; "socket"; "http"; "urllib";
    "requests"; "shutil"; "tempfile"; "multiprocessing";
    "threading"; "ctypes"; "importlib"; "__builtin__";
    "__import__"; "pty"; "telnetlib"; "ftplib"; "smtplib" ].

Definition BLOCKED_FUNCTIONS : list string :=
  [ "eval"; "exec"; "compile"; "__import__"; "open";
    "input"; "raw_input"; "execfile"; "file"; "reload" ].

Definition SUSPICIOUS_PATTERNS : list string :=
  [ "__\w+__"; "getattr"; "setattr"; "delattr";
    "globals\("; "locals\("; "vars\("; "dir\(" ].

(** [alias.name.split('.')[0]] *)
Definition top_module (dotted : string) : string := split_head "." dotted.

(** The body of the loop of [_check_imports] for one node. *)
Definition import_violations (n : node) : list string :=
  match n with
  | Import names =>
      flat_map (fun a : alias =>
                  if mem (top_module (name a)) BLOCKED_IMPORTS
                  then ["Blocked import: " ++ name a] else [])
               names
  | ImportFrom (Some m) _ _ =>
      if negb (String.eqb m "") then
        if mem (top_module m) BLOCKED_IMPORTS
        then ["Blocked import from: " ++ m] else []
      else []
  | _ => []
  end.

Definition _check_imports (tree : node) : list string :=
  flat_map import_violations (walk tree).

(** [func_name] in [_check_functions]: the callee's last identifier, [None]
    when the callee is neither a name nor an attribute. *)
Definition func_name (func : node) : option string :=
  match func with
  | Name id => Some id
  | Attribute _ attr => Some attr
  | _ => None
  end.

(** The body of the loop of [_check_functions] for one node. *)
Definition function_violations (n : node) : list string :=
  match n with
  | Call func _ _ =>
      match func_name func with
      | Some f =>
          if mem f BLOCKED_FUNCTIONS
          then ["Blocked function call: " ++ f ++ "()"] else []
      | None => []
      end
  | _ => []
  end.

Definition _check_functions (tree : node) : list string :=
  flat_map function_violations (walk tree).

(** The body of the loop of [_check_file_operations] for one node; the
    function never adds a violation. *)
Definition file_warnings (n : node) : list string :=
  match n with
  | Call (Attribute _ attr) _ _ =>
      if mem attr ["open"; "write_text"; "write_bytes"; "read_text"; "read_bytes"]
      then ["File operation: Path." ++ attr ++ "()"] else []
  | _ => []
  end.

Definition _check_file_operations (tree : node) : list string * list string :=
  ([], flat_map file_warnings (walk tree)).

Definition safe_patterns : list string :=
  [ "__init__"; "__main__"; "__name__"; "__file__" ].

(** [_assess_risk] *)
Definition critical_keywords : list string :=
  [ "exec"; "eval"; "import os"; "subprocess" ].

Definition _assess_risk (violations warnings : list string) : string :=
  if is_empty violations && is_empty warnings then "safe"
  else if negb (is_empty violations) then
    if existsb (fun v => existsb (fun keyword => contains keyword (lower v))
                                 critical_keywords)
               violations
    then "critical" else "high"
  else if Nat.ltb 5 (List.length warnings) then "medium"
  else if Nat.ltb 0 (List.length warnings) then "low"
  else "safe".

Section Validate.

(** [ast.parse], which returns a tree or raises, [SyntaxError] for a source
    that is not well formed, and [re.findall]. *)
Variable ast_parse : string -> outcome node.
Variable re_findall : string -> string -> list string.

(** The body of the loop of [_check_suspicious_patterns] for one pattern. *)
Definition pattern_warnings (code pattern : string) : list string :=
  let matches := re_findall pattern code in
  match matches with
  | [] => []
  | _ :: _ =>
      let dangerous_matches := filter (fun m => negb (mem m safe_patterns)) matches in
      match dangerous_matches with
      | [] => []
      | _ :: _ =>
          [ "Suspicious pattern: " ++ pattern ++ " (matches: "
              ++ repr_list (firstn 3 dangerous_matches) ++ ")" ]
      end
  end.

Definition _check_suspicious_patterns (code : string) : list string :=
  flat_map (pattern_warnings code) SUSPICIOUS_PATTERNS.

(** Checks 2 to 5 of [validate] and its verdict, for a source that
    parsed. *)
Definition check_tree (code : string) (tree : node) : ValidationResult :=
  let violations := ([] ++ _check_imports tree)%list in
  let violations := (violations ++ _check_functions tree)%list in
  let '(file_violations, file_warnings) := _check_file_operations tree in
  let violations := (violations ++ file_violations)%list in
  let warnings := ([] ++ file_warnings)%list in
  let warnings := (warnings ++ _check_suspicious_patterns code)%list in
  let risk_level := _assess_risk violations warnings in
  let is_safe := mem risk_level ["safe"; "low"] in
  mk_ValidationResult is_safe violations warnings risk_level.

(** [SafetyValidator.validate]; only [SyntaxError] is caught. *)
Definition validate (code : string) : outcome ValidationResult :=
  match ast_parse code with
  | Raise (SyntaxError e) =>
      Return (mk_ValidationResult false ["Syntax error: " ++ e] [] "critical")
  | Raise e => Raise e
  | Return tree => Return (check_tree code tree)
  end.

End Validate.

End SafetyValidator.

(* ================================================================= *)
(** ** Effects: calls to the outside, in the order they are made *)

Module Eff.
Import Py.

(** The keyword arguments of [docker_client.containers.run]. *)
Record run_config := mk_run_config {
  image : string;
  command : list string;
  volumes : list (string * (string * string));   (* host path, bind, mode *)
  network_mode : string;
  mem_limit : string;
  memswap_limit : string;
  cpu_period : Z;
  cpu_quota : Z;
  security_opt : list string;
  read_only : bool;
  tmpfs : list (string * string);
  detach : bool;
  remove : bool;
  container_name : string
}.

(** One call that leaves the process. *)
Inductive event :=
| EvMkdtemp (prefix : string)
| EvMkdir (path : string)
| EvWriteText (path text : string)
| EvPickleDump (path : string)
| EvContainersRun (cfg : run_config)
| EvContainerWait (timeout : Z)
| EvContainerLogs
| EvContainerStop (timeout : Z)
| EvContainerRemove (force : bool)
| EvRmtree (path : string)
| EvGenerateCode (query : string)
| EvMessagesCreate (prompt : string).

(** The calls made so far, oldest first, and the number of readings of the
    clock. *)
Record state := mk_state { trace : list event; ticks : nat }.

Definition initial : state := mk_state [] 0.

(** A computation that makes calls and returns or raises. *)
Definition M (A : Type) : Type := state -> outcome A * state.

Definition ret {A : Type} (a : A) : M A := fun s => (Return a, s).

Definition raise {A : Type} (e : exn) : M A := fun s => (Raise e, s).

Definition bind {A B : Type} (m : M A) (k : A -> M B) : M B :=
  fun s =>
    match m s with
    | (Return a, s') => k a s'
    | (Raise e, s') => (Raise e, s')
    end.

(** [try: m  except Exception as e: handler e] *)
Definition try_except {A : Type} (m : M A) (handler : exn -> M A) : M A :=
  fun s =>
    match m s with
    | (Return a, s') => (Return a, s')
    | (Raise e, s') => handler e s'
    end.

(** [try: m  finally: cleanup] *)
Definition try_finally {A : Type} (m : M A) (cleanup : M unit) : M A :=
  fun s =>
    match m s with
    | (r, s') =>
        match cleanup s' with
        | (Return _, s'') => (r, s'')
        | (Raise e, s'') => (Raise e, s'')
        end
    end.

(** The outcome of [m] as a value. *)
Definition attempt {A : Type} (m : M A) : M (outcome A) :=
  fun s => match m s with (r, s') => (Return r, s') end.

(** A pure step that may raise. *)
Definition lift {A : Type} (r : outcome A) : M A := fun s => (r, s).

(** Make the call [ev]; it ends as [response] says. *)
Definition call {A : Type} (ev : event) (response : outcome A) : M A :=
  fun s => (response, mk_state (trace s ++ [ev]) (ticks s)).

(** Read the clock: the [n]-th reading is [clock n]. *)
Definition read_clock {A : Type} (clock : nat -> A) : M A :=
  fun s => (Return (clock (ticks s)), mk_state (trace s) (S (ticks s))).

(** The state [s] after the calls [evs] and [n] readings of the clock. *)
Definition advance (evs : list event) (n : nat) (s : state) : state :=
  mk_state (trace s ++ evs) (n + ticks s).

End Eff.

Declare Scope eff_scope.
Delimit Scope eff_scope with eff.
Notation "x <- m ;; k" := (Eff.bind m (fun x => k))
  (at level 61, m at next level, right associativity) : eff_scope.
Notation "m ;;; k" := (Eff.bind m (fun _ => k))
  (at level 61, right associativity) : eff_scope.

(* ================================================================= *)
(** ** tools/analytics/sandbox/executor.py *)

Module Sandbox.
Import PyStr Py Eff.
Local Open Scope eff_scope.

(** What [container.wait] returns: the daemon's answer, a [dict] that may
    hold 'StatusCode', or a bare integer. *)
Inductive wait_result :=
| WaitDict (status_code : option Z)
| WaitInt (n : Z).

Record Metadata := mk_Metadata {
  execution_id : string;
  exit_code : wait_result
}.

(** [ExecutionResult] *)
Record ExecutionResult := mk_ExecutionResult {
  success : bool;
  stdout : string;
  stderr : string;
  outputs : dict content;
  execution_time : float;
  error : option string;
  metadata : option Metadata
}.

(** An entry of the outputs directory: its name, whether it is a regular
    file, and the bytes it holds. *)
Record dir_entry := mk_dir_entry {
  entry_name : string;
  entry_is_file : bool;
  entry_bytes : string
}.

(** The world around one call of [execute]: how each call to the file
    system, to the Docker daemon and to the clock ends. *)
Record World := mk_World {
  uuid4 : string;                                    (* [str(uuid.uuid4())] *)
  mkdtemp : string -> outcome string;
  mkdir : string -> outcome unit;
  write_text : string -> string -> outcome unit;
  pickle_dump : string -> outcome unit;
  containers_run : run_config -> outcome unit;
  container_wait : Z -> outcome wait_result;
  container_logs : outcome string;
  container_stop : Z -> outcome unit;
  container_remove : bool -> outcome unit;
  rmtree : string -> outcome unit;
  iterdir : string -> option (list dir_entry);       (* [None]: no such directory *)
  read_text : string -> outcome string;              (* decoding of a file opened 'r' *)
  json_loads : string -> outcome json;
  decode_replace : string -> string;                 (* [.decode('utf-8', errors='replace')] *)
  time_time : nat -> float;
  float_sub : float -> float -> float
}.

Definition IMAGE_NAME : string := "python-analysis-sandbox:latest".
Definition TIMEOUT_SECONDS : Z := 300.

(** [workspace_path / name] *)
Definition path_join (dir name : string) : string := dir ++ "/" ++ name.

(** The body of the loop of [_collect_outputs] for one directory entry. *)
Definition collect_entry (w : World) (outputs : dict content) (f : dir_entry)
  : outcome (dict content) :=
  if entry_is_file f then
    let filename := entry_name f in
    if endswith filename ".json" then
      match read_text w (entry_bytes f) with
      | Raise e => Raise e
      | Return text =>
          match json_loads w text with
          | Raise e => Raise e
          | Return j => Return (dict_set outputs filename (CJson j))
          end
      end
    else if endswith filename ".png" || endswith filename ".jpg"
            || endswith filename ".jpeg" then
      Return (dict_set outputs filename (CBytes (entry_bytes f)))
    else if endswith filename ".html" then
      match read_text w (entry_bytes f) with
      | Raise e => Raise e
      | Return text => Return (dict_set outputs filename (CStr text))
      end
    else if endswith filename ".csv" then
      match read_text w (entry_bytes f) with
      | Raise e => Raise e
      | Return text => Return (dict_set outputs filename (CStr text))
      end
    else
      match read_text w (entry_bytes f) with
      | Return text => Return (dict_set outputs filename (CStr text))
      | Raise (UnicodeDecodeError _) =>
          Return (dict_set outputs filename (CBytes (entry_bytes f)))
      | Raise e => Raise e
      end
  else Return outputs.

Fixpoint collect_entries (w : World) (outputs : dict content)
         (entries : list dir_entry) : outcome (dict content) :=
  match entries with
  | [] => Return outputs
  | f :: rest =>
      match collect_entry w outputs f with
      | Raise e => Raise e
      | Return outputs' => collect_entries w outputs' rest
      end
  end.

(** [_collect_outputs] *)
Definition _collect_outputs (w : World) (outputs_dir : string)
  : outcome (dict content) :=
  match iterdir w outputs_dir with
  | None => Return []
  | Some entries => collect_entries w [] entries
  end.

(** The arguments [_run_container] gives to [containers.run]. *)
Definition container_config (workspace_path execution_id : string) : run_config :=
  {| image := IMAGE_NAME;
     command := ["python"; "-u"; "/sandbox/script.py"];
     volumes :=
       [ (path_join workspace_path "script.py", ("/sandbox/script.py", "ro"));
         (path_join workspace_path "data", ("/sandbox/data", "ro"));
         (path_join workspace_path "outputs", ("/sandbox/outputs", "rw")) ];
     network_mode := "none";
     mem_limit := "2g";
     memswap_limit := "2g";
     cpu_period := 100000;
     cpu_quota := 200000;
     security_opt := ["no-new-privileges"];
     read_only := true;
     tmpfs := [("/tmp", "size=512M")];
     detach := true;
     remove := false;
     container_name := "sandbox_" ++ execution_id |}.

(** [exit_code.get('StatusCode', 1) == 0 if isinstance(exit_code, dict)
     else exit_code == 0] *)
Definition exited_zero (exit_code : wait_result) : bool :=
  match exit_code with
  | WaitDict status_code =>
      Z.eqb (match status_code with Some n => n | None => 1%Z end) 0
  | WaitInt n => Z.eqb n 0
  end.

(** [e.stdout] for a [docker.errors.ContainerError]: the class has the
    attributes [container], [exit_status], [command], [image] and [stderr],
    and no [stdout]. *)
Definition no_stdout : exn :=
  AttributeError "'ContainerError' object has no attribute 'stdout'".

(** The two [except] clauses of [_run_container].  The clause for
    [ContainerError] raises in its turn while it builds its result: the
    argument [stdout=] is the first to be evaluated, before the clock is
    read, and it reads [e.stdout]. *)
Definition run_container_failed (w : World) (start_time : float) (e : exn)
  : M ExecutionResult :=
  match e with
  | ContainerError _ => raise no_stdout
  | _ =>
      now <- read_clock (time_time w) ;;
      ret {| success := false;
             stdout := "";
             stderr := str_exn e;
             outputs := [];
             execution_time := float_sub w now start_time;
             error := Some (str_exn e);
             metadata := None |}
  end.

(** The statements of the [try] of [_run_container] after the container
    has started. *)
Definition run_container_started (w : World) (workspace_path execution_id : string)
           (timeout : Z) (start_time : float) : M ExecutionResult :=
  logs <- try_except
            (exit_code <- call (EvContainerWait timeout) (container_wait w timeout) ;;
             raw <- call EvContainerLogs (container_logs w) ;;
             ret (exit_code, decode_replace w raw, ""))
            (fun e =>
               call (EvContainerStop 5) (container_stop w 5) ;;;
               raise e) ;;
  let '(exit_code, stdout, stderr) := logs in
  now <- read_clock (time_time w) ;;
  let execution_time := float_sub w now start_time in
  outputs <- lift (_collect_outputs w (path_join workspace_path "outputs")) ;;
  let success := exited_zero exit_code in
  ret {| success := success;
         stdout := stdout;
         stderr := stderr;
         outputs := outputs;
         execution_time := execution_time;
         error := None;
         metadata := Some (mk_Metadata execution_id exit_code) |}.

(** [_run_container].  [container] is [None] until [containers.run] has
    returned, so the [finally] clause removes a container exactly when that
    call returned: the model asks for the outcome of the call first and
    puts the [finally] around what follows it. *)
Definition _run_container (w : World) (workspace_path execution_id : string)
           (timeout : Z) : M ExecutionResult :=
  start_time <- read_clock (time_time w) ;;
  let cfg := container_config workspace_path execution_id in
  started <- attempt (call (EvContainersRun cfg) (containers_run w cfg)) ;;
  match started with
  | Raise e => run_container_failed w start_time e
  | Return _ =>
      try_finally
        (try_except
           (run_container_started w workspace_path execution_id timeout start_time)
           (run_container_failed w start_time))
        (try_except
           (call (EvContainerRemove true) (container_remove w true))
           (fun _ => ret tt))
  end.

Section Execute.

(** The values of the [data] dictionary, which [pickle] writes. *)
Context {Obj : Type}.

(** [str(uuid.uuid4())[:8]] *)
Definition new_execution_id (w : World) : string := substring 0 8 (uuid4 w).

(** [timeout or self.TIMEOUT_SECONDS] *)
Definition timeout_or_default (timeout : option Z) : Z :=
  match timeout with
  | Some t => if Z.eqb t 0 then TIMEOUT_SECONDS else t
  | None => TIMEOUT_SECONDS
  end.

(** The prefix [execute] gives to [tempfile.mkdtemp]. *)
Definition workspace_prefix (w : World) : string :=
  "sandbox_" ++ new_execution_id w ++ "_".

(** [if data:] then write [data.pkl]. *)
Definition write_data (w : World) (data_dir : string) (data : option (dict Obj))
  : M unit :=
  match data with
  | Some (_ :: _) =>
      let data_file := path_join data_dir "data.pkl" in
      call (EvPickleDump data_file) (pickle_dump w data_file)
  | _ => ret tt
  end.

(** The result [execute] builds in its own [except] clause. *)
Definition execute_failed (e : exn) : ExecutionResult :=
  {| success := false;
     stdout := "";
     stderr := str_exn e;
     outputs := [];
     execution_time := Float 0 0;
     error := Some (str_exn e);
     metadata := None |}.

(** [SandboxExecutor.execute] *)
Definition execute (w : World) (script : string) (data : option (dict Obj))
           (timeout : option Z) : M ExecutionResult :=
  let execution_id := new_execution_id w in
  let timeout := timeout_or_default timeout in
  workspace <- call (EvMkdtemp (workspace_prefix w)) (mkdtemp w (workspace_prefix w)) ;;
  let workspace_path := workspace in
  try_finally
    (try_except
       (let data_dir := path_join workspace_path "data" in
        let outputs_dir := path_join workspace_path "outputs" in
        call (EvMkdir data_dir) (mkdir w data_dir) ;;;
        call (EvMkdir outputs_dir) (mkdir w outputs_dir) ;;;
        let script_path := path_join workspace_path "script.py" in
        call (EvWriteText script_path script) (write_text w script_path script) ;;;
        write_data w data_dir data ;;;
        _run_container w workspace_path execution_id timeout)
       (fun e => ret (execute_failed e)))
    (try_except
       (call (EvRmtree workspace) (rmtree w workspace))
       (fun _ => ret tt)).

(** The calls [execute] makes before it starts the container, when none of
    them raises. *)
Definition workspace_events (w : World) (script : string) (data : option (dict Obj))
           (workspace : string) : list event :=
  [ EvMkdtemp (workspace_prefix w);
    EvMkdir (path_join workspace "data");
    EvMkdir (path_join workspace "outputs");
    EvWriteText (path_join workspace "script.py") script ]
  ++ match data with
     | Some (_ :: _) => [EvPickleDump (path_join (path_join workspace "data") "data.pkl")]
     | _ => []
     end.

(** The same, up to and including the start of the container. *)
Definition startup_events (w : World) (script : string) (data : option (dict Obj))
           (workspace : string) : list event :=
  workspace_events w script data workspace
  ++ [ EvContainersRun (container_config workspace (new_execution_id w)) ].

(** The workspace is made and filled and the container starts: none of
    these calls raises. *)
Definition starts (w : World) (script : string) (data : option (dict Obj))
           (workspace : string) : Prop :=
  mkdtemp w (workspace_prefix w) = Return workspace /\
  mkdir w (path_join workspace "data") = Return tt /\
  mkdir w (path_join workspace "outputs") = Return tt /\
  write_text w (path_join workspace "script.py") script = Return tt /\
  match data with
  | Some (_ :: _) =>
      pickle_dump w (path_join (path_join workspace "data") "data.pkl") = Return tt
  | _ => True
  end /\
  containers_run w (container_config workspace (new_execution_id w)) = Return tt.

End Execute.

(** The exception that leaves the inner [except] clause of
    [_run_container] when [container.wait] raised [e]: [e] again, unless
    [container.stop] raises in its turn. *)
Definition after_stop (w : World) (e : exn) : exn :=
  match container_stop w 5 with
  | Return _ => e
  | Raise e' => e'
  end.

(** The exception whose text the result of [execute] carries when [e]
    reaches the [except] clauses of [_run_container]: [e] itself, or, for a
    [ContainerError], the [AttributeError] its clause raises, which the
    [except] clause of [execute] catches. *)
Definition reported (e : exn) : exn :=
  match e with
  | ContainerError _ => no_stdout
  | _ => e
  end.

(** [res] is a failure result built from the exception [e]: no outputs, no
    metadata, [str(e)] as the error. *)
Definition failed_with (e : exn) (res : ExecutionResult) : Prop :=
  success res = false /\ outputs res = [] /\
  error res = Some (str_exn e) /\ metadata res = None.

(** The exit code an [ExecutionResult] records, if any. *)
Definition recorded_exit_code (r : ExecutionResult) : option wait_result :=
  option_map exit_code (metadata r).

End Sandbox.

(* ================================================================= *)
(** ** tools/analytics/result_processor.py, tools/analytics/code_generator.py
       and agents/python_analysis_agent.py *)

Module Agent.
Import PyStr Py Eff.
Local Open Scope eff_scope.

(** [AnalysisResult] *)
Record AnalysisResult := mk_AnalysisResult {
  success : bool;
  query : string;
  insights : content;
  visualizations : list (dict content);
  metrics : dict json;
  data_outputs : dict (dict content);
  execution_time : float;
  error : option string;
  raw_output : option string
}.

(** [ResultProcessor._extract_data_outputs] *)
Definition _extract_data_outputs (outputs : dict content) : dict (dict content) :=
  fold_left
    (fun data_outputs (item : string * content) =>
       let '(filename, c) := item in
       if endswith filename ".csv" then
         dict_set data_outputs filename [("type", CStr "csv"); ("content", c)]
       else if endswith filename ".txt" && negb (String.eqb filename "insights.txt") then
         dict_set data_outputs filename [("type", CStr "text"); ("content", c)]
       else data_outputs)
    outputs [].

(** [ResultProcessor._extract_insights] *)
Definition _extract_insights (outputs : dict content) : content :=
  match dict_get outputs "insights.txt" with
  | Some c => c
  | None =>
      CStr "No insights generated. Check the visualizations and metrics for analysis results."
  end.

(** [x or default] for an optional string. *)
Definition str_or (x : option string) (default : string) : string :=
  match x with
  | Some s => if negb (String.eqb s "") then s else default
  | None => default
  end.

(** [insights or fallback] for the optional [insights] of [process]. *)
Definition content_or (x : option content) (fallback : content) : content :=
  match x with
  | Some c => if truthy c then c else fallback
  | None => fallback
  end.

(** How one task of [batch_analyze] ends for its caller. *)
Inductive completion (A : Type) :=
| Completes (a : A)
| Fails (e : exn)
| Blocks.
Arguments Completes {A} a.
Arguments Fails {A} e.
Arguments Blocks {A}.

(** [enumerate(l)] *)
Fixpoint enumerate_from {A : Type} (i : nat) (l : list A) : list (nat * A) :=
  match l with
  | [] => []
  | x :: rest => (i, x) :: enumerate_from (S i) rest
  end.

Definition enumerate {A : Type} (l : list A) : list (nat * A) := enumerate_from 0 l.

(** The result [batch_analyze] puts in the place of a task that raised
    [e]. *)
Definition batch_error (query : string) (e : exn) : AnalysisResult :=
  {| success := false;
     query := query;
     insights := CStr ("Error: " ++ str_exn e);
     visualizations := [];
     metrics := [];
     data_outputs := [];
     execution_time := Float 0 0;
     error := Some (str_exn e);
     raw_output := None |}.

(** The loop of [batch_analyze] over what [asyncio.gather] returned;
    [queries[i]] is in range, the two lists being of one length. *)
Definition convert_exceptions (queries : list string)
           (results : list (outcome AnalysisResult)) : list AnalysisResult :=
  map (fun item : nat * outcome AnalysisResult =>
         let '(i, result) := item in
         match result with
         | Raise e => batch_error (nth i queries "") e
         | Return r => r
         end)
      (enumerate results).

(** [PythonAnalysisAgent.batch_analyze].  [run_task i q] is how the [i]-th
    task, [analyze_with_semaphore(q)], ends.  [asyncio.Semaphore] refuses a
    negative value with [ValueError]; with the value 0 no task ever enters
    the semaphore, so a non-empty batch never completes;
    [asyncio.gather(..., return_exceptions=True)] waits for every task and
    returns the outcomes in the order of the tasks, an exception in the
    place of the task that raised it. *)
Definition batch_analyze (run_task : nat -> string -> outcome AnalysisResult)
           (queries : list string) (max_concurrent : Z)
  : completion (list AnalysisResult) :=
  if Z.ltb max_concurrent 0 then
    Fails (ValueError "Semaphore initial value must be >= 0")
  else if Z.eqb max_concurrent 0 && negb (is_empty queries) then Blocks
  else
    let tasks := enumerate queries in
    let results := map (fun task : nat * string =>
                          let '(i, q) := task in run_task i q) tasks in
    Completes (convert_exceptions queries results).

(** The [NameError] for the name [json] in [code_generator.py]. *)
Definition json_is_not_defined : exn :=
  OtherException "name 'json' is not defined".

Section Analyze.

(** The parser and the regular-expression engine of the validator. *)
Variable ast_parse : string -> outcome Ast.node.
Variable re_findall : string -> string -> list string.

(** The input table and what [_prepare_data_context] makes of it. *)
Variables DataFrame DataContext : Type.
Variable _prepare_data_context : DataFrame -> outcome DataContext.

(** [CodeGenerator.generate]: the answer of the model with its code fences
    removed, or the exception of the call. *)
Variable generate : string -> DataContext -> option string -> outcome string.

(** The prompt [generate_insights] builds when it can build one, and
    [response.content[0].text] of [client.messages.create] for a prompt. *)
Variable insights_prompt : string -> dict content -> content -> Sandbox.ExecutionResult -> string.
Variable messages_create : string -> outcome string.

(** [ResultProcessor._extract_visualizations] and [_extract_metrics]. *)
Variable _extract_visualizations : dict content -> outcome (list (dict content)).
Variable _extract_metrics : dict content -> outcome (dict json).

(** The world of the sandbox. *)
Variable w : Sandbox.World.

(** [CodeGenerator.generate_insights].  The prompt is an f-string that
    holds [json.dumps(metrics, indent=2) if metrics else 'No metrics
    generated'], and [code_generator.py] never imports [json]: with
    metrics that are not empty the prompt cannot be built, and the
    [NameError] leaves the function, the prompt being built before the
    [try]. *)
Definition generate_insights (query : string) (outputs : dict content)
           (execution_result : Sandbox.ExecutionResult) : M content :=
  let metrics := dict_get_default outputs "metrics.json" (CJson (JObj [])) in
  let insights_file := dict_get_default outputs "insights.txt" (CStr "") in
  if truthy insights_file then ret insights_file
  else if truthy metrics then raise json_is_not_defined
  else
    let prompt := insights_prompt query outputs metrics execution_result in
    try_except
      (text <- call (EvMessagesCreate prompt) (messages_create prompt) ;;
       ret (CStr (strip text)))
      (fun _ => ret (CStr "Could not generate insights from the analysis results.")).

(** [ResultProcessor.process] *)
Definition process (query : string) (execution_result : Sandbox.ExecutionResult)
           (insights : option content) : outcome AnalysisResult :=
  if negb (Sandbox.success execution_result) then
    Return {| success := false;
              query := query;
              insights := CStr ("Analysis failed: "
                                  ++ str_or (Sandbox.error execution_result) "Unknown error");
              visualizations := [];
              metrics := [];
              data_outputs := [];
              execution_time := Sandbox.execution_time execution_result;
              error := Sandbox.error execution_result;
              raw_output := Some (Sandbox.stderr execution_result) |}
  else
    match _extract_visualizations (Sandbox.outputs execution_result) with
    | Raise e => Raise e
    | Return visualizations =>
        match _extract_metrics (Sandbox.outputs execution_result) with
        | Raise e => Raise e
        | Return metrics =>
            let data_outputs := _extract_data_outputs (Sandbox.outputs execution_result) in
            let final_insights :=
              content_or insights (_extract_insights (Sandbox.outputs execution_result)) in
            Return {| success := true;
                      query := query;
                      insights := final_insights;
                      visualizations := visualizations;
                      metrics := metrics;
                      data_outputs := data_outputs;
                      execution_time := Sandbox.execution_time execution_result;
                      error := None;
                      raw_output := Some (Sandbox.stdout execution_result) |}
        end
    end.

(** The result [analyze] returns when the validator rejects the code. *)
Definition validation_failed (query : string) (violations : list string)
  : AnalysisResult :=
  {| success := false;
     query := query;
     insights := CStr ("Code validation failed. Security violations detected:"
                         ++ newline
                         ++ join newline (map (fun v => "â€¢ " ++ v) violations));
     visualizations := [];
     metrics := [];
     data_outputs := [];
     execution_time := Float 0 0;
     error := Some "Code safety validation failed";
     raw_output := None |}.

(** The result [analyze] builds in its [except] clause. *)
Definition analysis_failed (query : string) (e : exn) : AnalysisResult :=
  {| success := false;
     query := query;
     insights := CStr ("Analysis failed with error: " ++ str_exn e);
     visualizations := [];
     metrics := [];
     data_outputs := [];
     execution_time := Float 0 0;
     error := Some (str_exn e);
     raw_output := None |}.

(** Steps 4 and 5 of [analyze]: the insights of a successful execution,
    then [process]. *)
Definition summarize (query : string) (execution_result : Sandbox.ExecutionResult)
  : M AnalysisResult :=
  insights <- (if Sandbox.success execution_result then
                 i <- generate_insights query (Sandbox.outputs execution_result)
                                        execution_result ;;
                 ret (Some i)
               else ret None) ;;
  result <- lift (process query execution_result insights) ;;
  ret result.

(** [PythonAnalysisAgent.analyze] *)
Definition analyze (query : string) (data : DataFrame)
           (analysis_type : option string) (timeout : Z) : M AnalysisResult :=
  try_except
    (data_context <- lift (_prepare_data_context data) ;;
     code <- call (EvGenerateCode query) (generate query data_context analysis_type) ;;
     validation_result <- lift (SafetyValidator.validate ast_parse re_findall code) ;;
     if negb (SafetyValidator.is_safe validation_result) then
       ret (validation_failed query (SafetyValidator.violations validation_result))
     else
       execution_result <- Sandbox.execute w code (Some [("data", data)]) (Some timeout) ;;
       summarize query execution_result)
    (fun e => ret (analysis_failed query e)).

End Analyze.

End Agent.

(* ================================================================= *)
(** ** backend/main.py *)

Module Backend.
Import PyStr Py.

(** One entry of a session's history. *)
Record Message := mk_Message {
  role : string;
  content : json;
  timestamp : string
}.

(** The state of the process: the module-level [chat_sessions] and the
    number of readings of the clock so far. *)
Record Server := mk_Server {
  chat_sessions : dict (list Message);
  clock_reads : nat
}.

(** [SessionInfo] *)
Record SessionInfo := mk_SessionInfo {
  session_id : string;
  message_count : nat;
  created_at : string;
  last_updated : string
}.

(** What an HTTP handler gives back: its return value, sent with status
    200, or an [HTTPException]. *)
Inductive response (A : Type) :=
| Ok200 (body : A)
| HTTPException (status_code : nat) (detail : string).
Arguments Ok200 {A} body.
Arguments HTTPException {A} status_code detail.

(** A frame [websocket.send_json] sends. *)
Record frame := mk_frame {
  frame_type : string;
  frame_content : string;
  frame_timestamp : option string
}.

(** What [websocket.receive_text] meets: a text frame, or the close of
    the peer, raised as [WebSocketDisconnect]. *)
Inductive inbound :=
| TextFrame (data : string)
| PeerClose.

(** Where [websocket_chat] stands when the frames received so far are
    used up: waiting in [receive_text], or returned, after the close of the
    peer or after an exception. *)
Inductive ws_status :=
| Receiving
| ClosedByPeer
| EndedByError (e : exn).

Record ws_run := mk_ws_run {
  server : Server;
  sent : list frame;
  status : ws_status
}.

(** [type(x).__name__] of a decoded JSON value. *)
Definition type_name (j : json) : string :=
  match j with
  | JNull => "NoneType"
  | JBool _ => "bool"
  | JInt _ => "int"
  | JFloat _ => "float"
  | JStr _ => "str"
  | JArr _ => "list"
  | JObj _ => "dict"
  end.

Definition no_attribute (j : json) (attr : string) : exn :=
  AttributeError ("'" ++ type_name j ++ "' object has no attribute '" ++ attr ++ "'").

(** [process_with_agent]; [message.lower()] needs a [str]. *)
Definition process_with_agent (message : json) : outcome string :=
  match message with
  | JStr m =>
      if contains "portfolio" (lower m) then
        Return "I can help you analyze your portfolio. The system currently shows you have 3 active portfolios with a total value of $150,000. Would you like me to show you detailed performance metrics?"
      else if contains "return" (lower m) then
        Return "Based on your portfolio data, your year-to-date return is 12.5%, outperforming the S&P 500 by 2.3%. Would you like me to break this down by asset class?"
      else if contains "risk" (lower m) then
        Return "Your portfolio has a beta of 0.95 and a Sharpe ratio of 1.8, indicating good risk-adjusted returns. The current allocation is 60% stocks, 30% bonds, and 10% cash."
      else
        Return ("I understand you're asking about: '" ++ m
                  ++ "'. I'm a financial insights agent that can help you with portfolio analysis, performance metrics, risk assessment, and market comparisons. What would you like to know?")
  | other => Raise (no_attribute other "lower")
  end.

(** [messages[-1]] of a non-empty list, [messages[0]] when there is one
    message. *)
Definition last_message (first : Message) (rest : list Message) : Message :=
  last rest first.

(** [get_sessions] *)
Definition get_sessions (st : Server) : list SessionInfo :=
  flat_map
    (fun item : string * list Message =>
       let '(session_id, messages) := item in
       match messages with
       | [] => []
       | first :: rest =>
           [ mk_SessionInfo session_id (List.length messages)
                            (timestamp first)
                            (timestamp (last_message first rest)) ]
       end)
    (chat_sessions st).

(** [get_session_history] *)
Definition get_session_history (session_id : string) (st : Server)
  : response (string * list Message) :=
  match dict_get (chat_sessions st) session_id with
  | None => HTTPException 404 "Session not found"
  | Some messages => Ok200 (session_id, messages)
  end.

(** [delete_session] *)
Definition delete_session (session_id : string) (st : Server)
  : response string * Server :=
  if negb (dict_has (chat_sessions st) session_id) then
    (HTTPException 404 "Session not found", st)
  else
    (Ok200 "Session deleted successfully",
     mk_Server (dict_del (chat_sessions st) session_id) (clock_reads st)).

(** The frame the [except Exception] clause of [websocket_chat] sends. *)
Definition error_frame (e : exn) : frame := mk_frame "error" (str_exn e) None.

Section Handlers.

(** [datetime.utcnow().isoformat()] at the [n]-th reading of the clock,
    and [json.loads]. *)
Variable utcnow_isoformat : nat -> string.
Variable json_loads : string -> outcome json.

(** [chat_sessions[session_id].append({"role": ..., "content": ...,
    "timestamp": datetime.utcnow().isoformat()})]: the subscript comes
    first and raises [KeyError] for a session that is not there. *)
Definition append_message (session_id role : string) (content : json) (st : Server)
  : outcome unit * Server :=
  match dict_get (chat_sessions st) session_id with
  | None => (Raise (KeyError ("'" ++ session_id ++ "'")), st)
  | Some messages =>
      let message := mk_Message role content (utcnow_isoformat (clock_reads st)) in
      (Return tt,
       mk_Server (dict_set (chat_sessions st) session_id (messages ++ [message])%list)
                 (S (clock_reads st)))
  end.

(** One turn of the loop of [websocket_chat] after [receive_text] returned
    [data]: the frame to send, or the exception raised on the way, and the
    state left behind in either case. *)
Definition handle_text (session_id data : string) (st : Server)
  : outcome frame * Server :=
  match json_loads data with
  | Raise e => (Raise e, st)
  | Return message_data =>
      match message_data with
      | JObj members =>
          let user_message := dict_get_default members "message" (JStr "") in
          match append_message session_id "user" user_message st with
          | (Raise e, st1) => (Raise e, st1)
          | (Return _, st1) =>
              match process_with_agent user_message with
              | Raise e => (Raise e, st1)
              | Return response =>
                  match append_message session_id "assistant" (JStr response) st1 with
                  | (Raise e, st2) => (Raise e, st2)
                  | (Return _, st2) =>
                      (Return (mk_frame "message" response
                                        (Some (utcnow_isoformat (clock_reads st2)))),
                       mk_Server (chat_sessions st2) (S (clock_reads st2)))
                  end
              end
          end
      | other => (Raise (no_attribute other "get"), st)
      end
  end.

(** The [try] statement of [websocket_chat], which holds the whole
    [while True] loop, run on the frames the peer sends.  An exception
    leaves the loop: [WebSocketDisconnect] is logged, any other is answered
    with an error frame, and the handler returns. *)
Fixpoint receive_loop (session_id : string) (inbox : list inbound)
         (st : Server) (out : list frame) : ws_run :=
  match inbox with
  | [] => mk_ws_run st out Receiving
  | PeerClose :: _ => mk_ws_run st out ClosedByPeer
  | TextFrame data :: rest =>
      match handle_text session_id data st with
      | (Return reply, st') => receive_loop session_id rest st' (out ++ [reply])%list
      | (Raise WebSocketDisconnect, st') => mk_ws_run st' out ClosedByPeer
      | (Raise e, st') => mk_ws_run st' (out ++ [error_frame e])%list (EndedByError e)
      end
  end.

(** What [websocket_chat] does before the loop: accept, then make the
    session if it is not there. *)
Definition accept_session (session_id : string) (st : Server) : Server :=
  if negb (dict_has (chat_sessions st) session_id) then
    mk_Server (dict_set (chat_sessions st) session_id []) (clock_reads st)
  else st.

(** [websocket_chat] *)
Definition websocket_chat (session_id : string) (inbox : list inbound)
           (st : Server) : ws_run :=
  receive_loop session_id inbox (accept_session session_id st) [].

End Handlers.

End Backend.

(* ================================================================= *)
(** ** Concrete inputs of the end-to-end scenarios *)

Module Scenario.
Import PyStr Ast Py Eff Sandbox Backend.

(** The source of the second end-to-end scenario, [import os] followed by a
    call of [os.system] on a string literal, and the tree [ast.parse] gives
    for it: a module of an [Import] statement and an expression statement
    holding the call. *)
Definition import_os_source : string :=
  "import os" ++ newline ++ "os.system(" ++ dquote ++ "…" ++ dquote ++ ")".

Definition import_os_tree : node :=
  Other [ Import [mk_alias "os" None];
          Other [ Call (Attribute (Name "os") "system") [Other []] [] ] ].

(** A world in which every call to the file system and to the daemon
    succeeds, the container exits with status 0 and writes nothing. *)
Definition quiet_world : World :=
  {| uuid4 := "1a2b3c4d-5e6f-4a7b-8c9d-0e1f2a3b4c5d";
     mkdtemp := fun prefix => Return ("/tmp/" ++ prefix ++ "k3x9");
     mkdir := fun _ => Return tt;
     write_text := fun _ _ => Return tt;
     pickle_dump := fun _ => Return tt;
     containers_run := fun _ => Return tt;
     container_wait := fun _ => Return (WaitDict (Some 0%Z));
     container_logs := Return "";
     container_stop := fun _ => Return tt;
     container_remove := fun _ => Return tt;
     rmtree := fun _ => Return tt;
     iterdir := fun _ => Some [];
     read_text := fun b => Return b;
     json_loads := fun _ => Return JNull;
     decode_replace := fun b => b;
     time_time := fun n => Float (Z.of_nat n) 0;
     float_sub := fun a b =>
                    match a, b with Float m _, Float n _ => Float (m - n) 0 end |}.

(** The fourth end-to-end scenario: the program sleeps past a deadline of
    two seconds, so that [container.wait] gives up with the time-out error
    of the HTTP client. *)
Definition sleep_script : string := "import time" ++ newline ++ "time.sleep(600)".

Definition read_timed_out : exn :=
  ReadTimeout "UnixHTTPConnectionPool(host='localhost', port=None): Read timed out. (read timeout=2)".

Definition timeout_world : World :=
  {| uuid4 := uuid4 quiet_world;
     mkdtemp := mkdtemp quiet_world;
     mkdir := mkdir quiet_world;
     write_text := write_text quiet_world;
     pickle_dump := pickle_dump quiet_world;
     containers_run := containers_run quiet_world;
     container_wait := fun _ => Raise read_timed_out;
     container_logs := container_logs quiet_world;
     container_stop := container_stop quiet_world;
     container_remove := container_remove quiet_world;
     rmtree := rmtree quiet_world;
     iterdir := iterdir quiet_world;
     read_text := read_text quiet_world;
     json_loads := json_loads quiet_world;
     decode_replace := decode_replace quiet_world;
     time_time := time_time quiet_world;
     float_sub := float_sub quiet_world |}.

(** A program that exits with status 0 after writing a [metrics.json]
    that is not JSON. *)
Definition expecting_property_name : exn :=
  JSONDecodeError "Expecting property name enclosed in double quotes: line 1 column 2 (char 1)".

Definition malformed_metrics : dir_entry :=
  mk_dir_entry "metrics.json" true "{bad".

Definition malformed_json_world : World :=
  {| uuid4 := uuid4 quiet_world;
     mkdtemp := mkdtemp quiet_world;
     mkdir := mkdir quiet_world;
     write_text := write_text quiet_world;
     pickle_dump := pickle_dump quiet_world;
     containers_run := containers_run quiet_world;
     container_wait := container_wait quiet_world;
     container_logs := container_logs quiet_world;
     container_stop := container_stop quiet_world;
     container_remove := container_remove quiet_world;
     rmtree := rmtree quiet_world;
     iterdir := fun _ => Some [malformed_metrics];
     read_text := read_text quiet_world;
     json_loads := fun _ => Raise expecting_property_name;
     decode_replace := decode_replace quiet_world;
     time_time := time_time quiet_world;
     float_sub := float_sub quiet_world |}.

(** The first end-to-end scenario: the generated source calls [exec] on a
    string literal. *)
Definition exec_source : string := "exec(" ++ dquote ++ "…" ++ dquote ++ ")".

Definition exec_tree : node :=
  Other [ Other [ Call (Name "exec") [Other []] [] ] ].

(** A program that writes an [insights.txt] of zero bytes through
    [pathlib], and the world in which it has run: status 0 and that one
    empty file in the outputs directory. *)
Definition empty_insights_source : string :=
  "from pathlib import Path" ++ newline
  ++ "Path('/sandbox/outputs/insights.txt').write_text('')".

Definition empty_insights_tree : node :=
  Other [ ImportFrom (Some "pathlib") [mk_alias "Path" None] 0;
          Other [ Call (Attribute (Call (Name "Path") [Other []] []) "write_text")
                       [Other []] [] ] ].






(** The summary the model writes when asked. *)
Definition generated_summary : string := "- Revenue grew 12% over the quarter.".

(** An orchestrator around a sandbox world [w]: the model answers every
    request for code with [source], which parses to [tree], and every
    request for a summary with [generated_summary]; the table is not looked
    at. *)
Definition scripted_analyze (source : string) (tree : node) (w : World)
           (query : string) : M Agent.AnalysisResult :=
  Agent.analyze (fun _ => Return tree) (fun _ _ => [])
                unit unit (fun _ => Return tt)
                (fun _ _ _ => Return source)
                (fun q _ _ _ => "Summarize the analysis: " ++ q)
                (fun _ => Return generated_summary)
                (fun _ => Return []) (fun _ => Return [])
                w query tt None 300.

(** A chat over the streaming endpoint: the text frame [{"message": "hi"}],
    a decoder that knows that frame and rejects every other text, a clock,
    and a server without sessions. *)
Definition hello_frame : string :=
  "{" ++ dquote ++ "message" ++ dquote ++ ": " ++ dquote ++ "hi" ++ dquote ++ "}".

Definition expecting_value : exn :=
  JSONDecodeError "Expecting value: line 1 column 1 (char 0)".

Definition scenario_json_loads (data : string) : outcome json :=
  if String.eqb data hello_frame then Return (JObj [("message", JStr "hi")])
  else Raise expecting_value.

Definition scenario_clock (n : nat) : string :=
  "2024-05-01T09:00:0" ++ chr (48 + n).

Definition empty_server : Server := mk_Server [] 0.

(** The workspace [tempfile.mkdtemp] makes in these worlds. *)
Definition scenario_workspace : string := "/tmp/sandbox_1a2b3c4d_k3x9".

End Scenario.

(* ================================================================= *)
(** ** What a computation may do: predicates on its calls and its end *)

Module EffLogic.
Import Py Eff.

(** Every call [m] makes, from any state and however it ends, satisfies
    [P]; the calls made before are kept. *)
Definition emits {A : Type} (P : event -> Prop) (m : M A) : Prop :=
  forall s r s', m s = (r, s') ->
    exists evs, trace s' = (trace s ++ evs)%list /\ Forall P evs.

(** [m] returns from every state: it never raises. *)
Definition never_raises {A : Type} (m : M A) : Prop :=
  forall s, exists a s', m s = (Return a, s').

(** Whenever [m] returns, the value it returns satisfies [Q]. *)
Definition yields {A : Type} (Q : A -> Prop) (m : M A) : Prop :=
  forall s a s', m s = (Return a, s') -> Q a.

(** What [execute] is allowed to ask of the Docker daemon: a container is
    started with the configuration of [_run_container] for some workspace
    and execution id, stopped with a grace of five seconds, removed by
    force. *)
Definition docker_discipline (ev : event) : Prop :=
  match ev with
  | EvContainersRun cfg =>
      network_mode cfg = "none" /\ read_only cfg = true /\
      security_opt cfg = ["no-new-privileges"] /\
      mem_limit cfg = "2g" /\ memswap_limit cfg = "2g" /\
      detach cfg = true /\ remove cfg = false
  | EvContainerStop timeout => timeout = 5%Z
  | EvContainerRemove force => force = true
  | _ => True
  end.

End EffLogic.

(* ================================================================= *)
(** ** tools/analytics/code_generator.py: the answer of the model *)

Module CodeGenerator.
Import PyStr Py.

(** [s[n:]] and [s[:-n]] for [n] at most the length of [s]. *)
Definition drop_first (n : nat) (s : string) : string :=
  substring n (String.length s - n) s.

Definition drop_last (n : nat) (s : string) : string :=
  substring 0 (String.length s - n) s.

(** The three backquotes of a code fence. *)
Definition fence : string := "```".
Definition python_fence : string := "```python".

(** [CodeGenerator._extract_code] *)
Definition _extract_code (response_text : string) : string :=
  let code := strip response_text in
  let code :=
    if startswith code python_fence then
      strip (drop_first (String.length python_fence) code)
    else if startswith code fence then
      strip (drop_first (String.length fence) code)
    else code in
  let code :=
    if endswith code fence then strip (drop_last (String.length fence) code)
    else code in
  code.

End CodeGenerator.

(* ================================================================= *)
(** ** tools/analytics/result_processor.py: visualizations and titles *)

Module ResultProcessor.
Import PyStr Py.

(** [s.rsplit(sep, 1)[0]]: what stands before the last [sep], or all of
    [s] when it holds none. *)
Fixpoint before_last (sep : ascii) (s : string) : option string :=
  match s with
  | EmptyString => None
  | String c s' =>
      match before_last sep s' with
      | Some r => Some (String c r)
      | None => if Ascii.eqb c sep then Some EmptyString else None
      end
  end.

Definition rsplit_head (sep : ascii) (s : string) : string :=
  match before_last sep s with
  | Some r => r
  | None => s
  end.

(** [s.replace(old, new)] for two characters. *)
Fixpoint replace_char (old new : ascii) (s : string) : string :=
  match s with
  | EmptyString => EmptyString
  | String c s' =>
      String (if Ascii.eqb c old then new else c) (replace_char old new s')
  end.

Definition is_upper (c : ascii) : bool :=
  let n := nat_of_ascii c in Nat.leb 65 n && Nat.leb n 90.

Definition is_lower (c : ascii) : bool :=
  let n := nat_of_ascii c in Nat.leb 97 n && Nat.leb n 122.

Definition upper_ascii (c : ascii) : ascii :=
  if is_lower c then ascii_of_nat (nat_of_ascii c - 32) else c.

(** [s.title()] on ASCII text: a letter that follows a letter is put in
    lower case, any other letter in upper case. *)
Fixpoint title_from (previous_is_cased : bool) (s : string) : string :=
  match s with
  | EmptyString => EmptyString
  | String c s' =>
      if is_upper c || is_lower c then
        String (if previous_is_cased then lower_ascii c else upper_ascii c)
               (title_from true s')
      else String c (title_from false s')
  end.

Definition title (s : string) : string := title_from false s.

(** The loop of [_filename_to_title] over its four prefixes: each one is
    removed, in this order, if the name starts with it at that point. *)
Definition strip_prefixes (name : string) : string :=
  fold_left
    (fun name prefix =>
       if startswith name prefix
       then substring (String.length prefix)
                      (String.length name - String.length prefix) name
       else name)
    ["plot_"; "chart_"; "fig_"; "graph_"] name.

(** [ResultProcessor._filename_to_title] *)
Definition _filename_to_title (filename : string) : string :=
  let name := rsplit_head "." filename in
  let name := strip_prefixes name in
  title (replace_char "_" " " name).

Section Visualizations.

(** [base64.b64encode(b).decode('utf-8')] *)
Variable b64encode : string -> string.

(** The body of the loop of [_extract_visualizations] for one output. *)
Definition visualization_of (item : string * content) : list (dict content) :=
  let '(filename, c) := item in
  if endswith filename ".png" then
    [ [ ("type", CStr "image");
        ("format", CStr "png");
        ("filename", CStr filename);
        ("data", match c with CBytes b => CStr (b64encode b) | other => other end);
        ("title", CStr (_filename_to_title filename)) ] ]
  else if endswith filename ".html" then
    [ [ ("type", CStr "html");
        ("format", CStr "html");
        ("filename", CStr filename);
        ("data", c);
        ("title", CStr (_filename_to_title filename)) ] ]
  else [].

(** [ResultProcessor._extract_visualizations] *)
Definition _extract_visualizations (outputs : dict content) : list (dict content) :=
  flat_map visualization_of outputs.

End Visualizations.

(** The file name a visualization was made from. *)
Definition filename_of (viz : dict content) : option content :=
  dict_get viz "filename".

(** [s.replace(old, '')] for a non-empty [old]: every occurrence of
    [old] is taken out, from left to right; [skip] counts the characters of
    an occurrence still to pass. *)
Fixpoint remove_all_from (skip : nat) (old s : string) : string :=
  match s with
  | EmptyString => EmptyString
  | String c s' =>
      match skip with
      | S k => remove_all_from k old s'
      | O =>
          if startswith s old then remove_all_from (String.length old - 1) old s'
          else String c (remove_all_from 0 old s')
      end
  end.

Definition remove_all (old s : string) : string := remove_all_from 0 old s.

(** The [TypeError] of [json.loads] for what is no text. *)
Definition not_a_document (j : json) : exn :=
  OtherException ("the JSON object must be str, bytes or bytearray, not "
                    ++ Backend.type_name j).

(** The [TypeError] of [metrics[key] = value] when [metrics] is no
    [dict]. *)
Definition no_item_assignment (j : json) : exn :=
  match j with
  | JArr _ => OtherException "list indices must be integers or slices, not str"
  | other =>
      OtherException ("'" ++ Backend.type_name other
                          ++ "' object does not support item assignment")
  end.

(** [metrics[key] = value] *)
Definition setitem (metrics : json) (key : string) (value : json) : outcome json :=
  match metrics with
  | JObj members => Return (JObj (dict_set members key value))
  | other => Raise (no_item_assignment other)
  end.

(** The name of a JSON output other than [metrics.json]. *)
Definition other_json (filename : string) : bool :=
  endswith filename ".json" && negb (String.eqb filename "metrics.json").

(** A decoded document that is neither a [dict] nor a [str]: a list, a
    number, a truth value or [None]. *)
Definition no_text (j : json) : Prop :=
  match j with
  | JObj _ | JStr _ => False
  | _ => True
  end.

Section Metrics.

(** [json.loads] of a [str] and of [bytes] *)
Variable json_loads : string -> outcome json.
Variable json_loads_bytes : string -> outcome json.

(** [content if isinstance(content, dict) else json.loads(content)] *)
Definition document_of (c : content) : outcome json :=
  match c with
  | CJson (JObj members) => Return (JObj members)
  | CJson (JStr s) => json_loads s
  | CJson j => Raise (not_a_document j)
  | CStr s => json_loads s
  | CBytes b => json_loads_bytes b
  end.

(** The first part of [_extract_metrics]: the document of [metrics.json],
    an empty [dict] without it or when it cannot be decoded. *)
Definition metrics_document (outputs : dict content) : outcome json :=
  match dict_get outputs "metrics.json" with
  | None => Return (JObj [])
  | Some c =>
      match document_of c with
      | Return j => Return j
      | Raise (JSONDecodeError _) => Return (JObj [])
      | Raise e => Raise e
      end
  end.

(** The body of the loop of [_extract_metrics] for one output. *)
Definition add_metrics (metrics : json) (item : string * content) : outcome json :=
  let '(filename, c) := item in
  if other_json filename then
    match document_of c with
    | Return j => setitem metrics (remove_all ".json" filename) j
    | Raise (JSONDecodeError _) => Return metrics
    | Raise e => Raise e
    end
  else Return metrics.

Fixpoint add_all_metrics (metrics : json) (items : dict content) : outcome json :=
  match items with
  | [] => Return metrics
  | item :: rest =>
      match add_metrics metrics item with
      | Return metrics' => add_all_metrics metrics' rest
      | Raise e => Raise e
      end
  end.

(** [ResultProcessor._extract_metrics] *)
Definition _extract_metrics (outputs : dict content) : outcome json :=
  match metrics_document outputs with
  | Return metrics => add_all_metrics metrics outputs
  | Raise e => Raise e
  end.

End Metrics.

End ResultProcessor.

(* ================================================================= *)
(** ** backend/main.py: the synchronous endpoint and the store *)

Module ChatEndpoint.
Import PyStr Py Backend.

(** [ChatMessage] and [ChatResponse] *)
Record ChatMessage := mk_ChatMessage {
  message : string;
  requested_session : option string      (* [session_id] *)
}.

Record ChatResponse := mk_ChatResponse {
  response_session : string;             (* [session_id] *)
  response_text : string;                (* [response] *)
  response_timestamp : string            (* [timestamp] *)
}.

(** The keys of [chat_sessions] are distinct, as the keys of a [dict]
    are. *)
Definition well_formed (st : Server) : Prop :=
  NoDup (map fst (chat_sessions st)).

(** The history of a session, empty for a session that is not there. *)
Definition history (st : Server) (session_id : string) : list Message :=
  match dict_get (chat_sessions st) session_id with
  | Some messages => messages
  | None => []
  end.

Section Chat.

Variable utcnow_isoformat : nat -> string.

(** [datetime.utcnow().isoformat()] *)
Definition stamp (st : Server) : string * Server :=
  (utcnow_isoformat (clock_reads st),
   mk_Server (chat_sessions st) (S (clock_reads st))).

(** [chat_sessions[session_id].append(message)] *)
Definition push_message (session_id : string) (m : Message) (st : Server)
  : outcome unit * Server :=
  match dict_get (chat_sessions st) session_id with
  | None => (Raise (KeyError ("'" ++ session_id ++ "'")), st)
  | Some messages =>
      (Return tt,
       mk_Server (dict_set (chat_sessions st) session_id (messages ++ [m])%list)
                 (clock_reads st))
  end.

(** [chat_message.session_id or str(uuid.uuid4())]; [fresh] is the new
    identifier, used when the request names no session or the empty
    name. *)
Definition session_of (fresh : string) (chat_message : ChatMessage) : string :=
  match requested_session chat_message with
  | Some sid => if negb (String.eqb sid "") then sid else fresh
  | None => fresh
  end.

(** The [try] block of [chat]. *)
Definition chat_body (fresh : string) (chat_message : ChatMessage) (st : Server)
  : outcome ChatResponse * Server :=
  let session_id := session_of fresh chat_message in
  let st :=
    if negb (dict_has (chat_sessions st) session_id) then
      mk_Server (dict_set (chat_sessions st) session_id []) (clock_reads st)
    else st in
  let '(now, st) := stamp st in
  let user_message := mk_Message "user" (JStr (message chat_message)) now in
  match push_message session_id user_message st with
  | (Raise e, st) => (Raise e, st)
  | (Return _, st) =>
      match process_with_agent (JStr (message chat_message)) with
      | Raise e => (Raise e, st)
      | Return agent_response =>
          let '(now, st) := stamp st in
          let assistant_message := mk_Message "assistant" (JStr agent_response) now in
          match push_message session_id assistant_message st with
          | (Raise e, st) => (Raise e, st)
          | (Return _, st) =>
              let '(now, st) := stamp st in
              (Return (mk_ChatResponse session_id agent_response now), st)
          end
      end
  end.

(** [chat]: an exception of the body becomes a response with status
    500. *)
Definition chat (fresh : string) (chat_message : ChatMessage) (st : Server)
  : response ChatResponse * Server :=
  match chat_body fresh chat_message st with
  | (Return r, st') => (Ok200 r, st')
  | (Raise e, st') => (HTTPException 500 (str_exn e), st')
  end.

End Chat.

End ChatEndpoint.

(* ================================================================= *)
(** ** Further concrete inputs *)

Module Cases.
Import PyStr Ast Py Eff Sandbox Backend Scenario.

(** A world whose disk is full: the workspace is made, the first
    directory in it cannot be. *)
Definition no_space_left : exn :=
  OtherException "[Errno 28] No space left on device: '/tmp/sandbox_1a2b3c4d_k3x9/data'".

Definition full_disk_world : World :=
  {| uuid4 := uuid4 quiet_world;
     mkdtemp := mkdtemp quiet_world;
     mkdir := fun _ => Raise no_space_left;
     write_text := write_text quiet_world;
     pickle_dump := pickle_dump quiet_world;
     containers_run := containers_run quiet_world;
     container_wait := container_wait quiet_world;
     container_logs := container_logs quiet_world;
     container_stop := container_stop quiet_world;
     container_remove := container_remove quiet_world;
     rmtree := rmtree quiet_world;
     iterdir := iterdir quiet_world;
     read_text := read_text quiet_world;
     json_loads := json_loads quiet_world;
     decode_replace := decode_replace quiet_world;
     time_time := time_time quiet_world;
     float_sub := float_sub quiet_world |}.





(** A program that exits with status 1 after writing a table next to a
    sub-directory, printing a line on its way. *)
Definition partial_table : dir_entry := mk_dir_entry "partial.csv" true "a,b".

Definition failing_exit_world : World :=
  {| uuid4 := uuid4 quiet_world;
     mkdtemp := mkdtemp quiet_world;
     mkdir := mkdir quiet_world;
     write_text := write_text quiet_world;
     pickle_dump := pickle_dump quiet_world;
     containers_run := containers_run quiet_world;
     container_wait := fun _ => Return (WaitDict (Some 1%Z));
     container_logs := Return "Traceback (most recent call last):";
     container_stop := container_stop quiet_world;
     container_remove := container_remove quiet_world;
     rmtree := rmtree quiet_world;
     iterdir := fun _ => Some [partial_table; mk_dir_entry "cache" false ""];
     read_text := read_text quiet_world;
     json_loads := json_loads quiet_world;
     decode_replace := decode_replace quiet_world;
     time_time := time_time quiet_world;
     float_sub := float_sub quiet_world |}.






(** The tree of [sleep_script]. *)
Definition sleep_tree : node :=
  Other [ Import [mk_alias "time" None];
          Other [ Call (Attribute (Name "time") "sleep") [Other []] [] ] ].

(** A server with one session of one message and one session without
    messages. *)
Definition first_question : Message :=
  mk_Message "user" (JStr "hi") "2024-05-01T09:00:00".

Definition two_sessions : Server :=
  mk_Server [("s1", [first_question]); ("s2", [])] 1.

End Cases.

(* ================================================================= *)
(** * Properties *)

(** ** Facts about the string helpers *)

Module PyStrFacts.
Import PyStr.

Example endswith_json : endswith "metrics.json" ".json" = true.
Proof. reflexivity. Qed.

Example endswith_longer_suffix : endswith "json" ".json" = false.
Proof. reflexivity. Qed.

Example lower_violation : lower "Blocked import: os" = "blocked import: os".
Proof. reflexivity. Qed.

Example keyword_import_os_misses :
  contains "import os" "blocked import: os" = false.
Proof. reflexivity. Qed.

Example keyword_exec_hits :
  contains "exec" "blocked function call: exec()" = true.
Proof. reflexivity. Qed.

Example split_head_dotted : split_head "." "os.path" = "os".
Proof. reflexivity. Qed.

Example strip_both_ends : strip (newline ++ "  - a b " ++ newline) = "- a b".
Proof. reflexivity. Qed.

Example strip_blank : strip ("  " ++ newline) = "".
Proof. reflexivity. Qed.

Example join_lines : join ", " ["a"; "b"; "c"] = "a, b, c".
Proof. reflexivity. Qed.

Example repr_list_matches : repr_list ["__class__"; "__dict__"] = "['__class__', '__dict__']".
Proof. reflexivity. Qed.

Lemma mem_true_iff (x : string) (l : list string) :
  mem x l = true <-> In x l.
Proof.
  unfold mem. rewrite existsb_exists. split.
  - intros [y [Hy Heq]]. apply String.eqb_eq in Heq. now subst.
  - intros H. exists x. split; [assumption | apply String.eqb_refl].
Qed.

Lemma startswith_nil (s : string) : startswith s "" = true.
Proof. now destruct s. Qed.

Lemma startswith_app (p s : string) : startswith (p ++ s) p = true.
Proof.
  induction p as [|c p IH]; simpl; [apply startswith_nil|].
  now rewrite Ascii.eqb_refl.
Qed.

Lemma contains_cons (needle : string) (c : ascii) (hay : string) :
  contains needle hay = true -> contains needle (String c hay) = true.
Proof.
  intros H. cbn [contains].
  destruct (startswith (String c hay) needle); [reflexivity | exact H].
Qed.

Lemma contains_app_r (needle a b : string) :
  contains needle b = true -> contains needle (a ++ b) = true.
Proof.
  intros H. induction a as [|c a IH]; [exact H|].
  cbn [append]. now apply contains_cons.
Qed.

Lemma contains_prefix (needle rest : string) :
  contains needle (needle ++ rest) = true.
Proof.
  destruct (needle ++ rest) eqn:E; cbn [contains];
    rewrite <- E, startswith_app; reflexivity.
Qed.

Lemma contains_infix (needle a b : string) :
  contains needle (a ++ needle ++ b) = true.
Proof. apply contains_app_r, contains_prefix. Qed.

Lemma lower_app (a b : string) : lower (a ++ b) = lower a ++ lower b.
Proof. induction a as [|c a IH]; simpl; [reflexivity|]. now rewrite IH. Qed.

End PyStrFacts.

(** ** Facts about [ast.walk] *)

Module AstFacts.
Import Ast.

Lemma forest_size_app (a b : list node) :
  forest_size (a ++ b) = forest_size a + forest_size b.
Proof. unfold forest_size. now rewrite map_app, list_sum_app. Qed.

Lemma size_children (n : node) :
  size n = S (forest_size (iter_child_nodes n)).
Proof.
  unfold forest_size.
  destruct n as [names|m names lvl|f args kws|id|v attr|a|fields]; simpl;
    try reflexivity.
  - f_equal. induction names as [|x names IH]; simpl; [reflexivity | now rewrite <- IH].
  - f_equal. induction names as [|x names IH]; simpl; [reflexivity | now rewrite <- IH].
  - rewrite map_app, list_sum_app. lia.
  - lia.
Qed.

Lemma size_pos (n : node) : 0 < size n.
Proof. rewrite size_children. lia. Qed.

(** With fuel for every node waiting in the queue and below it, the loop
    yields each node that occurs in a queued tree. *)
Lemma walk_queue_complete (fuel : nat) :
  forall todo, forest_size todo <= fuel ->
  forall n d, In n todo -> occurs_in n d -> In d (walk_queue fuel todo).
Proof.
  induction fuel as [|fuel IH]; intros todo Hfuel n d Hin Hocc.
  - destruct todo as [|h rest]; [contradiction|].
    unfold forest_size in Hfuel. simpl in Hfuel.
    pose proof (size_pos h). lia.
  - destruct todo as [|h rest]; [contradiction|].
    cbn [walk_queue].
    assert (Hbudget : forest_size (rest ++ iter_child_nodes h) <= fuel).
    { rewrite forest_size_app. unfold forest_size in Hfuel |- *.
      simpl in Hfuel. rewrite (size_children h) in Hfuel.
      unfold forest_size in Hfuel. lia. }
    destruct Hin as [-> | Hin].
    + inversion Hocc as [|? c ? Hc Hcd]; subst.
      * now left.
      * right. apply (IH _ Hbudget c d); [|assumption].
        apply in_or_app. now right.
    + right. apply (IH _ Hbudget n d); [|assumption].
      apply in_or_app. now left.
Qed.

Lemma walk_complete (tree d : node) : occurs_in tree d -> In d (walk tree).
Proof.
  intros H. unfold walk.
  apply (walk_queue_complete (size tree) [tree]) with (n := tree).
  - unfold forest_size. simpl. lia.
  - now left.
  - assumption.
Qed.

End AstFacts.

(* ================================================================= *)
(** ** The static screener *)

Module SafetyValidatorProps.
Import PyStr Py Ast SafetyValidator Scenario PyStrFacts AstFacts.

Example import_os_walk :
  walk import_os_tree =
  [ import_os_tree;
    Import [mk_alias "os" None];
    Other [ Call (Attribute (Name "os") "system") [Other []] [] ];
    AliasNode (mk_alias "os" None);
    Call (Attribute (Name "os") "system") [Other []] [];
    Attribute (Name "os") "system";
    Other [];
    Name "os" ].
Proof. reflexivity. Qed.

Example five_warnings_are_low :
  _assess_risk [] ["a"; "b"; "c"; "d"; "e"] = "low".
Proof. reflexivity. Qed.

Example six_warnings_are_medium :
  _assess_risk [] ["a"; "b"; "c"; "d"; "e"; "f"] = "medium".
Proof. reflexivity. Qed.

Example from_import_is_blocked :
  _check_imports (Other [ImportFrom (Some "os.path") [mk_alias "join" None] 0])
  = ["Blocked import from: os.path"].
Proof. reflexivity. Qed.

Example dunder_warning :
  _check_suspicious_patterns
    (fun pattern _ => if String.eqb pattern "__\w+__"
                      then ["__name__"; "__class__"; "__dict__"; "__mro__"; "__bases__"]
                      else [])
    "source"
  = ["Suspicious pattern: __\w+__ (matches: ['__class__', '__dict__', '__mro__'])"].
Proof. reflexivity. Qed.

Section Validate.

Variable ast_parse : string -> outcome node.
Variable re_findall : string -> string -> list string.

Local Abbreviation validate := (validate ast_parse re_findall).

Lemma assess_risk_with_violations (v : string) (vs ws : list string) :
  _assess_risk (v :: vs) ws = "critical" \/ _assess_risk (v :: vs) ws = "high".
Proof.
  unfold _assess_risk. cbn [is_empty andb negb].
  destruct (existsb _ (v :: vs)); [now left | now right].
Qed.

Lemma assess_risk_critical (vs ws : list string) (v keyword : string) :
  In v vs -> In keyword critical_keywords ->
  contains keyword (lower v) = true ->
  _assess_risk vs ws = "critical".
Proof.
  intros Hv Hk Hc. unfold _assess_risk.
  destruct vs as [|v0 vs']; [contradiction|].
  cbn [is_empty andb negb].
  replace (existsb _ (v0 :: vs')) with true; [reflexivity|].
  symmetry. apply existsb_exists. exists v. split; [assumption|].
  apply existsb_exists. now exists keyword.
Qed.

Lemma blocked_call_is_a_violation (tree func : node) (args keywords : list node)
      (f : string) :
  occurs_in tree (Call func args keywords) ->
  func_name func = Some f ->
  mem f BLOCKED_FUNCTIONS = true ->
  In ("Blocked function call: " ++ f ++ "()") (_check_functions tree).
Proof.
  intros Hocc Hname Hblocked. unfold _check_functions.
  apply in_flat_map. exists (Call func args keywords). split.
  - now apply walk_complete.
  - cbn [function_violations]. rewrite Hname, Hblocked. now left.
Qed.

Local Abbreviation report_of := (check_tree re_findall).

Lemma report_of_eq (code : string) (tree : node) :
  report_of code tree =
  let vs := (_check_imports tree ++ _check_functions tree)%list in
  let ws := (flat_map file_warnings (walk tree)
               ++ _check_suspicious_patterns re_findall code)%list in
  mk_ValidationResult (mem (_assess_risk vs ws) ["safe"; "low"]) vs ws
                      (_assess_risk vs ws).
Proof.
  unfold check_tree. cbn [_check_file_operations app]. now rewrite app_nil_r.
Qed.

Lemma validate_parsed (code : string) (tree : node) :
  ast_parse code = Return tree ->
  validate code = Return (report_of code tree).
Proof. intros H. unfold SafetyValidator.validate. now rewrite H. Qed.

(** [validate] returns in two ways: the report of a tree, or the report
    of a syntax error. *)
Lemma validate_returns (code : string) (r : ValidationResult) :
  validate code = Return r ->
  (exists tree, ast_parse code = Return tree /\ r = report_of code tree) \/
  (exists msg, ast_parse code = Raise (SyntaxError msg) /\
               r = mk_ValidationResult false ["Syntax error: " ++ msg] [] "critical").
Proof.
  intros Hr. destruct (ast_parse code) as [tree|e] eqn:Hparse.
  - left. exists tree. split; [reflexivity|].
    rewrite (validate_parsed code tree Hparse) in Hr. congruence.
  - unfold SafetyValidator.validate in Hr. rewrite Hparse in Hr.
    destruct e; try discriminate Hr.
    right. exists msg. split; [reflexivity | congruence].
Qed.

Lemma report_with_violation_is_unsafe (code : string) (tree : node) (v : string) :
  In v (violations (report_of code tree)) ->
  is_safe (report_of code tree) = false.
Proof.
  rewrite report_of_eq. cbv zeta. cbn [is_safe violations].
  destruct (_check_imports tree ++ _check_functions tree)%list as [|v0 vs];
    [contradiction|].
  intros _. destruct (assess_risk_with_violations v0 vs
      (flat_map file_warnings (walk tree)
         ++ _check_suspicious_patterns re_findall code)%list) as [E|E];
    rewrite E; reflexivity.
Qed.

(** C3.  Every report [validate] returns, also the one for a source that
    does not parse, is safe exactly when its risk level is 'safe' or 'low',
    and a report with a violation has risk level 'high' or 'critical'. *)
Theorem validate_safe_iff_low_risk (code : string) (r : ValidationResult) :
  validate code = Return r ->
  (is_safe r = true <-> risk_level r = "safe" \/ risk_level r = "low") /\
  (violations r <> [] -> risk_level r = "high" \/ risk_level r = "critical").
Proof.
  intros Hr.
  destruct (validate_returns code r Hr) as [[tree [_ ->]] | [msg [_ ->]]].
  - rewrite report_of_eq. cbv zeta. cbn [is_safe risk_level violations]. split.
    + rewrite mem_true_iff. cbn [In]. intuition congruence.
    + destruct (_check_imports tree ++ _check_functions tree)%list as [|v vs];
        [congruence|].
      intros _. destruct (assess_risk_with_violations v vs
        (flat_map file_warnings (walk tree)
           ++ _check_suspicious_patterns re_findall code)%list); auto.
  - cbn [is_safe risk_level violations]. split.
    + split; [discriminate | intros [H|H]; discriminate H].
    + intros _. now right.
Qed.

(** C1.  For a source that parses and holds a call whose callee ends in the
    identifier [open], as the bare name [open(...)] or as an attribute
    [x.open(...)], [validate] returns a report that is not safe and lists
    the violation "Blocked function call: open()". *)
Theorem open_call_is_rejected
        (code : string) (tree func : node) (args keywords : list node) :
  ast_parse code = Return tree ->
  occurs_in tree (Call func args keywords) ->
  func = Name "open" \/ (exists value, func = Attribute value "open") ->
  exists r,
    validate code = Return r /\
    is_safe r = false /\
    In "Blocked function call: open()" (violations r).
Proof.
  intros Hparse Hocc Hcallee.
  assert (Hname : func_name func = Some "open")
    by (destruct Hcallee as [-> | [value ->]]; reflexivity).
  exists (report_of code tree). split; [exact (validate_parsed code tree Hparse)|].
  assert (Hin : In "Blocked function call: open()" (violations (report_of code tree))).
  { rewrite report_of_eq. cbv zeta. cbn [violations].
    apply in_or_app. right.
    now apply (blocked_call_is_a_violation tree func args keywords "open"). }
  split; [exact (report_with_violation_is_unsafe code tree _ Hin) | exact Hin].
Qed.

(** The first half of C6, on the screener alone: for a source that parses
    and holds a call of [exec], the report is not safe, has risk level
    'critical' and lists "Blocked function call: exec()". *)
Lemma exec_call_is_critical
      (code : string) (tree func : node) (args keywords : list node) :
  ast_parse code = Return tree ->
  occurs_in tree (Call func args keywords) ->
  func_name func = Some "exec" ->
  exists r,
    validate code = Return r /\
    is_safe r = false /\
    risk_level r = "critical" /\
    In "Blocked function call: exec()" (violations r).
Proof.
  intros Hparse Hocc Hname.
  exists (report_of code tree). split; [exact (validate_parsed code tree Hparse)|].
  assert (Hin : In "Blocked function call: exec()" (violations (report_of code tree))).
  { rewrite report_of_eq. cbv zeta. cbn [violations].
    apply in_or_app. right.
    now apply (blocked_call_is_a_violation tree func args keywords "exec"). }
  split; [exact (report_with_violation_is_unsafe code tree _ Hin)|].
  split; [|exact Hin].
  rewrite report_of_eq in Hin |- *. cbv zeta in Hin |- *.
  cbn [violations risk_level] in Hin |- *.
  apply (assess_risk_critical _ _ "Blocked function call: exec()" "exec");
    [exact Hin | now left | reflexivity].
Qed.

(** C2, as the code has it.  For the source [import os] followed by a call
    of [os.system], the report is not safe and lists exactly the violation
    "Blocked import: os", but its risk level is 'high': the violation text
    holds "import: os", which the critical keyword "import os" does not
    match. *)
Theorem import_os_is_rated_high :
  ast_parse import_os_source = Return import_os_tree ->
  validate import_os_source =
  Return (mk_ValidationResult false ["Blocked import: os"]
            (_check_suspicious_patterns re_findall import_os_source) "high").
Proof.
  intros Hparse. rewrite (validate_parsed _ _ Hparse), report_of_eq.
  replace (_check_imports import_os_tree) with ["Blocked import: os"]
    by reflexivity.
  replace (_check_functions import_os_tree) with (@nil string) by reflexivity.
  replace (flat_map file_warnings (walk import_os_tree)) with (@nil string)
    by reflexivity.
  reflexivity.
Qed.

End Validate.

(** The C1 theorem applies to both forms of the call: a parser that gives
    the tree of [open('f')], and one that gives the tree of
    [p.open()]. *)
Lemma open_call_is_rejected_witness :
  (exists r,
     SafetyValidator.validate
       (fun _ => Return (Other [Other [Call (Name "open") [Other []] []]]))
       (fun _ _ => []) "open('f')" = Return r /\
     is_safe r = false /\
     In "Blocked function call: open()" (violations r)) /\
  (exists r,
     SafetyValidator.validate
       (fun _ => Return (Other [Other [Call (Attribute (Name "p") "open") [] []]]))
       (fun _ _ => []) "p.open()" = Return r /\
     is_safe r = false /\
     In "Blocked function call: open()" (violations r)).
Proof.
  split.
  - apply (open_call_is_rejected _ _ "open('f')"
             (Other [Other [Call (Name "open") [Other []] []]])
             (Name "open") [Other []] []).
    + reflexivity.
    + apply occurs_below with (c := Other [Call (Name "open") [Other []] []]);
        [now left|].
      apply occurs_below with (c := Call (Name "open") [Other []] []);
        [now left|]. apply occurs_here.
    + now left.
  - apply (open_call_is_rejected _ _ "p.open()"
             (Other [Other [Call (Attribute (Name "p") "open") [] []]])
             (Attribute (Name "p") "open") [] []).
    + reflexivity.
    + apply occurs_below
        with (c := Other [Call (Attribute (Name "p") "open") [] []]);
        [now left|].
      apply occurs_below with (c := Call (Attribute (Name "p") "open") [] []);
        [now left|]. apply occurs_here.
    + right. now exists (Name "p").
Defined.

(** The C2 theorem applies: a parser that gives the scenario's tree. *)
Lemma import_os_is_rated_high_witness :
  SafetyValidator.validate (fun _ => Return import_os_tree) (fun _ _ => [])
                           import_os_source =
  Return (mk_ValidationResult false ["Blocked import: os"] [] "high").
Proof.
  apply (import_os_is_rated_high (fun _ => Return import_os_tree) (fun _ _ => [])).
  reflexivity.
Defined.

(** The C3 theorem applies: the report of a source that does not parse. *)
Lemma validate_safe_iff_low_risk_witness :
  let r := mk_ValidationResult false
             ["Syntax error: invalid syntax (<unknown>, line 1)"] [] "critical" in
  (is_safe r = true <-> risk_level r = "safe" \/ risk_level r = "low") /\
  (violations r <> [] -> risk_level r = "high" \/ risk_level r = "critical").
Proof.
  cbv zeta.
  apply (validate_safe_iff_low_risk
           (fun _ => Raise (SyntaxError "invalid syntax (<unknown>, line 1)"))
           (fun _ _ => []) "print(").
  reflexivity.
Defined.

End SafetyValidatorProps.

(* ================================================================= *)
(** ** Running a computation step by step *)

Module EffFacts.
Import Py Eff.

Lemma advance_advance (e1 e2 : list event) (n1 n2 : nat) (s : state) :
  advance e2 n2 (advance e1 n1 s) = advance (e1 ++ e2) (n2 + n1) s.
Proof.
  unfold advance. cbn [trace ticks]. now rewrite <- app_assoc, Nat.add_assoc.
Qed.

Lemma advance_nothing (s : state) : advance [] 0 s = s.
Proof. destruct s as [tr n]. unfold advance. cbn. now rewrite app_nil_r. Qed.

Lemma call_eq {A : Type} (ev : event) (r : outcome A) (s : state) :
  call ev r s = (r, advance [ev] 0 s).
Proof. reflexivity. Qed.

Lemma read_clock_eq {A : Type} (clock : nat -> A) (s : state) :
  read_clock clock s = (Return (clock (ticks s)), advance [] 1 s).
Proof. unfold read_clock, advance. now rewrite app_nil_r. Qed.

Lemma bind_return {A B : Type} (m : M A) (k : A -> M B) (s s1 : state) (a : A) :
  m s = (Return a, s1) -> bind m k s = k a s1.
Proof. intros H. unfold bind. now rewrite H. Qed.

Lemma bind_raise {A B : Type} (m : M A) (k : A -> M B) (s s1 : state) (e : exn) :
  m s = (Raise e, s1) -> bind m k s = (Raise e, s1).
Proof. intros H. unfold bind. now rewrite H. Qed.

Lemma try_except_return {A : Type} (m : M A) (h : exn -> M A) (s s1 : state) (a : A) :
  m s = (Return a, s1) -> try_except m h s = (Return a, s1).
Proof. intros H. unfold try_except. now rewrite H. Qed.

Lemma try_except_raise {A : Type} (m : M A) (h : exn -> M A) (s s1 : state) (e : exn) :
  m s = (Raise e, s1) -> try_except m h s = h e s1.
Proof. intros H. unfold try_except. now rewrite H. Qed.

Lemma try_finally_eq {A : Type} (m : M A) (c : M unit) (s s1 s2 : state)
      (r : outcome A) (u : unit) :
  m s = (r, s1) -> c s1 = (Return u, s2) -> try_finally m c s = (r, s2).
Proof. intros H1 H2. unfold try_finally. now rewrite H1, H2. Qed.

Lemma attempt_eq {A : Type} (m : M A) (s s1 : state) (r : outcome A) :
  m s = (r, s1) -> attempt m s = (Return r, s1).
Proof. intros H. unfold attempt. now rewrite H. Qed.

(** A call wrapped in [try: ... except: pass] returns whatever the call
    does. *)
Lemma guarded_call_eq (ev : event) (r : outcome unit) (s : state) :
  try_except (call ev r) (fun _ => ret tt) s = (Return tt, advance [ev] 0 s).
Proof. unfold try_except, call, ret. destruct r as [[]|e]; reflexivity. Qed.

End EffFacts.

(* ================================================================= *)
(** ** The sandbox executor *)

Module SandboxProps.
Import PyStr Py Eff Sandbox EffFacts.

Section Started.

Context {Obj : Type}.
Variables (w : World) (script : string) (data : option (dict Obj))
          (timeout : option Z) (workspace : string).
Local Abbreviation t := (timeout_or_default timeout).
Local Abbreviation id := (new_execution_id w).

(** The [except] clauses of [_run_container]: a failure result for [e],
    after a reading of the clock; for a [ContainerError], the
    [AttributeError] of its clause and no reading. *)
Lemma run_container_failed_eq (start : float) (e : exn) (s : state) :
  exists r n,
    run_container_failed w start e s = (r, advance [] n s) /\
    match r with
    | Return res => failed_with (reported e) res
    | Raise e' => e' = reported e
    end.
Proof.
  unfold run_container_failed, failed_with.
  destruct e;
    try (eexists (Return _), 1;
         split; [ erewrite bind_return by apply read_clock_eq; reflexivity
                | cbn; auto ]).
  exists (Raise no_stdout), 0. split; [|reflexivity].
  unfold raise. now rewrite advance_nothing.
Qed.

Lemma remove_container_eq (s : state) :
  try_except (call (EvContainerRemove true) (container_remove w true))
             (fun _ => ret tt) s
  = (Return tt, advance [EvContainerRemove true] 0 s).
Proof. apply guarded_call_eq. Qed.

(** The container started and what follows raised [e]: the failure result
    for [e], or the exception of the [except] clause, after the removal of
    the container. *)
Lemma run_container_raise (s s3 : state) (e : exn) :
  containers_run w (container_config workspace id) = Return tt ->
  run_container_started w workspace id t (time_time w (ticks s))
    (advance [EvContainersRun (container_config workspace id)] 1 s)
  = (Raise e, s3) ->
  exists r n,
    _run_container w workspace id t s
    = (r, advance [EvContainerRemove true] n s3) /\
    match r with
    | Return res => failed_with (reported e) res
    | Raise e' => e' = reported e
    end.
Proof.
  intros Hrun Hbody.
  destruct (run_container_failed_eq (time_time w (ticks s)) e s3)
    as (r & n & Hres & Hfail).
  exists r, n. split; [|exact Hfail].
  unfold _run_container.
  erewrite bind_return by apply read_clock_eq. cbv zeta.
  erewrite bind_return
    by (apply attempt_eq; rewrite Hrun; apply call_eq).
  rewrite advance_advance. cbn [app Nat.add].
  erewrite try_finally_eq;
    [ reflexivity
    | erewrite try_except_raise by exact Hbody; exact Hres
    | rewrite remove_container_eq, advance_advance; reflexivity ].
Qed.

(** The container started and what follows returned [res]. *)
Lemma run_container_return (s s3 : state) (res : ExecutionResult) :
  containers_run w (container_config workspace id) = Return tt ->
  run_container_started w workspace id t (time_time w (ticks s))
    (advance [EvContainersRun (container_config workspace id)] 1 s)
  = (Return res, s3) ->
  _run_container w workspace id t s
  = (Return res, advance [EvContainerRemove true] 0 s3).
Proof.
  intros Hrun Hbody. unfold _run_container.
  erewrite bind_return by apply read_clock_eq. cbv zeta.
  erewrite bind_return
    by (apply attempt_eq; rewrite Hrun; apply call_eq).
  rewrite advance_advance. cbn [app Nat.add].
  erewrite try_finally_eq;
    [ reflexivity
    | erewrite try_except_return by exact Hbody; reflexivity
    | apply remove_container_eq ].
Qed.

(** [container.wait] raised: the container is stopped with a grace of five
    seconds and the exception goes on. *)
Lemma wait_raises (start : float) (s : state) (e : exn) :
  container_wait w t = Raise e ->
  run_container_started w workspace id t start s
  = (Raise (after_stop w e),
     advance [EvContainerWait t; EvContainerStop 5] 0 s).
Proof.
  intros Hwait. unfold run_container_started.
  apply bind_raise.
  erewrite try_except_raise
    by (apply bind_raise; rewrite Hwait; apply call_eq).
  unfold after_stop. destruct (container_stop w 5) as [u|e2].
  - erewrite bind_return by apply call_eq.
    unfold raise. now rewrite advance_advance.
  - erewrite bind_raise by apply call_eq.
    now rewrite advance_advance.
Qed.

(** The container ended and its logs were read, but collecting the outputs
    raised [e]. *)
Lemma collect_raises (start : float) (s : state) (code : wait_result)
      (raw : string) (e : exn) :
  container_wait w t = Return code ->
  container_logs w = Return raw ->
  _collect_outputs w (path_join workspace "outputs") = Raise e ->
  run_container_started w workspace id t start s
  = (Raise e, advance [EvContainerWait t; EvContainerLogs] 1 s).
Proof.
  intros Hwait Hlogs Hcollect. unfold run_container_started.
  erewrite bind_return.
  2:{ apply try_except_return.
      erewrite bind_return by (rewrite Hwait; apply call_eq).
      erewrite bind_return by (rewrite Hlogs; apply call_eq).
      reflexivity. }
  cbv zeta beta iota.
  erewrite bind_return by apply read_clock_eq.
  cbv zeta. apply bind_raise. rewrite Hcollect. unfold lift.
  now rewrite !advance_advance.
Qed.

Lemma write_data_eq (s : state) :
  match data with
  | Some (_ :: _) =>
      pickle_dump w (path_join (path_join workspace "data") "data.pkl") = Return tt
  | _ => True
  end ->
  write_data w (path_join workspace "data") data s
  = (Return tt,
     advance match data with
             | Some (_ :: _) =>
                 [EvPickleDump (path_join (path_join workspace "data") "data.pkl")]
             | _ => []
             end 0 s).
Proof.
  intros Hp. unfold write_data.
  destruct data as [[|x d]|]; try (unfold ret; now rewrite advance_nothing).
  cbv zeta. rewrite Hp. apply call_eq.
Qed.

(** The workspace was made and filled: [execute] returns what
    [_run_container] returns, after the removal of the workspace. *)
Lemma execute_eq (s s3 : state) (res : ExecutionResult) :
  starts w script data workspace ->
  _run_container w workspace id t
    (advance (workspace_events w script data workspace) 0 s)
  = (Return res, s3) ->
  execute w script data timeout s
  = (Return res, advance [EvRmtree workspace] 0 s3).
Proof.
  intros (Hmk & Hd & Ho & Hs & Hp & Hr) Hrc. unfold execute. cbv zeta.
  erewrite bind_return by (rewrite Hmk; apply call_eq).
  erewrite try_finally_eq; [reflexivity | | apply guarded_call_eq].
  apply try_except_return.
  erewrite bind_return by (rewrite Hd; apply call_eq).
  erewrite bind_return by (rewrite Ho; apply call_eq).
  erewrite bind_return by (rewrite Hs; apply call_eq).
  erewrite bind_return by (apply write_data_eq; exact Hp).
  rewrite !advance_advance. cbn [app Nat.add].
  exact Hrc.
Qed.

(** The workspace was made and filled and [_run_container] raised [e]:
    [execute] returns the failure result of its own [except] clause. *)
Lemma execute_caught (s s3 : state) (e : exn) :
  starts w script data workspace ->
  _run_container w workspace id t
    (advance (workspace_events w script data workspace) 0 s)
  = (Raise e, s3) ->
  execute w script data timeout s
  = (Return (execute_failed e), advance [EvRmtree workspace] 0 s3).
Proof.
  intros (Hmk & Hd & Ho & Hs & Hp & Hr) Hrc. unfold execute. cbv zeta.
  erewrite bind_return by (rewrite Hmk; apply call_eq).
  erewrite try_finally_eq; [reflexivity | | apply guarded_call_eq].
  erewrite try_except_raise; [reflexivity|].
  erewrite bind_return by (rewrite Hd; apply call_eq).
  erewrite bind_return by (rewrite Ho; apply call_eq).
  erewrite bind_return by (rewrite Hs; apply call_eq).
  erewrite bind_return by (apply write_data_eq; exact Hp).
  rewrite !advance_advance. cbn [app Nat.add].
  exact Hrc.
Qed.

(** The container started and what follows raised [e]: [execute] returns a
    failure result for the exception reported, after the removal of the
    container and of the workspace. *)
Lemma execute_after_raise (s s3 : state) (e : exn) :
  starts w script data workspace ->
  run_container_started w workspace id t
    (time_time w (ticks (advance (workspace_events w script data workspace) 0 s)))
    (advance [EvContainersRun (container_config workspace id)] 1
       (advance (workspace_events w script data workspace) 0 s))
  = (Raise e, s3) ->
  exists res n,
    execute w script data timeout s
    = (Return res, advance [EvContainerRemove true; EvRmtree workspace] n s3) /\
    failed_with (reported e) res.
Proof.
  intros Hstarts Hbody.
  pose proof Hstarts as (_ & _ & _ & _ & _ & Hrun).
  destruct (run_container_raise _ s3 e Hrun Hbody) as (r & n & Hrc & Hr).
  destruct r as [res|e'].
  - exists res, n. split; [|exact Hr].
    rewrite (execute_eq s _ res Hstarts Hrc). now rewrite advance_advance.
  - subst e'. exists (execute_failed (reported e)), n. split.
    + rewrite (execute_caught s _ _ Hstarts Hrc). now rewrite advance_advance.
    + unfold failed_with. cbn. auto.
Qed.

Lemma collect_entries_app (o : dict content) (a b : list dir_entry) :
  collect_entries w o (a ++ b) =
  match collect_entries w o a with
  | Return o' => collect_entries w o' b
  | Raise e => Raise e
  end.
Proof.
  revert o. induction a as [|f a IH]; intros o; cbn [app collect_entries];
    [reflexivity|].
  destruct (collect_entry w o f) as [o'|e]; [apply IH | reflexivity].
Qed.

(** C4, as the code has it.  When [container.wait] gives up because the
    deadline expired, raising [e], [execute] returns a result with
    [success] false, no outputs and no metadata, so no exit code, whose
    error is the text of the exception that leaves the [except] clause:
    [str(e)] when [container.stop] returns.  Before that, the container is
    stopped with a grace of five seconds and then removed by force, and the
    workspace is deleted.  The statement holds for every exception of the
    wait: [reported] is the identity but on a [ContainerError], which no
    time-out is, and whose own [except] clause fails. *)
Theorem deadline_expiry_stops_and_removes (s : state) (e : exn) :
  starts w script data workspace ->
  container_wait w (timeout_or_default timeout) = Raise e ->
  exists res s',
    execute w script data timeout s = (Return res, s') /\
    success res = false /\
    error res = Some (str_exn (reported (after_stop w e))) /\
    (forall u, container_stop w 5 = Return u ->
               error res = Some (str_exn (reported e))) /\
    outputs res = [] /\
    recorded_exit_code res = None /\
    trace s' = (trace s ++ startup_events w script data workspace
                  ++ [ EvContainerWait (timeout_or_default timeout);
                       EvContainerStop 5;
                       EvContainerRemove true;
                       EvRmtree workspace ])%list.
Proof.
  intros Hstarts Hwait.
  destruct (execute_after_raise s _ (after_stop w e) Hstarts
              (wait_raises _ _ e Hwait))
    as (res & n & Hrc & Hsucc & Hout & Herr & Hmeta).
  exists res. eexists. split; [exact Hrc|].
  repeat split; try assumption.
  - intros u Hstop. rewrite Herr. unfold after_stop. now rewrite Hstop.
  - unfold recorded_exit_code. now rewrite Hmeta.
  - rewrite !advance_advance. unfold advance, startup_events.
    cbn [trace app]. now rewrite <- !app_assoc.
Qed.

(** C5, as the code has it.  When the outputs directory holds a file whose
    name ends in [.json] and whose text [json.load] rejects with [e], and
    the entries listed before it were collected, the collection raises [e]
    and [execute] returns a failure: [success] false, no outputs at all,
    [str(e)] as the error, although the container ended and its logs were
    read.  ([reported] is the identity on the exceptions of a decoder.) *)
Theorem malformed_json_fails_the_execution
        (s : state) (code : wait_result) (raw : string)
        (before after : list dir_entry) (f : dir_entry)
        (kept : dict content) (text : string) (e : exn) :
  starts w script data workspace ->
  container_wait w (timeout_or_default timeout) = Return code ->
  container_logs w = Return raw ->
  iterdir w (path_join workspace "outputs") = Some (before ++ f :: after)%list ->
  collect_entries w [] before = Return kept ->
  entry_is_file f = true ->
  endswith (entry_name f) ".json" = true ->
  read_text w (entry_bytes f) = Return text ->
  json_loads w text = Raise e ->
  _collect_outputs w (path_join workspace "outputs") = Raise e /\
  exists res s',
    execute w script data timeout s = (Return res, s') /\
    success res = false /\
    outputs res = [] /\
    error res = Some (str_exn (reported e)).
Proof.
  intros Hstarts Hwait Hlogs Hdir Hbefore Hfile Hjson Hread Hloads.
  assert (Hcollect : _collect_outputs w (path_join workspace "outputs") = Raise e).
  { unfold _collect_outputs. rewrite Hdir, collect_entries_app, Hbefore.
    cbn [collect_entries]. unfold collect_entry.
    now rewrite Hfile, Hjson, Hread, Hloads. }
  split; [exact Hcollect|].
  destruct (execute_after_raise s _ e Hstarts
              (collect_raises _ _ code raw e Hwait Hlogs Hcollect))
    as (res & n & Hrc & Hsucc & Hout & Herr & Hmeta).
  exists res. eexists. split; [exact Hrc|].
  auto.
Qed.

End Started.

Import Scenario.

Lemma timeout_world_starts :
  starts timeout_world sleep_script (@None (dict unit)) scenario_workspace.
Proof. repeat split. Qed.

Lemma malformed_json_world_starts :
  starts malformed_json_world sleep_script (@None (dict unit)) scenario_workspace.
Proof. repeat split. Qed.

(** The C4 theorem applies in the world of the time-out scenario. *)
Lemma deadline_expiry_stops_and_removes_witness :
  exists res s',
    @execute unit timeout_world sleep_script None (Some 2%Z) initial
    = (Return res, s') /\
    success res = false /\
    error res = Some (str_exn (after_stop timeout_world read_timed_out)) /\
    (forall u, container_stop timeout_world 5 = Return u ->
               error res = Some (str_exn read_timed_out)) /\
    outputs res = [] /\
    recorded_exit_code res = None /\
    trace s' = (trace initial
                  ++ startup_events timeout_world sleep_script (@None (dict unit))
                                    scenario_workspace
                  ++ [ EvContainerWait (timeout_or_default (Some 2%Z));
                       EvContainerStop 5;
                       EvContainerRemove true;
                       EvRmtree scenario_workspace ])%list.
Proof.
  apply (deadline_expiry_stops_and_removes timeout_world sleep_script None
           (Some 2%Z) scenario_workspace initial read_timed_out).
  - exact timeout_world_starts.
  - reflexivity.
Defined.

(** C4 as stated fails: in the time-out scenario the error of the result is
    the message of the client's exception, not the word "timeout", and the
    result records no exit code, so not -1 either. *)
Lemma deadline_expiry_error_is_not_timeout :
  exists res s',
    @execute unit timeout_world sleep_script None (Some 2%Z) initial
    = (Return res, s') /\
    success res = false /\
    error res = Some "UnixHTTPConnectionPool(host='localhost', port=None): Read timed out. (read timeout=2)" /\
    error res <> Some "timeout" /\
    recorded_exit_code res = None /\
    recorded_exit_code res <> Some (WaitInt (-1)).
Proof.
  eexists. eexists. split; [vm_compute; reflexivity|].
  cbn [success error recorded_exit_code metadata option_map].
  repeat split; try reflexivity; discriminate.
Qed.

(** The C5 theorem applies in the world of the malformed [metrics.json]. *)
Lemma malformed_json_fails_the_execution_witness :
  _collect_outputs malformed_json_world (path_join scenario_workspace "outputs")
  = Raise expecting_property_name /\
  exists res s',
    @execute unit malformed_json_world sleep_script None None initial
    = (Return res, s') /\
    success res = false /\
    outputs res = [] /\
    error res = Some (str_exn expecting_property_name).
Proof.
  apply (malformed_json_fails_the_execution malformed_json_world sleep_script
           None None scenario_workspace initial (WaitDict (Some 0%Z)) ""
           [] [] malformed_metrics [] "{bad" expecting_property_name);
    try reflexivity.
  exact malformed_json_world_starts.
Defined.

End SandboxProps.

(* ================================================================= *)
(** ** The analysis orchestrator *)

Module AgentProps.
Import PyStr Py Eff Agent EffFacts.







(** C8 as stated fails for a capacity that is not positive: with
    [max_concurrent=0] no task ever enters the semaphore and a batch of one
    query returns no list at all, although its one analysis would return;
    with a negative capacity [asyncio.Semaphore] raises [ValueError] before
    any task is made. *)
Lemma batch_without_capacity_returns_no_list :
  batch_analyze (fun _ q => Return (batch_error q (OtherException "unused")))
                ["ok-query"] 0
  = Blocks /\
  batch_analyze (fun _ q => Return (batch_error q (OtherException "unused")))
                ["ok-query"] (-1)
  = Fails (ValueError "Semaphore initial value must be >= 0") /\
  ~ (exists results,
        batch_analyze (fun _ q => Return (batch_error q (OtherException "unused")))
                      ["ok-query"] 0
        = Completes results /\
        List.length results = List.length ["ok-query"]).
Proof.
  split; [reflexivity|]. split; [reflexivity|].
  intros (results & H & _). discriminate H.
Qed.

Section Analyze.

Variable ast_parse : string -> outcome Ast.node.
Variable re_findall : string -> string -> list string.
Variables DataFrame DataContext : Type.
Variable _prepare_data_context : DataFrame -> outcome DataContext.
Variable generate : string -> DataContext -> option string -> outcome string.
Variable insights_prompt :
  string -> dict content -> content -> Sandbox.ExecutionResult -> string.
Variable messages_create : string -> outcome string.
Variable _extract_visualizations : dict content -> outcome (list (dict content)).
Variable _extract_metrics : dict content -> outcome (dict json).
Variable w : Sandbox.World.

Local Abbreviation validate := (SafetyValidator.validate ast_parse re_findall).
Local Abbreviation analyze :=
  (analyze ast_parse re_findall DataFrame DataContext _prepare_data_context
           generate insights_prompt messages_create _extract_visualizations
           _extract_metrics w).
Local Abbreviation summarize :=
  (summarize insights_prompt messages_create _extract_visualizations
             _extract_metrics).
Local Abbreviation generate_insights :=
  (generate_insights insights_prompt messages_create).
Local Abbreviation process := (process _extract_visualizations _extract_metrics).

Variables (query : string) (data : DataFrame) (analysis_type : option string)
          (timeout : Z).

(** The code was generated and the validator rejects it: [analyze] returns
    the validation failure and has made no call but the generation. *)
Lemma analyze_rejected (s : state) (data_context : DataContext) (code : string)
      (report : SafetyValidator.ValidationResult) :
  _prepare_data_context data = Return data_context ->
  generate query data_context analysis_type = Return code ->
  validate code = Return report ->
  SafetyValidator.is_safe report = false ->
  analyze query data analysis_type timeout s
  = (Return (validation_failed query (SafetyValidator.violations report)),
     advance [EvGenerateCode query] 0 s).
Proof.
  intros Hprep Hgen Hreport Hunsafe. unfold Agent.analyze.
  apply try_except_return.
  erewrite bind_return by (rewrite Hprep; reflexivity).
  erewrite bind_return by (rewrite Hgen; apply call_eq).
  erewrite bind_return by (rewrite Hreport; reflexivity).
  now rewrite Hunsafe.
Qed.

(** The code was generated, accepted and executed: [analyze] returns what
    [summarize] makes of the execution result, or the failure for the
    exception [summarize] raised. *)
Lemma analyze_executed (s s2 : state) (data_context : DataContext) (code : string)
      (report : SafetyValidator.ValidationResult) (er : Sandbox.ExecutionResult) :
  _prepare_data_context data = Return data_context ->
  generate query data_context analysis_type = Return code ->
  validate code = Return report ->
  SafetyValidator.is_safe report = true ->
  Sandbox.execute w code (Some [("data", data)]) (Some timeout)
                  (advance [EvGenerateCode query] 0 s) = (Return er, s2) ->
  analyze query data analysis_type timeout s
  = match summarize query er s2 with
    | (Return r, s3) => (Return r, s3)
    | (Raise e, s3) => (Return (analysis_failed query e), s3)
    end.
Proof.
  intros Hprep Hgen Hreport Hsafe Hexec. unfold Agent.analyze, try_except.
  erewrite bind_return by (rewrite Hprep; reflexivity).
  erewrite bind_return by (rewrite Hgen; apply call_eq).
  erewrite bind_return by (rewrite Hreport; reflexivity).
  rewrite Hsafe. cbn [negb].
  erewrite bind_return by exact Hexec.
  destruct (summarize query er s2) as [[r|e] s3]; reflexivity.
Qed.


(** C6.  For a source that parses and holds a call of [exec], [validate]
    returns a report that is not safe, has risk level 'critical' and lists
    "Blocked function call: exec()"; and when the code generator returns
    such a source, [analyze] returns a failure result, the validation
    failure, having made no call but the one to the code generator: no
    container is started. *)
Theorem exec_call_stops_the_analysis
        (s : state) (code : string)
        (tree func : Ast.node) (args keywords : list Ast.node) :
  ast_parse code = Return tree ->
  Ast.occurs_in tree (Ast.Call func args keywords) ->
  SafetyValidator.func_name func = Some "exec" ->
  (exists report,
     validate code = Return report /\
     SafetyValidator.is_safe report = false /\
     SafetyValidator.risk_level report = "critical" /\
     In "Blocked function call: exec()" (SafetyValidator.violations report)) /\
  (forall data_context,
     _prepare_data_context data = Return data_context ->
     generate query data_context analysis_type = Return code ->
     exists res s',
       analyze query data analysis_type timeout s = (Return res, s') /\
       success res = false /\
       error res = Some "Code safety validation failed" /\
       trace s' = (trace s ++ [EvGenerateCode query])%list).
Proof.
  intros Hparse Hocc Hname.
  destruct (SafetyValidatorProps.exec_call_is_critical ast_parse re_findall
              code tree func args keywords Hparse Hocc Hname)
    as (report & Hreport & Hunsafe & Hrisk & Hin).
  split; [now exists report|].
  intros data_context Hprep Hgen. do 2 eexists.
  split; [exact (analyze_rejected s data_context code report
                   Hprep Hgen Hreport Hunsafe)|].
  repeat split.
Qed.


End Analyze.

Import Scenario.

(** The C6 theorem applies in the first end-to-end scenario. *)
Lemma exec_call_stops_the_analysis_witness :
  exists res s',
    scripted_analyze exec_source exec_tree quiet_world "total by region" initial
    = (Return res, s') /\
    success res = false /\
    error res = Some "Code safety validation failed" /\
    trace s' = [EvGenerateCode "total by region"].
Proof.
  refine (proj2 (exec_call_stops_the_analysis
                   (fun _ => Return exec_tree) (fun _ _ => [])
                   unit unit (fun _ => Return tt) (fun _ _ _ => Return exec_source)
                   (fun q _ _ _ => "Summarize the analysis: " ++ q)
                   (fun _ => Return generated_summary)
                   (fun _ => Return []) (fun _ => Return [])
                   quiet_world "total by region" tt None 300
                   initial exec_source exec_tree (Ast.Name "exec")
                   [Ast.Other []] [] eq_refl _ eq_refl)
                tt eq_refl eq_refl).
  apply Ast.occurs_below with (c := Ast.Other [Ast.Call (Ast.Name "exec") [Ast.Other []] []]);
    [now left|].
  apply Ast.occurs_below with (c := Ast.Call (Ast.Name "exec") [Ast.Other []] []);
    [now left | apply Ast.occurs_here].
Defined.



End AgentProps.

(* ================================================================= *)
(** ** The session store and the streaming endpoint *)

Module BackendProps.
Import PyStr Py Backend.

Lemma dict_get_set_same {V : Type} (d : dict V) (k : string) (v : V) :
  dict_get (dict_set d k v) k = Some v.
Proof.
  induction d as [|[k' v'] d IH]; cbn [dict_set dict_get].
  - now rewrite String.eqb_refl.
  - destruct (String.eqb k' k) eqn:E; cbn [dict_get].
    + now rewrite String.eqb_refl.
    + now rewrite E.
Qed.

(** Setting a key that is not there puts it last. *)
Lemma dict_set_fresh {V : Type} (d : dict V) (k : string) (v : V) :
  dict_has d k = false -> dict_set d k v = (d ++ [(k, v)])%list.
Proof.
  unfold dict_has. induction d as [|[k' v'] d IH]; cbn [dict_set dict_get app];
    [reflexivity|].
  destruct (String.eqb k' k); [discriminate|].
  intros H. now rewrite IH.
Qed.

(** A session that [get_sessions] lists is in [chat_sessions]. *)
Lemma listed_session_exists (st : Server) (sid : string) :
  In sid (map session_id (get_sessions st)) ->
  dict_has (chat_sessions st) sid = true.
Proof.
  unfold get_sessions, dict_has. destruct st as [sessions n]. cbn [chat_sessions].
  induction sessions as [|[k messages] sessions IH]; cbn [flat_map map];
    [contradiction|].
  rewrite map_app, in_app_iff. cbn [dict_get].
  destruct (String.eqb k sid) eqn:E; [reflexivity|].
  intros [Hhere | Hrest]; [|exact (IH Hrest)].
  destruct messages as [|first rest]; [contradiction|].
  destruct Hhere as [Hk|[]]. cbn [session_id] in Hk.
  apply String.eqb_neq in E. contradiction.
Qed.

Section Handlers.

Variable utcnow_isoformat : nat -> string.
Variable json_loads : string -> outcome json.

Local Abbreviation handle_text := (handle_text utcnow_isoformat json_loads).
Local Abbreviation receive_loop := (receive_loop utcnow_isoformat json_loads).
Local Abbreviation websocket_chat := (websocket_chat utcnow_isoformat json_loads).

(** A loop that has used up its frames and waits goes on with the frames
    that follow. *)
Lemma receive_loop_app (sid : string) (before more : list inbound) :
  forall (st : Server) (out : list frame) (run : ws_run),
    receive_loop sid before st out = run ->
    status run = Receiving ->
    receive_loop sid (before ++ more) st out
    = receive_loop sid more (server run) (sent run).
Proof.
  induction before as [|[data|] before IH]; intros st out run Hrun Hstatus;
    cbn [app Backend.receive_loop] in *.
  - now subst run.
  - destruct (handle_text sid data st) as [[reply|e] st'].
    + now apply IH.
    + subst run. destruct e; discriminate Hstatus.
  - subst run. discriminate Hstatus.
Qed.

(** C9, as the code has it.  When the frames before it were answered and
    the handling of a text frame raises [e], an exception other than the
    close of the peer, the server sends one frame [{type: "error", content:
    str(e)}] and the receive loop is over: the handler has returned, and
    the frames that follow are never read, whatever they are. *)
Theorem error_frame_ends_the_receive_loop
        (sid : string) (before rest : list inbound) (data : string)
        (st st' : Server) (run : ws_run) (e : exn) :
  websocket_chat sid before st = run ->
  status run = Receiving ->
  handle_text sid data (server run) = (Raise e, st') ->
  e <> WebSocketDisconnect ->
  websocket_chat sid (before ++ TextFrame data :: rest) st
  = mk_ws_run st' (sent run ++ [mk_frame "error" (str_exn e) None])
              (EndedByError e).
Proof.
  intros Hrun Hstatus Hraise Hne. unfold Backend.websocket_chat in *.
  rewrite (receive_loop_app sid before (TextFrame data :: rest) _ _ run Hrun Hstatus).
  cbn [Backend.receive_loop]. rewrite Hraise.
  destruct e; try reflexivity. contradiction.
Qed.

(** C10.  Accepting a connection for a session id that is not in the
    store makes that session with no message, also when no frame is ever
    received: afterwards the history of the session is served with status
    200 and an empty list, where it was a 404 before, and the listing of
    the sessions, which skips a session without messages, is what it was
    and does not name the session. *)
Theorem websocket_accept_creates_empty_session
        (sid : string) (inbox : list inbound) (st : Server) :
  dict_has (chat_sessions st) sid = false ->
  inbox = [] \/ hd_error inbox = Some PeerClose ->
  let st' := server (websocket_chat sid inbox st) in
  get_session_history sid st = HTTPException 404 "Session not found" /\
  get_session_history sid st' = Ok200 (sid, []) /\
  get_sessions st' = get_sessions st /\
  ~ In sid (map session_id (get_sessions st')).
Proof.
  intros Hnew Hinbox. cbv zeta.
  assert (Hserver : server (websocket_chat sid inbox st)
                    = mk_Server (chat_sessions st ++ [(sid, [])])%list (clock_reads st)).
  { unfold Backend.websocket_chat, accept_session. rewrite Hnew. cbn [negb].
    rewrite (dict_set_fresh _ _ _ Hnew).
    destruct Hinbox as [-> | Hclose]; [reflexivity|].
    destruct inbox as [|[data|] rest]; try discriminate Hclose; reflexivity. }
  assert (Hlisting : get_sessions (server (websocket_chat sid inbox st))
                     = get_sessions st).
  { rewrite Hserver. unfold get_sessions. cbn [chat_sessions].
    now rewrite flat_map_app, app_nil_r. }
  repeat split.
  - unfold get_session_history. unfold dict_has in Hnew.
    now destruct (dict_get (chat_sessions st) sid).
  - unfold get_session_history. rewrite Hserver. cbn [chat_sessions].
    rewrite <- (dict_set_fresh _ _ _ Hnew). now rewrite dict_get_set_same.
  - exact Hlisting.
  - rewrite Hlisting. intros Hin.
    apply listed_session_exists in Hin. congruence.
Qed.

End Handlers.

Import Scenario.

(** C9 as stated fails: a text that is not JSON, then the frame
    [{"message": "hi"}].  The server answers the first with an error frame
    and returns; it is not receiving any more, and the session it made
    never gets the message of the second frame, which on its own is
    answered. *)
Lemma error_does_not_keep_channel_open :
  let run := websocket_chat scenario_clock scenario_json_loads "s1"
                            [TextFrame "not json"; TextFrame hello_frame]
                            empty_server in
  sent run = [mk_frame "error" "Expecting value: line 1 column 1 (char 0)" None] /\
  status run = EndedByError expecting_value /\
  status run <> Receiving /\
  status run <> ClosedByPeer /\
  chat_sessions (server run) = [("s1", [])] /\
  List.length (sent (websocket_chat scenario_clock scenario_json_loads "s1"
                                    [TextFrame hello_frame] empty_server)) = 1 /\
  status (websocket_chat scenario_clock scenario_json_loads "s1"
                         [TextFrame hello_frame] empty_server) = Receiving.
Proof.
  cbv zeta. repeat split; try reflexivity; discriminate.
Qed.

(** The C9 theorem applies: one frame is answered, the next is not JSON, a
    third follows. *)
Lemma error_frame_ends_the_receive_loop_witness :
  exists st',
    websocket_chat scenario_clock scenario_json_loads "s1"
                   ([TextFrame hello_frame]
                      ++ TextFrame "not json" :: [TextFrame hello_frame])
                   empty_server
    = mk_ws_run st'
        (sent (websocket_chat scenario_clock scenario_json_loads "s1"
                              [TextFrame hello_frame] empty_server)
           ++ [mk_frame "error" (str_exn expecting_value) None])
        (EndedByError expecting_value).
Proof.
  eexists.
  apply (error_frame_ends_the_receive_loop scenario_clock scenario_json_loads
           "s1" [TextFrame hello_frame] [TextFrame hello_frame] "not json"
           empty_server _ _ expecting_value eq_refl eq_refl).
  - reflexivity.
  - discriminate.
Defined.

(** The C10 theorem applies: a connection for "s1" on a server without
    sessions, closed by the peer before any frame. *)
Lemma websocket_accept_creates_empty_session_witness :
  get_session_history "s1" empty_server = HTTPException 404 "Session not found" /\
  get_session_history "s1"
    (server (websocket_chat scenario_clock scenario_json_loads "s1" [PeerClose]
                            empty_server))
  = Ok200 ("s1", []) /\
  get_sessions (server (websocket_chat scenario_clock scenario_json_loads "s1"
                                       [PeerClose] empty_server))
  = get_sessions empty_server /\
  ~ In "s1" (map session_id
               (get_sessions
                  (server (websocket_chat scenario_clock scenario_json_loads "s1"
                                          [PeerClose] empty_server)))).
Proof.
  apply (websocket_accept_creates_empty_session scenario_clock scenario_json_loads
           "s1" [PeerClose] empty_server eq_refl).
  right. reflexivity.
Defined.

End BackendProps.

(* ================================================================= *)
(** * Further properties of the code *)

(** ** Rules for [emits] and [never_raises] *)

Module EffLogicFacts.
Import Py Eff EffLogic.

Section Rules.

Variable P : event -> Prop.

Lemma emits_ret {A : Type} (a : A) : emits P (ret a).
Proof.
  intros s r s' H. inversion H; subst. exists []. now rewrite app_nil_r.
Qed.

Lemma emits_raise {A : Type} (e : exn) : emits P (@raise A e).
Proof.
  intros s r s' H. inversion H; subst. exists []. now rewrite app_nil_r.
Qed.

Lemma emits_lift {A : Type} (o : outcome A) : emits P (lift o).
Proof.
  intros s r s' H. inversion H; subst. exists []. now rewrite app_nil_r.
Qed.

Lemma emits_read_clock {A : Type} (clock : nat -> A) : emits P (read_clock clock).
Proof.
  intros s r s' H. inversion H; subst. exists []. cbn. now rewrite app_nil_r.
Qed.

Lemma emits_call {A : Type} (ev : event) (o : outcome A) :
  P ev -> emits P (call ev o).
Proof.
  intros Hev s r s' H. inversion H; subst. exists [ev]. cbn. auto.
Qed.

Lemma emits_bind {A B : Type} (m : M A) (k : A -> M B) :
  emits P m -> (forall a, emits P (k a)) -> emits P (bind m k).
Proof.
  intros Hm Hk s r s' H. unfold bind in H.
  destruct (m s) as [[a|e] s1] eqn:Em.
  - destruct (Hm _ _ _ Em) as (e1 & T1 & F1).
    destruct (Hk a _ _ _ H) as (e2 & T2 & F2).
    exists (e1 ++ e2)%list. rewrite T2, T1, <- app_assoc. split; [reflexivity|].
    apply Forall_app; auto.
  - inversion H; subst. exact (Hm _ _ _ Em).
Qed.

Lemma emits_try_except {A : Type} (m : M A) (h : exn -> M A) :
  emits P m -> (forall e, emits P (h e)) -> emits P (try_except m h).
Proof.
  intros Hm Hh s r s' H. unfold try_except in H.
  destruct (m s) as [[a|e] s1] eqn:Em.
  - inversion H; subst. exact (Hm _ _ _ Em).
  - destruct (Hm _ _ _ Em) as (e1 & T1 & F1).
    destruct (Hh e _ _ _ H) as (e2 & T2 & F2).
    exists (e1 ++ e2)%list. rewrite T2, T1, <- app_assoc. split; [reflexivity|].
    apply Forall_app; auto.
Qed.

Lemma emits_try_finally {A : Type} (m : M A) (c : M unit) :
  emits P m -> emits P c -> emits P (try_finally m c).
Proof.
  intros Hm Hc s r s' H. unfold try_finally in H.
  destruct (m s) as [r1 s1] eqn:Em.
  destruct (c s1) as [[u|e] s2] eqn:Ec; inversion H; subst;
    destruct (Hm _ _ _ Em) as (e1 & T1 & F1);
    destruct (Hc _ _ _ Ec) as (e2 & T2 & F2);
    exists (e1 ++ e2)%list; rewrite T2, T1, <- app_assoc;
    (split; [reflexivity | apply Forall_app; auto]).
Qed.

Lemma emits_attempt {A : Type} (m : M A) : emits P m -> emits P (attempt m).
Proof.
  intros Hm s r s' H. unfold attempt in H.
  destruct (m s) as [r1 s1] eqn:Em. inversion H; subst. exact (Hm _ _ _ Em).
Qed.

End Rules.

Lemma emits_weaken {A : Type} (P Q : event -> Prop) (m : M A) :
  (forall ev, P ev -> Q ev) -> emits P m -> emits Q m.
Proof.
  intros HPQ Hm s r s' H. destruct (Hm _ _ _ H) as (evs & T & F).
  exists evs. split; [exact T|]. eapply Forall_impl; eauto.
Qed.

Lemma never_raises_ret {A : Type} (a : A) : never_raises (ret a).
Proof. intros s. now exists a, s. Qed.

(** A [try] whose handler never raises never raises. *)
Lemma never_raises_try_except {A : Type} (m : M A) (h : exn -> M A) :
  (forall e, never_raises (h e)) -> never_raises (try_except m h).
Proof.
  intros Hh s. unfold try_except. destruct (m s) as [[a|e] s1].
  - now exists a, s1.
  - apply Hh.
Qed.

(** A [finally] clause that never raises leaves the outcome as it is. *)
Lemma never_raises_try_finally {A : Type} (m : M A) (c : M unit) :
  never_raises m -> never_raises c -> never_raises (try_finally m c).
Proof.
  intros Hm Hc s. unfold try_finally.
  destruct (Hm s) as (a & s1 & ->). destruct (Hc s1) as (u & s2 & ->).
  now exists a, s2.
Qed.

Lemma never_raises_bind {A B : Type} (m : M A) (k : A -> M B) :
  never_raises m -> (forall a, never_raises (k a)) -> never_raises (bind m k).
Proof.
  intros Hm Hk s. unfold bind. destruct (Hm s) as (a & s1 & ->). apply Hk.
Qed.

Lemma never_raises_read_clock {A : Type} (clock : nat -> A) :
  never_raises (read_clock clock).
Proof. intros s. unfold read_clock. eauto. Qed.

Lemma yields_ret {A : Type} (Q : A -> Prop) (a : A) : Q a -> yields Q (ret a).
Proof. intros H s a' s' E. inversion E; now subst. Qed.

Lemma yields_bind {A B : Type} (Q : B -> Prop) (m : M A) (k : A -> M B) :
  (forall a, yields Q (k a)) -> yields Q (bind m k).
Proof.
  intros Hk s b s' E. unfold bind in E.
  destruct (m s) as [[a|e] s1]; [exact (Hk a _ _ _ E) | discriminate E].
Qed.

Lemma yields_bind_with {A B : Type} (R : A -> Prop) (Q : B -> Prop)
      (m : M A) (k : A -> M B) :
  yields R m -> (forall a, R a -> yields Q (k a)) -> yields Q (bind m k).
Proof.
  intros Hm Hk s b s' E. unfold bind in E.
  destruct (m s) as [[a|e] s1] eqn:Em; [|discriminate E].
  exact (Hk a (Hm _ _ _ Em) _ _ _ E).
Qed.

Lemma yields_lift {A : Type} (Q : A -> Prop) (o : outcome A) :
  (forall a, o = Return a -> Q a) -> yields Q (lift o).
Proof. intros H s a s' E. inversion E; subst. now apply H. Qed.

Lemma yields_try_except {A : Type} (Q : A -> Prop) (m : M A) (h : exn -> M A) :
  yields Q m -> (forall e, yields Q (h e)) -> yields Q (try_except m h).
Proof.
  intros Hm Hh s a s' E. unfold try_except in E.
  destruct (m s) as [[a0|e] s1] eqn:Em.
  - inversion E; subst. exact (Hm _ _ _ Em).
  - exact (Hh e _ _ _ E).
Qed.

End EffLogicFacts.

(* ================================================================= *)
(** ** The sandbox executor on every path *)

Module SandboxPaths.
Import PyStr Py Eff Sandbox EffFacts EffLogic EffLogicFacts.

Section AnyWorld.

Context {Obj : Type}.
Variables (w : World) (script : string) (data : option (dict Obj))
          (timeout : option Z).

Lemma guarded_call_never_raises (ev : event) (r : outcome unit) :
  never_raises (try_except (call ev r) (fun _ => ret tt)).
Proof. intros s. rewrite guarded_call_eq. eauto. Qed.

Lemma guarded_call_emits (P : event -> Prop) (ev : event) (r : outcome unit) :
  P ev -> emits P (try_except (call ev r) (fun _ => ret tt)).
Proof.
  intros Hev. apply emits_try_except; [now apply emits_call|].
  intros e. apply emits_ret.
Qed.

Lemma run_container_failed_emits (P : event -> Prop) (start : float) (e : exn) :
  emits P (run_container_failed w start e).
Proof.
  unfold run_container_failed.
  destruct e;
    first [ apply emits_raise
          | apply emits_bind; [apply emits_read_clock | intros; apply emits_ret] ].
Qed.

Lemma run_container_started_emits (ws id : string) (t : Z) (start : float) :
  emits docker_discipline (run_container_started w ws id t start).
Proof.
  unfold run_container_started. apply emits_bind.
  - apply emits_try_except.
    + apply emits_bind; [now apply emits_call|]. intros code.
      apply emits_bind; [now apply emits_call|]. intros raw. apply emits_ret.
    + intros e. apply emits_bind; [now apply emits_call|].
      intros _. apply emits_raise.
  - intros [[code out] err]. apply emits_bind; [apply emits_read_clock|].
    intros now. apply emits_bind; [apply emits_lift|].
    intros outs. apply emits_ret.
Qed.

Lemma run_container_emits (ws id : string) (t : Z) :
  emits docker_discipline (_run_container w ws id t).
Proof.
  unfold _run_container. apply emits_bind; [apply emits_read_clock|].
  intros start. cbv zeta. apply emits_bind.
  - apply emits_attempt, emits_call. cbn. repeat split.
  - intros [u|e]; [|apply run_container_failed_emits].
    apply emits_try_finally.
    + apply emits_try_except; [apply run_container_started_emits|].
      intros e. apply run_container_failed_emits.
    + now apply guarded_call_emits.
Qed.

Lemma write_data_emits (P : event -> Prop) (dir : string) :
  (forall path, P (EvPickleDump path)) -> emits P (write_data w dir data).
Proof.
  intros HP. unfold write_data. destruct data as [[|x d]|]; try apply emits_ret.
  now apply emits_call.
Qed.

(** The part of [execute] inside its [try ... except]. *)
Lemma guarded_body_never_raises (m : M ExecutionResult) :
  never_raises (try_except m (fun e => ret (execute_failed e))).
Proof. apply never_raises_try_except. intros e. apply never_raises_ret. Qed.

(** Every call [execute] makes to the daemon follows the discipline:
    containers are started without a network, on a read-only root, with
    no new privileges and the memory cap, detached; a stop gives five
    seconds; a removal is forced. *)
Theorem execute_docker_discipline (s s' : state) (r : outcome ExecutionResult) :
  execute w script data timeout s = (r, s') ->
  exists evs,
    trace s' = (trace s ++ evs)%list /\
    forall ev, In ev evs ->
      match ev with
      | EvContainersRun cfg =>
          network_mode cfg = "none" /\ read_only cfg = true /\
          security_opt cfg = ["no-new-privileges"] /\
          mem_limit cfg = "2g" /\ memswap_limit cfg = "2g" /\
          detach cfg = true /\ remove cfg = false
      | EvContainerStop grace => grace = 5%Z
      | EvContainerRemove force => force = true
      | _ => True
      end.
Proof.
  intros H.
  assert (Hemits : emits docker_discipline (execute w script data timeout)).
  { unfold execute. cbv zeta. apply emits_bind; [now apply emits_call|].
    intros ws. apply emits_try_finally; [|now apply guarded_call_emits].
    apply emits_try_except; [|intros e; apply emits_ret].
    apply emits_bind; [now apply emits_call|]. intros _.
    apply emits_bind; [now apply emits_call|]. intros _.
    apply emits_bind; [now apply emits_call|]. intros _.
    apply emits_bind; [now apply write_data_emits|]. intros _.
    apply run_container_emits. }
  destruct (Hemits s r s' H) as (evs & T & F).
  exists evs. split; [exact T|]. intros ev Hin.
  rewrite Forall_forall in F. exact (F ev Hin).
Qed.

(** [execute] raises on one path only: when [tempfile.mkdtemp] raises,
    before the [try].  Every failure after that is returned as a
    result. *)
Theorem execute_raises_only_without_workspace (s : state) :
  (exists e s', execute w script data timeout s = (Raise e, s')) <->
  (exists e, mkdtemp w (workspace_prefix w) = Raise e).
Proof.
  unfold execute. cbv zeta. split.
  - intros (e & s' & H).
    destruct (mkdtemp w (workspace_prefix w)) as [ws|e0] eqn:Hmk; [|now exists e0].
    erewrite bind_return in H by apply call_eq.
    match type of H with
    | try_finally (try_except ?body _) _ ?s1 = _ =>
        destruct (never_raises_try_finally _ _
                    (guarded_body_never_raises body)
                    (guarded_call_never_raises (EvRmtree ws) (rmtree w ws)) s1)
          as (res & s2 & Hres)
    end.
    rewrite Hres in H. discriminate H.
  - intros (e & Hmk). exists e. eexists.
    apply bind_raise. rewrite Hmk. apply call_eq.
Qed.

(** Once the workspace is made, [execute] returns a result and its last
    call deletes the workspace, on every path. *)
Theorem execute_always_deletes_workspace (s : state) (workspace : string) :
  mkdtemp w (workspace_prefix w) = Return workspace ->
  exists res s' evs,
    execute w script data timeout s = (Return res, s') /\
    trace s' = (trace s ++ [EvMkdtemp (workspace_prefix w)] ++ evs
                  ++ [EvRmtree workspace])%list.
Proof.
  intros Hmk. unfold execute. cbv zeta.
  erewrite bind_return by (rewrite Hmk; apply call_eq).
  set (s1 := advance [EvMkdtemp (workspace_prefix w)] 0 s).
  match goal with
  | |- context [try_finally (try_except ?body ?h) _ s1] =>
      destruct (guarded_body_never_raises body s1) as (res & s2 & Hres);
      assert (Hemits : emits (fun _ => True) (try_except body h))
  end.
  { apply emits_try_except; [|intros e; apply emits_ret].
    apply emits_bind; [now apply emits_call|]. intros _.
    apply emits_bind; [now apply emits_call|]. intros _.
    apply emits_bind; [now apply emits_call|]. intros _.
    apply emits_bind; [now apply write_data_emits|]. intros _.
    eapply emits_weaken; [|apply run_container_emits]. auto. }
  destruct (Hemits _ _ _ Hres) as (evs & T & _).
  exists res. eexists. exists evs. split.
  - eapply try_finally_eq; [exact Hres | apply guarded_call_eq].
  - unfold advance. cbn [trace]. rewrite T. subst s1. unfold advance.
    cbn [trace]. now rewrite <- !app_assoc.
Qed.

(** What the statements after the start of the container do, in any
    world: some outcome, and calls added to the trace. *)
Lemma run_container_started_runs (ws id : string) (t : Z) (start : float)
      (s : state) :
  exists r s' evs,
    run_container_started w ws id t start s = (r, s') /\
    trace s' = (trace s ++ evs)%list.
Proof.
  destruct (run_container_started w ws id t start s) as [r s'] eqn:E.
  destruct (run_container_started_emits ws id t start s r s' E) as (evs & T & _).
  now exists r, s', evs.
Qed.

(** A container that was started is removed by force, and the workspace
    deleted after it, whatever happens in between: the wait, the reading
    of the logs, the stop or the collection may fail, and the removal
    itself may fail. *)
Theorem started_container_is_always_removed (s : state) (workspace : string) :
  starts w script data workspace ->
  exists res s' evs,
    execute w script data timeout s = (Return res, s') /\
    trace s' = (trace s ++ startup_events w script data workspace ++ evs
                  ++ [EvContainerRemove true; EvRmtree workspace])%list.
Proof.
  intros Hstarts. pose proof Hstarts as (_ & _ & _ & _ & _ & Hrun).
  set (s1 := advance (workspace_events w script data workspace) 0 s).
  destruct (run_container_started_runs workspace (new_execution_id w)
              (timeout_or_default timeout) (time_time w (ticks s1))
              (advance [EvContainersRun
                          (container_config workspace (new_execution_id w))] 1 s1))
    as (r & s3 & evs & Hbody & T).
  assert (Hexec : exists res n,
             execute w script data timeout s
             = (Return res,
                advance [EvContainerRemove true; EvRmtree workspace] n s3)).
  { destruct r as [res|e].
    - exists res, 0.
      rewrite (SandboxProps.execute_eq w script data timeout workspace s _ res
                 Hstarts
                 (SandboxProps.run_container_return w timeout workspace s1 s3 res
                    Hrun Hbody)).
      now rewrite advance_advance.
    - destruct (SandboxProps.execute_after_raise w script data timeout workspace
                  s s3 e Hstarts Hbody) as (res & n & H & _).
      now exists res, n. }
  destruct Hexec as (res & n & Hexec).
  exists res. eexists. exists evs. split; [exact Hexec|].
  unfold advance. cbn [trace]. rewrite T. subst s1.
  unfold advance, startup_events. cbn [trace]. now rewrite <- !app_assoc.
Qed.


(** The container ends on its own, its logs are read and its outputs are
    collected: the result carries the decoded logs as [stdout], the
    collected outputs and the exit code, and [success] says whether that
    code is 0.  A program that exits with another status keeps its
    outputs.  The container is not stopped; it is removed, then the
    workspace. *)
Theorem normal_exit_keeps_outputs
        (s : state) (workspace : string) (code : wait_result) (raw : string)
        (outs : dict content) :
  starts w script data workspace ->
  container_wait w (timeout_or_default timeout) = Return code ->
  container_logs w = Return raw ->
  _collect_outputs w (path_join workspace "outputs") = Return outs ->
  exists res s',
    execute w script data timeout s = (Return res, s') /\
    success res = exited_zero code /\
    stdout res = decode_replace w raw /\
    stderr res = "" /\
    outputs res = outs /\
    error res = None /\
    recorded_exit_code res = Some code /\
    trace s' = (trace s ++ startup_events w script data workspace
                  ++ [ EvContainerWait (timeout_or_default timeout);
                       EvContainerLogs;
                       EvContainerRemove true;
                       EvRmtree workspace ])%list.
Proof.
  intros Hstarts Hwait Hlogs Hcollect.
  pose proof Hstarts as (_ & _ & _ & _ & _ & Hrun).
  set (s1 := advance (workspace_events w script data workspace) 0 s).
  set (s2 := advance [EvContainersRun
                        (container_config workspace (new_execution_id w))] 1 s1).
  assert (Hbody : exists res,
             run_container_started w workspace (new_execution_id w)
               (timeout_or_default timeout) (time_time w (ticks s1)) s2
             = (Return res, advance [EvContainerWait (timeout_or_default timeout);
                                     EvContainerLogs] 1 s2) /\
             success res = exited_zero code /\
             stdout res = decode_replace w raw /\
             stderr res = "" /\ outputs res = outs /\ error res = None /\
             recorded_exit_code res = Some code).
  { eexists. split.
    - unfold run_container_started.
      erewrite bind_return.
      2:{ apply try_except_return.
          erewrite bind_return by (rewrite Hwait; apply call_eq).
          erewrite bind_return by (rewrite Hlogs; apply call_eq).
          reflexivity. }
      cbv zeta beta iota.
      erewrite bind_return by apply read_clock_eq. cbv zeta.
      erewrite bind_return by (rewrite Hcollect; reflexivity).
      unfold ret. rewrite !advance_advance. reflexivity.
    - repeat split. }
  destruct Hbody as (res & Hbody & Hres).
  exists res. eexists. split.
  - eapply SandboxProps.execute_eq; [exact Hstarts|].
    eapply SandboxProps.run_container_return; [exact Hrun | exact Hbody].
  - split; [|split; [|split; [|split; [|split; [|split]]]]]; try apply Hres.
    subst s2 s1. unfold advance, startup_events. cbn [trace].
    now rewrite <- !app_assoc.
Qed.

End AnyWorld.

Import Scenario Cases.

Lemma failing_exit_world_starts :
  starts failing_exit_world sleep_script (@None (dict unit)) scenario_workspace.
Proof. repeat split. Qed.

(** In the time-out scenario, where the container is started, stopped and
    removed, every call follows the discipline. *)
Lemma execute_docker_discipline_witness :
  exists evs,
    trace (snd (@execute unit timeout_world sleep_script None (Some 2%Z) initial))
    = (trace initial ++ evs)%list /\
    forall ev, In ev evs ->
      match ev with
      | EvContainersRun cfg =>
          network_mode cfg = "none" /\ read_only cfg = true /\
          security_opt cfg = ["no-new-privileges"] /\
          mem_limit cfg = "2g" /\ memswap_limit cfg = "2g" /\
          detach cfg = true /\ remove cfg = false
      | EvContainerStop grace => grace = 5%Z
      | EvContainerRemove force => force = true
      | _ => True
      end.
Proof.
  apply (@execute_docker_discipline unit timeout_world sleep_script None (Some 2%Z)
           initial _
           (fst (@execute unit timeout_world sleep_script None (Some 2%Z) initial))).
  reflexivity.
Defined.

(** On a full disk the workspace is made, nothing can be put into it, and
    it is deleted. *)
Lemma execute_always_deletes_workspace_witness :
  exists res s' evs,
    @execute unit full_disk_world sleep_script None None initial = (Return res, s') /\
    trace s' = (trace initial ++ [EvMkdtemp (workspace_prefix full_disk_world)] ++ evs
                  ++ [EvRmtree scenario_workspace])%list.
Proof.
  apply (@execute_always_deletes_workspace unit full_disk_world sleep_script None
           None initial scenario_workspace).
  reflexivity.
Defined.

(** The container of the malformed [metrics.json], whose collection
    fails, is removed. *)
Lemma started_container_is_always_removed_witness :
  exists res s' evs,
    @execute unit malformed_json_world sleep_script None None initial
    = (Return res, s') /\
    trace s' = (trace initial
                  ++ startup_events malformed_json_world sleep_script
                                    (@None (dict unit)) scenario_workspace
                  ++ evs
                  ++ [EvContainerRemove true; EvRmtree scenario_workspace])%list.
Proof.
  apply (@started_container_is_always_removed unit malformed_json_world sleep_script
           None None initial scenario_workspace).
  exact SandboxProps.malformed_json_world_starts.
Defined.


(** A program that exits with status 1 keeps the table it wrote. *)
Lemma normal_exit_keeps_outputs_witness :
  exists res s',
    @execute unit failing_exit_world sleep_script None None initial
    = (Return res, s') /\
    success res = false /\
    stdout res = "Traceback (most recent call last):" /\
    stderr res = "" /\
    outputs res = [("partial.csv", CStr "a,b")] /\
    error res = None /\
    recorded_exit_code res = Some (WaitDict (Some 1%Z)) /\
    trace s' = (trace initial
                  ++ startup_events failing_exit_world sleep_script
                                    (@None (dict unit)) scenario_workspace
                  ++ [ EvContainerWait (timeout_or_default None);
                       EvContainerLogs;
                       EvContainerRemove true;
                       EvRmtree scenario_workspace ])%list.
Proof.
  apply (@normal_exit_keeps_outputs unit failing_exit_world sleep_script None None
           initial scenario_workspace (WaitDict (Some 1%Z))
           "Traceback (most recent call last):" [("partial.csv", CStr "a,b")]).
  - exact failing_exit_world_starts.
  - reflexivity.
  - reflexivity.
  - reflexivity.
Defined.

End SandboxPaths.

(* ================================================================= *)
(** ** Collected outputs *)

Module CollectProps.
Import PyStr Py Sandbox.

Lemma dict_get_set_other {V : Type} (d : dict V) (k k' : string) (v : V) :
  k <> k' -> dict_get (dict_set d k v) k' = dict_get d k'.
Proof.
  intros Hne. induction d as [|[k0 v0] d IH]; cbn [dict_set dict_get].
  - destruct (String.eqb_spec k k'); [contradiction | reflexivity].
  - destruct (String.eqb_spec k0 k) as [->|Hk0]; cbn [dict_get].
    + destruct (String.eqb_spec k k'); [contradiction | reflexivity].
    + destruct (String.eqb k0 k'); [reflexivity | exact IH].
Qed.

Lemma dict_has_set {V : Type} (d : dict V) (k k' : string) (v : V) :
  dict_has (dict_set d k v) k' = String.eqb k k' || dict_has d k'.
Proof.
  unfold dict_has. destruct (String.eqb_spec k k') as [->|Hne].
  - now rewrite BackendProps.dict_get_set_same.
  - now rewrite dict_get_set_other.
Qed.

Section Collect.

Variable w : World.

(** What the loop does with one entry: nothing for what is not a regular
    file; otherwise it stores one artifact under the name of the file.  The
    artifact is a JSON document exactly for a name in [.json], and a
    [bytes] artifact holds the bytes of the file. *)
Lemma collect_entry_stores (o o' : dict content) (f : dir_entry) :
  collect_entry w o f = Return o' ->
  (entry_is_file f = false /\ o' = o) \/
  (entry_is_file f = true /\
   exists v, o' = dict_set o (entry_name f) v /\
     (endswith (entry_name f) ".json" = true <-> exists j, v = CJson j) /\
     (forall b, v = CBytes b -> b = entry_bytes f)).
Proof.
  unfold collect_entry. destruct (entry_is_file f); [|intros [= <-]; now left].
  intros H. right. split; [reflexivity|].
  destruct (endswith (entry_name f) ".json") eqn:Ejson.
  - destruct (read_text w (entry_bytes f)) as [text|e]; [|discriminate H].
    destruct (json_loads w text) as [j|e]; [|discriminate H].
    injection H as <-. eexists. split; [reflexivity|]. split.
    + split; [intros _; now exists j | reflexivity].
    + discriminate.
  - assert (Hnot : forall v, (forall j, v <> CJson j) ->
                     (false = true <-> exists j, v = CJson j)).
    { intros v Hv. split; [discriminate | intros [j Hj]; now destruct (Hv j)]. }
    destruct (endswith (entry_name f) ".png" || endswith (entry_name f) ".jpg"
              || endswith (entry_name f) ".jpeg").
    { injection H as <-. eexists. split; [reflexivity|]. split.
      - apply Hnot. discriminate.
      - now intros b [= <-]. }
    destruct (endswith (entry_name f) ".html").
    { destruct (read_text w (entry_bytes f)) as [text|e]; [|discriminate H].
      injection H as <-. eexists. split; [reflexivity|]. split.
      - apply Hnot. discriminate.
      - discriminate. }
    destruct (endswith (entry_name f) ".csv").
    { destruct (read_text w (entry_bytes f)) as [text|e]; [|discriminate H].
      injection H as <-. eexists. split; [reflexivity|]. split.
      - apply Hnot. discriminate.
      - discriminate. }
    destruct (read_text w (entry_bytes f)) as [text|e].
    { injection H as <-. eexists. split; [reflexivity|]. split.
      - apply Hnot. discriminate.
      - discriminate. }
    destruct e; try discriminate H.
    injection H as <-. eexists. split; [reflexivity|]. split.
    + apply Hnot. discriminate.
    + now intros b [= <-].
Qed.

Lemma collect_entries_names (entries : list dir_entry) :
  forall (o d : dict content),
    collect_entries w o entries = Return d ->
    forall k, dict_has d k = true <->
              dict_has o k = true \/
              exists f, In f entries /\ entry_is_file f = true /\ entry_name f = k.
Proof.
  induction entries as [|f entries IH]; intros o d H k; cbn [collect_entries] in H.
  - injection H as <-. split; [now left | intros [Ho | (f & [] & _)]; exact Ho].
  - destruct (collect_entry w o f) as [o'|e] eqn:Ef; [|discriminate H].
    rewrite (IH o' d H k).
    destruct (collect_entry_stores o o' f Ef) as [[Hfile ->] | [Hfile (v & -> & _)]].
    + split.
      * intros [Ho | (g & Hin & Hg)]; [now left|]. right. exists g. split; [now right | exact Hg].
      * intros [Ho | (g & [<- | Hin] & Hg & Hk)]; [now left | congruence |].
        right. now exists g.
    + rewrite dict_has_set. split.
      * intros [Ho | (g & Hin & Hg)].
        -- apply orb_true_iff in Ho as [Hk | Ho]; [|now left].
           right. exists f. apply String.eqb_eq in Hk. split; [now left | now split].
        -- right. exists g. split; [now right | exact Hg].
      * intros [Ho | (g & [<- | Hin] & Hg & Hk)].
        -- left. rewrite Ho. apply orb_true_r.
        -- left. rewrite Hk, String.eqb_refl. reflexivity.
        -- right. now exists g.
Qed.

(** The names in the collected outputs are exactly the names of the
    regular files of the outputs directory: every file is kept under its
    own name, sub-directories are skipped, nothing else appears; a missing
    directory gives no outputs. *)
Theorem collected_names_are_the_file_names
        (outputs_dir : string) (d : dict content) (k : string) :
  _collect_outputs w outputs_dir = Return d ->
  (dict_has d k = true <->
   exists entries f,
     iterdir w outputs_dir = Some entries /\
     In f entries /\ entry_is_file f = true /\ entry_name f = k).
Proof.
  unfold _collect_outputs. destruct (iterdir w outputs_dir) as [entries|].
  - intros H. rewrite (collect_entries_names entries [] d H k). split.
    + intros [Hempty | (f & Hf)]; [discriminate Hempty|]. now exists entries, f.
    + intros (entries' & f & [= <-] & Hf). right. now exists f.
  - intros [= <-]. split; [discriminate | intros (entries & f & Habsurd & _)].
    discriminate Habsurd.
Qed.



End Collect.

Import Scenario Cases.

(** The outputs directory of a program that wrote a table next to a
    sub-directory: the table is collected. *)
Lemma collected_names_are_the_file_names_witness :
  dict_has [("partial.csv", CStr "a,b")] "partial.csv" = true <->
  exists entries f,
    iterdir failing_exit_world "/tmp/sandbox_1a2b3c4d_k3x9/outputs" = Some entries /\
    In f entries /\ entry_is_file f = true /\ entry_name f = "partial.csv".
Proof.
  apply (collected_names_are_the_file_names failing_exit_world
           "/tmp/sandbox_1a2b3c4d_k3x9/outputs" [("partial.csv", CStr "a,b")]
           "partial.csv").
  reflexivity.
Defined.


End CollectProps.

(* ================================================================= *)
(** ** The screener: where violations come from, and the verdict *)

Module ValidatorMore.
Import PyStr Py Ast SafetyValidator PyStrFacts AstFacts.

(** [ast.walk] yields only nodes of the queued trees. *)
Lemma walk_queue_sound (fuel : nat) :
  forall todo d, In d (walk_queue fuel todo) ->
                 exists n, In n todo /\ occurs_in n d.
Proof.
  induction fuel as [|fuel IH]; intros todo d Hin; [contradiction|].
  destruct todo as [|h rest]; [contradiction|]. cbn [walk_queue] in Hin.
  destruct Hin as [<- | Hin].
  - exists h. split; [now left | apply occurs_here].
  - destruct (IH _ _ Hin) as (n & Hn & Hocc).
    apply in_app_or in Hn as [Hn | Hn].
    + exists n. split; [now right | exact Hocc].
    + exists h. split; [now left|]. now apply occurs_below with (c := n).
Qed.

Lemma walk_sound (tree d : node) : In d (walk tree) -> occurs_in tree d.
Proof.
  intros H. destruct (walk_queue_sound _ _ _ H) as (n & [<- | []] & Hocc).
  exact Hocc.
Qed.

Lemma walk_iff (tree d : node) : In d (walk tree) <-> occurs_in tree d.
Proof. split; [apply walk_sound | apply walk_complete]. Qed.

(** The part of a dotted name before its first dot starts the name. *)
Lemma split_head_prefix (sep : ascii) (s : string) :
  exists rest, s = split_head sep s ++ rest.
Proof.
  induction s as [|c s [rest IH]]; [now exists ""|]. cbn [split_head].
  destruct (Ascii.eqb c sep).
  - now exists (String c s).
  - exists rest. cbn [append]. now rewrite <- IH.
Qed.

Lemma filter_none {A : Type} (f : A -> bool) (l : list A) :
  (forall x, In x l -> f x = false) -> filter f l = [].
Proof.
  induction l as [|x l IH]; intros H; [reflexivity|]. cbn [filter].
  rewrite (H x (or_introl eq_refl)). apply IH. intros y Hy. apply H. now right.
Qed.

Lemma flat_map_none {A B : Type} (f : A -> list B) (l : list A) :
  (forall x, In x l -> f x = []) -> flat_map f l = [].
Proof.
  induction l as [|x l IH]; intros H; [reflexivity|]. cbn [flat_map].
  rewrite (H x (or_introl eq_refl)). apply IH. intros y Hy. apply H. now right.
Qed.

Section Validate.

Variable ast_parse : string -> outcome node.
Variable re_findall : string -> string -> list string.

Local Abbreviation validate := (validate ast_parse re_findall).
Local Abbreviation _check_suspicious_patterns :=
  (_check_suspicious_patterns re_findall).

Lemma import_violation_iff (tree : node) (v : string) :
  In v (_check_imports tree) <->
  (exists names a,
      occurs_in tree (Import names) /\ In a names /\
      mem (top_module (name a)) BLOCKED_IMPORTS = true /\
      v = "Blocked import: " ++ name a) \/
  (exists m names level,
      occurs_in tree (ImportFrom (Some m) names level) /\
      mem (top_module m) BLOCKED_IMPORTS = true /\
      v = "Blocked import from: " ++ m).
Proof.
  unfold _check_imports. rewrite in_flat_map. split.
  - intros (n & Hn & Hv). apply walk_sound in Hn.
    destruct n as [names|[m|] names lvl| | | | |]; try contradiction.
    + left. cbn [import_violations] in Hv. apply in_flat_map in Hv as (a & Ha & Hv).
      destruct (mem (top_module (name a)) BLOCKED_IMPORTS) eqn:E; [|contradiction].
      destruct Hv as [<- | []]. now exists names, a.
    + right. cbn [import_violations] in Hv.
      destruct (negb (String.eqb m "")); [|contradiction].
      destruct (mem (top_module m) BLOCKED_IMPORTS) eqn:E; [|contradiction].
      destruct Hv as [<- | []]. now exists m, names, lvl.
  - intros [(names & a & Hocc & Ha & Hblocked & ->)
           | (m & names & lvl & Hocc & Hblocked & ->)].
    + exists (Import names). split; [now apply walk_complete|].
      cbn [import_violations]. apply in_flat_map. exists a. split; [exact Ha|].
      rewrite Hblocked. now left.
    + exists (ImportFrom (Some m) names lvl). split; [now apply walk_complete|].
      cbn [import_violations].
      destruct (String.eqb_spec m "") as [-> | _]; [discriminate Hblocked|].
      cbn [negb]. rewrite Hblocked. now left.
Qed.

(** The callee of a call has a final identifier in two forms only: the
    bare name and the attribute. *)
Lemma callee_iff (func : node) (f : string) :
  func_name func = Some f <->
  func = Name f \/ exists value, func = Attribute value f.
Proof.
  split.
  - destruct func; cbn [func_name]; try discriminate; intros [= <-];
      [now left | right; eauto].
  - intros [-> | [value ->]]; reflexivity.
Qed.

Lemma function_violation_iff (tree : node) (v : string) :
  In v (_check_functions tree) <->
  exists func args keywords f,
    occurs_in tree (Call func args keywords) /\
    func_name func = Some f /\
    mem f BLOCKED_FUNCTIONS = true /\
    v = "Blocked function call: " ++ f ++ "()".
Proof.
  unfold _check_functions. rewrite in_flat_map. split.
  - intros (n & Hn & Hv). apply walk_sound in Hn.
    destruct n as [| |func args kws| | | |]; try contradiction.
    cbn [function_violations] in Hv.
    destruct (func_name func) as [f|] eqn:Ef; [|contradiction].
    destruct (mem f BLOCKED_FUNCTIONS) eqn:E; [|contradiction].
    destruct Hv as [<- | []]. now exists func, args, kws, f.
  - intros (func & args & kws & f & Hocc & Hname & Hblocked & ->).
    exists (Call func args kws). split; [now apply walk_complete|].
    cbn [function_violations]. rewrite Hname, Hblocked. now left.
Qed.

Lemma check_tree_violations (code : string) (tree : node) :
  violations (check_tree re_findall code tree)
  = (_check_imports tree ++ _check_functions tree)%list.
Proof. rewrite SafetyValidatorProps.report_of_eq. reflexivity. Qed.

(** The violations of a source that parses are exactly its blocked
    constructs: one for each imported name whose top-level module is
    blocked, one for each [from] import of a blocked module, one for each
    call whose callee ends in a blocked identifier.  Nothing else is ever
    a violation, and a source with such a construct is never safe. *)
Theorem violations_are_the_blocked_constructs (code : string) (tree : node) :
  ast_parse code = Return tree ->
  exists r,
    validate code = Return r /\
    (forall v,
       In v (violations r) <->
       (exists names a,
           occurs_in tree (Import names) /\ In a names /\
           mem (top_module (name a)) BLOCKED_IMPORTS = true /\
           v = "Blocked import: " ++ name a) \/
       (exists m names level,
           occurs_in tree (ImportFrom (Some m) names level) /\
           mem (top_module m) BLOCKED_IMPORTS = true /\
           v = "Blocked import from: " ++ m) \/
       (exists func args keywords f,
           occurs_in tree (Call func args keywords) /\
           (func = Name f \/ exists value, func = Attribute value f) /\
           mem f BLOCKED_FUNCTIONS = true /\
           v = "Blocked function call: " ++ f ++ "()")) /\
    (violations r <> [] -> is_safe r = false).
Proof.
  intros Hparse. exists (check_tree re_findall code tree).
  split; [exact (SafetyValidatorProps.validate_parsed _ _ code tree Hparse)|].
  split.
  - intros v. rewrite check_tree_violations, in_app_iff,
      import_violation_iff, function_violation_iff.
    assert (Hcallee :
              (exists func args keywords f,
                  occurs_in tree (Call func args keywords) /\
                  func_name func = Some f /\
                  mem f BLOCKED_FUNCTIONS = true /\
                  v = "Blocked function call: " ++ f ++ "()") <->
              (exists func args keywords f,
                  occurs_in tree (Call func args keywords) /\
                  (func = Name f \/ exists value, func = Attribute value f) /\
                  mem f BLOCKED_FUNCTIONS = true /\
                  v = "Blocked function call: " ++ f ++ "()")).
    { split; intros (func & args & kws & f & Hocc & Hname & Hrest);
        exists func, args, kws, f; (split; [exact Hocc|]);
        (split; [now apply callee_iff | exact Hrest]). }
    tauto.
  - intros Hne.
    destruct (violations (check_tree re_findall code tree)) as [|v vs] eqn:E;
      [congruence|].
    apply (SafetyValidatorProps.report_with_violation_is_unsafe
             re_findall code tree v).
    rewrite E. now left.
Qed.

(** A report without violations is rated by the number of its warnings
    alone: 'safe' for none, 'low' for one to five, 'medium' for six or
    more; and it is safe exactly up to five warnings. *)
Theorem verdict_without_violations (code : string) (r : ValidationResult) :
  validate code = Return r ->
  violations r = [] ->
  let n := List.length (warnings r) in
  risk_level r = (if Nat.eqb n 0 then "safe"
                  else if Nat.leb n 5 then "low" else "medium") /\
  is_safe r = Nat.leb n 5.
Proof.
  intros Hr Hnone.
  destruct (SafetyValidatorProps.validate_returns _ _ code r Hr)
    as [[tree [_ ->]] | [msg [_ ->]]]; [|discriminate Hnone].
  rewrite SafetyValidatorProps.report_of_eq in Hnone |- *.
  cbv zeta in Hnone |- *. cbn [violations warnings risk_level is_safe] in Hnone |- *.
  rewrite Hnone.
  set (ws := (flat_map file_warnings (walk tree) ++ _check_suspicious_patterns code)%list).
  unfold _assess_risk. cbn [is_empty andb negb].
  destruct ws as [|w0 ws']; [split; reflexivity|].
  cbn [is_empty List.length Nat.eqb].
  destruct (Nat.ltb_spec 5 (S (List.length ws'))) as [Hbig | Hsmall].
  - destruct (Nat.leb_spec (S (List.length ws')) 5) as [Hle|_]; [lia|].
    split; reflexivity.
  - destruct (Nat.leb_spec (S (List.length ws')) 5) as [_|Hgt]; [|lia].
    cbn [Nat.ltb Nat.leb]. split; reflexivity.
Qed.

(** The pattern scan gives at most one warning for each of the eight
    patterns, and none at all when every match of every pattern is one of
    the four names [__init__], [__main__], [__name__], [__file__]. *)
Theorem pattern_warnings_are_bounded (code : string) :
  List.length (_check_suspicious_patterns code) <= 8 /\
  ((forall pattern m, In pattern SUSPICIOUS_PATTERNS ->
                      In m (re_findall pattern code) -> In m safe_patterns) ->
   _check_suspicious_patterns code = []).
Proof.
  assert (Hone : forall p, List.length (pattern_warnings re_findall code p) <= 1).
  { intros p. unfold pattern_warnings.
    destruct (re_findall p code); [cbn; lia|].
    destruct (filter _ _); cbn; lia. }
  split.
  - unfold SafetyValidator._check_suspicious_patterns, SUSPICIOUS_PATTERNS.
    cbn [flat_map]. rewrite !length_app. cbn [List.length].
    repeat match goal with
           | |- context [List.length (pattern_warnings re_findall code ?p)] =>
               let H := fresh in
               pose proof (Hone p) as H;
               generalize dependent (List.length (pattern_warnings re_findall code p));
               intros
           end.
    lia.
  - intros Hsafe. apply flat_map_none. intros p Hp. unfold pattern_warnings.
    destruct (re_findall p code) as [|m0 ms] eqn:E; [reflexivity|].
    rewrite filter_none; [reflexivity|].
    intros m Hm. rewrite <- E in Hm.
    apply negb_false_iff, mem_true_iff. now apply (Hsafe p).
Qed.

(** Code evaluation and process execution are rated 'critical': a source
    that parses and calls [eval], [exec] or [execfile], or imports
    [subprocess] or one of its submodules in either form. *)
Theorem evaluation_and_subprocess_are_critical (code : string) (tree : node) :
  ast_parse code = Return tree ->
  (exists func args keywords f,
      occurs_in tree (Call func args keywords) /\
      (func = Name f \/ exists value, func = Attribute value f) /\
      In f ["eval"; "exec"; "execfile"]) \/
  (exists names a,
      occurs_in tree (Import names) /\ In a names /\
      top_module (name a) = "subprocess") \/
  (exists m names level,
      occurs_in tree (ImportFrom (Some m) names level) /\
      top_module m = "subprocess") ->
  exists r, validate code = Return r /\ risk_level r = "critical".
Proof.
  intros Hparse Hconstruct. exists (check_tree re_findall code tree).
  split; [exact (SafetyValidatorProps.validate_parsed _ _ code tree Hparse)|].
  rewrite SafetyValidatorProps.report_of_eq. cbv zeta. cbn [risk_level].
  assert (Hsub : forall dotted prefix,
             top_module dotted = "subprocess" ->
             contains "subprocess" (lower (prefix ++ dotted)) = true).
  { intros dotted prefix Htop.
    destruct (split_head_prefix "." dotted) as [rest Hrest].
    fold (top_module dotted) in Hrest. rewrite Htop in Hrest.
    rewrite Hrest, !lower_app.
    change (lower "subprocess") with "subprocess". apply contains_infix. }
  destruct Hconstruct as [(func & args & kws & f & Hocc & Hcallee & Hf)
                         | [(names & a & Hocc & Ha & Htop)
                           | (m & names & lvl & Hocc & Htop)]].
  - assert (Hname : func_name func = Some f) by now apply callee_iff.
    assert (Hblocked : mem f BLOCKED_FUNCTIONS = true)
      by (destruct Hf as [<- | [<- | [<- | []]]]; reflexivity).
    apply (SafetyValidatorProps.assess_risk_critical _ _
             ("Blocked function call: " ++ f ++ "()")
             (if String.eqb f "eval" then "eval" else "exec")).
    + apply in_or_app. right. apply function_violation_iff.
      now exists func, args, kws, f.
    + destruct Hf as [<- | [<- | [<- | []]]]; cbn; auto.
    + destruct Hf as [<- | [<- | [<- | []]]]; reflexivity.
  - apply (SafetyValidatorProps.assess_risk_critical _ _
             ("Blocked import: " ++ name a) "subprocess").
    + apply in_or_app. left. apply import_violation_iff. left.
      exists names, a. rewrite Htop. auto.
    + cbn. auto.
    + now apply Hsub.
  - apply (SafetyValidatorProps.assess_risk_critical _ _
             ("Blocked import from: " ++ m) "subprocess").
    + apply in_or_app. left. apply import_violation_iff. right.
      exists m, names, lvl. rewrite Htop. auto.
    + cbn. auto.
    + now apply Hsub.
Qed.

End Validate.

Import Scenario Cases.

(** A source that imports [os] and calls [p.open()]: the import is a
    violation, and so is the call through the attribute. *)
Lemma violations_are_the_blocked_constructs_witness :
  exists r,
    SafetyValidator.validate
      (fun _ => Return (Other [ Import [mk_alias "os" None];
                                Other [Call (Attribute (Name "p") "open") [] []] ]))
      (fun _ _ => []) ("import os" ++ newline ++ "p.open()") = Return r /\
    In "Blocked import: os" (violations r) /\
    In "Blocked function call: open()" (violations r) /\
    is_safe r = false.
Proof.
  destruct (violations_are_the_blocked_constructs
              (fun _ => Return (Other [ Import [mk_alias "os" None];
                                        Other [Call (Attribute (Name "p") "open")
                                                    [] []] ]))
              (fun _ _ => []) ("import os" ++ newline ++ "p.open()") _ eq_refl)
    as (r & Hr & Hiff & Hsafe).
  assert (Hin : In "Blocked import: os" (violations r)).
  { apply Hiff. left. exists [mk_alias "os" None], (mk_alias "os" None).
    split; [|split; [now left | split; reflexivity]].
    apply occurs_below with (c := Import [mk_alias "os" None]);
      [now left | apply occurs_here]. }
  assert (Hcall : In "Blocked function call: open()" (violations r)).
  { apply Hiff. right. right.
    exists (Attribute (Name "p") "open"), [], [], "open".
    split; [|split; [right; now exists (Name "p") | split; reflexivity]].
    apply occurs_below with (c := Other [Call (Attribute (Name "p") "open") [] []]);
      [right; now left|].
    apply occurs_below with (c := Call (Attribute (Name "p") "open") [] []);
      [now left | apply occurs_here]. }
  exists r. split; [exact Hr|]. split; [exact Hin|]. split; [exact Hcall|].
  apply Hsafe. intros Hnil. rewrite Hnil in Hin. destruct Hin.
Defined.

(** A source that only writes a file through [pathlib]: no violation, one
    warning, rated 'low' and safe. *)
Lemma verdict_without_violations_witness :
  let r := mk_ValidationResult true [] ["File operation: Path.write_text()"] "low" in
  let n := List.length (warnings r) in
  risk_level r = (if Nat.eqb n 0 then "safe"
                  else if Nat.leb n 5 then "low" else "medium") /\
  is_safe r = Nat.leb n 5.
Proof.
  cbv zeta.
  apply (verdict_without_violations
           (fun _ => Return empty_insights_tree) (fun _ _ => [])
           empty_insights_source
           (mk_ValidationResult true [] ["File operation: Path.write_text()"] "low")).
  - reflexivity.
  - reflexivity.
Defined.

(** The source of the first scenario calls [exec] by its name; a source
    that calls [builtins.exec] does it through an attribute. *)
Lemma evaluation_and_subprocess_are_critical_witness :
  (exists r,
     SafetyValidator.validate (fun _ => Return exec_tree) (fun _ _ => []) exec_source
     = Return r /\
     risk_level r = "critical") /\
  (exists r,
     SafetyValidator.validate
       (fun _ => Return (Other [Other [Call (Attribute (Name "builtins") "exec")
                                            [Other []] []]]))
       (fun _ _ => []) "builtins.exec(s)"
     = Return r /\
     risk_level r = "critical").
Proof.
  split.
  - apply (evaluation_and_subprocess_are_critical
             (fun _ => Return exec_tree) (fun _ _ => []) exec_source exec_tree
             eq_refl).
    left. exists (Name "exec"), [Other []], [], "exec".
    split; [|split; [now left | right; now left]].
    apply occurs_below with (c := Other [Call (Name "exec") [Other []] []]);
      [now left|].
    apply occurs_below with (c := Call (Name "exec") [Other []] []);
      [now left | apply occurs_here].
  - apply (evaluation_and_subprocess_are_critical
             (fun _ => Return (Other [Other [Call (Attribute (Name "builtins") "exec")
                                                  [Other []] []]]))
             (fun _ _ => []) "builtins.exec(s)" _ eq_refl).
    left. exists (Attribute (Name "builtins") "exec"), [Other []], [], "exec".
    split; [|split; [right; now exists (Name "builtins") | right; now left]].
    apply occurs_below
      with (c := Other [Call (Attribute (Name "builtins") "exec") [Other []] []]);
      [now left|].
    apply occurs_below
      with (c := Call (Attribute (Name "builtins") "exec") [Other []] []);
      [now left | apply occurs_here].
Defined.

End ValidatorMore.

(* ================================================================= *)
(** ** The orchestrator on its failure paths *)

Module AgentMore.
Import PyStr Py Eff Agent EffFacts EffLogic EffLogicFacts.

Section Analyze.

Variable ast_parse : string -> outcome Ast.node.
Variable re_findall : string -> string -> list string.
Variables DataFrame DataContext : Type.
Variable _prepare_data_context : DataFrame -> outcome DataContext.
Variable generate : string -> DataContext -> option string -> outcome string.
Variable insights_prompt :
  string -> dict content -> content -> Sandbox.ExecutionResult -> string.
Variable messages_create : string -> outcome string.
Variable _extract_visualizations : dict content -> outcome (list (dict content)).
Variable _extract_metrics : dict content -> outcome (dict json).
Variable w : Sandbox.World.

Local Abbreviation validate := (SafetyValidator.validate ast_parse re_findall).
Local Abbreviation analyze :=
  (analyze ast_parse re_findall DataFrame DataContext _prepare_data_context
           generate insights_prompt messages_create _extract_visualizations
           _extract_metrics w).
Local Abbreviation summarize :=
  (summarize insights_prompt messages_create _extract_visualizations
             _extract_metrics).
Local Abbreviation process := (process _extract_visualizations _extract_metrics).

Variables (query : string) (data : DataFrame) (analysis_type : option string)
          (timeout : Z).

Lemma process_keeps_query (er : Sandbox.ExecutionResult) (i : option content)
      (res : AnalysisResult) :
  process query er i = Return res -> Agent.query res = query.
Proof.
  unfold Agent.process. destruct (negb (Sandbox.success er)).
  - now intros [= <-].
  - destruct (_extract_visualizations _); [|discriminate].
    destruct (_extract_metrics _); [|discriminate].
    now intros [= <-].
Qed.

(** [analyze] never raises: it returns a result on every path, and the
    result is about the query it was given. *)
Theorem analyze_always_returns_a_result (s : state) :
  exists res s',
    analyze query data analysis_type timeout s = (Return res, s') /\
    Agent.query res = query.
Proof.
  assert (Hnever : never_raises (analyze query data analysis_type timeout)).
  { unfold Agent.analyze. apply never_raises_try_except.
    intros e. apply never_raises_ret. }
  assert (Hquery : yields (fun res => Agent.query res = query)
                          (analyze query data analysis_type timeout)).
  { unfold Agent.analyze. apply yields_try_except; [|intros e; now apply yields_ret].
    apply yields_bind. intros data_context.
    apply yields_bind. intros code.
    apply yields_bind. intros report.
    destruct (negb (SafetyValidator.is_safe report)); [now apply yields_ret|].
    apply yields_bind. intros er. unfold Agent.summarize.
    apply yields_bind. intros i.
    apply yields_bind_with with (R := fun res => Agent.query res = query).
    - apply yields_lift. intros res. apply process_keeps_query.
    - intros res Hres. now apply yields_ret. }
  destruct (Hnever s) as (res & s' & H).
  exists res, s'. split; [exact H | exact (Hquery s res s' H)].
Qed.

(** An exception before the execution ends the analysis with a failure
    result carrying its text, and the sandbox is never called: when
    [_prepare_data_context] raises, nothing at all is called; when the code
    generator raises, or the parser raises something other than a syntax
    error, the only call made is the one to the code generator. *)
Theorem early_exception_is_a_failure_result (s : state) (e : exn) :
  (_prepare_data_context data = Raise e ->
   analyze query data analysis_type timeout s
   = (Return (analysis_failed query e), s)) /\
  (forall data_context,
     _prepare_data_context data = Return data_context ->
     generate query data_context analysis_type = Raise e ->
     analyze query data analysis_type timeout s
     = (Return (analysis_failed query e), advance [EvGenerateCode query] 0 s)) /\
  (forall data_context code,
     _prepare_data_context data = Return data_context ->
     generate query data_context analysis_type = Return code ->
     validate code = Raise e ->
     analyze query data analysis_type timeout s
     = (Return (analysis_failed query e), advance [EvGenerateCode query] 0 s)).
Proof.
  split; [|split].
  - intros Hprep. unfold Agent.analyze.
    erewrite try_except_raise; [reflexivity|].
    apply bind_raise. now rewrite Hprep.
  - intros data_context Hprep Hgen. unfold Agent.analyze.
    erewrite try_except_raise; [reflexivity|].
    erewrite bind_return by (rewrite Hprep; reflexivity).
    apply bind_raise. rewrite Hgen. apply call_eq.
  - intros data_context code Hprep Hgen Hval. unfold Agent.analyze.
    erewrite try_except_raise; [reflexivity|].
    erewrite bind_return by (rewrite Hprep; reflexivity).
    erewrite bind_return by (rewrite Hgen; apply call_eq).
    apply bind_raise. now rewrite Hval.
Qed.

(** A failed execution is reported as it is and no summary is asked of
    the model: the result carries "Analysis failed: " and the error of
    the execution ("Unknown error" when it has none), the error itself,
    the [stderr] as raw output and the execution time; the trace ends
    where the execution ended. *)
Theorem failed_execution_is_not_summarized
        (s s2 : state) (data_context : DataContext) (code : string)
        (report : SafetyValidator.ValidationResult) (er : Sandbox.ExecutionResult) :
  _prepare_data_context data = Return data_context ->
  generate query data_context analysis_type = Return code ->
  validate code = Return report ->
  SafetyValidator.is_safe report = true ->
  Sandbox.execute w code (Some [("data", data)]) (Some timeout)
                  (advance [EvGenerateCode query] 0 s) = (Return er, s2) ->
  Sandbox.success er = false ->
  analyze query data analysis_type timeout s
  = (Return {| success := false;
               Agent.query := query;
               insights := CStr ("Analysis failed: "
                                   ++ str_or (Sandbox.error er) "Unknown error");
               visualizations := [];
               metrics := [];
               data_outputs := [];
               execution_time := Sandbox.execution_time er;
               error := Sandbox.error er;
               raw_output := Some (Sandbox.stderr er) |},
     s2).
Proof.
  intros Hprep Hgen Hreport Hsafe Hexec Hfailed.
  rewrite (AgentProps.analyze_executed ast_parse re_findall DataFrame DataContext
             _prepare_data_context generate insights_prompt messages_create
             _extract_visualizations _extract_metrics w query data analysis_type
             timeout s s2 data_context code report er
             Hprep Hgen Hreport Hsafe Hexec).
  unfold Agent.summarize, Agent.process. rewrite Hfailed. reflexivity.
Qed.


End Analyze.

Import Scenario Cases.

(** The time-out scenario seen from the orchestrator: the failure of the
    execution is reported, and the model is asked for the code only. *)
Lemma failed_execution_is_not_summarized_witness :
  exists res s',
    scripted_analyze sleep_script sleep_tree timeout_world "sleep for a while" initial
    = (Return res, s') /\
    success res = false /\
    insights res = CStr ("Analysis failed: " ++ str_exn read_timed_out) /\
    error res = Some (str_exn read_timed_out) /\
    Forall (fun ev => match ev with EvMessagesCreate _ => False | _ => True end)
           (trace s').
Proof.
  eexists. eexists. split.
  - unfold scripted_analyze.
    eapply (failed_execution_is_not_summarized
              (fun _ => Return sleep_tree) (fun _ _ => [])
              unit unit (fun _ => Return tt)
              (fun _ _ _ => Return sleep_script)
              (fun q _ _ _ => "Summarize the analysis: " ++ q)
              (fun _ => Return generated_summary)
              (fun _ => Return []) (fun _ => Return [])
              timeout_world "sleep for a while" tt None 300 initial);
      first [reflexivity | cbv; reflexivity].
  - split; [reflexivity|]. split; [reflexivity|]. split; [reflexivity|].
    repeat constructor.
Defined.


End AgentMore.

(* ================================================================= *)
(** ** Slices and white space *)

Module SliceFacts.
Import PyStr PyStrFacts.

Lemma length_app (a b : string) :
  String.length (a ++ b) = String.length a + String.length b.
Proof. induction a as [|c a IH]; cbn; [reflexivity | now rewrite IH]. Qed.

Lemma append_assoc (a b c : string) : (a ++ b) ++ c = a ++ b ++ c.
Proof. induction a as [|x a IH]; cbn; [reflexivity | now rewrite IH]. Qed.

Lemma append_nil_r (s : string) : s ++ "" = s.
Proof. induction s as [|c s IH]; cbn; [reflexivity | now rewrite IH]. Qed.

Lemma substring_all (s : string) : substring 0 (String.length s) s = s.
Proof. induction s as [|c s IH]; cbn; [reflexivity | now rewrite IH]. Qed.

Lemma substring_take (a b : string) : substring 0 (String.length a) (a ++ b) = a.
Proof.
  induction a as [|c a IH]; cbn; [now destruct b | now rewrite IH].
Qed.

Lemma substring_skip (a b : string) (n : nat) :
  substring (String.length a) n (a ++ b) = substring 0 n b.
Proof. induction a as [|c a IH]; cbn; [reflexivity | exact IH]. Qed.

Lemma endswith_app (a p : string) : endswith (a ++ p) p = true.
Proof.
  unfold endswith. rewrite length_app.
  destruct (Nat.leb_spec (String.length p) (String.length a + String.length p));
    [|lia].
  replace (String.length a + String.length p - String.length p)
    with (String.length a) by lia.
  rewrite substring_skip, substring_all. apply String.eqb_refl.
Qed.

(** The three ways in which a text starts with a white-space character,
    and the way in which it starts with none. *)
Lemma lstrip_cons (c1 : ascii) (s1 : string) :
  lstrip (String c1 s1)
  = if is_space c1 then lstrip s1
    else match s1 with
         | String c2 s2 =>
             if is_space2 c1 c2 then lstrip s2
             else match s2 with
                  | String c3 s3 =>
                      if is_space3 c1 c2 c3 then lstrip s3 else String c1 s1
                  | EmptyString => String c1 s1
                  end
         | EmptyString => String c1 s1
         end.
Proof. destruct s1 as [|c2 [|c3 s3]]; reflexivity. Qed.

Lemma rstrip_cons (c : ascii) (s : string) :
  rstrip (String c s)
  = if String.eqb (lstrip (String c s)) "" then "" else String c (rstrip s).
Proof. reflexivity. Qed.

Lemma lstrip_length (s : string) : String.length (lstrip s) <= String.length s.
Proof.
  assert (H : forall n s, String.length s <= n ->
                          String.length (lstrip s) <= String.length s).
  { induction n as [|n IH]; intros [|c1 s1] Hn; try (cbn; lia);
      cbn [String.length] in *; [lia|].
    rewrite lstrip_cons. destruct (is_space c1).
    - specialize (IH s1 ltac:(lia)). lia.
    - destruct s1 as [|c2 s2]; [cbn; lia|]. destruct (is_space2 c1 c2).
      + cbn [String.length] in *. specialize (IH s2 ltac:(lia)). lia.
      + destruct s2 as [|c3 s3]; [cbn; lia|]. destruct (is_space3 c1 c2 c3).
        * cbn [String.length] in *. specialize (IH s3 ltac:(lia)). lia.
        * cbn; lia. }
  exact (H _ s (le_n _)).
Qed.

(** White space of more than one byte is stripped with all its bytes: a
    no-break space, U+00A0, before a text, an ideographic space, U+3000,
    after it; the bytes of a letter are not touched. *)
Example strip_no_break_space :
  strip (chr 194 ++ chr 160 ++ "x = 1" ++ chr 227 ++ chr 128 ++ chr 128) = "x = 1".
Proof. reflexivity. Qed.

Example strip_keeps_letters :
  strip (" " ++ chr 195 ++ chr 169 ++ " ") = chr 195 ++ chr 169.
Proof. reflexivity. Qed.

(** Induction over a text that is all white space: it is empty, or a
    white-space character of one, two or three bytes before such a
    text. *)
Lemma blank_ind (P : string -> Prop) :
  P "" ->
  (forall c s, is_space c = true -> lstrip s = "" -> P s -> P (String c s)) ->
  (forall c1 c2 s, is_space c1 = false -> is_space2 c1 c2 = true ->
                   lstrip s = "" -> P s -> P (String c1 (String c2 s))) ->
  (forall c1 c2 c3 s, is_space c1 = false -> is_space2 c1 c2 = false ->
                      is_space3 c1 c2 c3 = true ->
                      lstrip s = "" -> P s ->
                      P (String c1 (String c2 (String c3 s)))) ->
  forall s, lstrip s = "" -> P s.
Proof.
  intros H0 H1 H2 H3.
  assert (H : forall n s, String.length s <= n -> lstrip s = "" -> P s).
  { induction n as [|n IH]; intros [|c1 s1] Hn Hs; cbn [String.length] in Hn;
      try lia; try exact H0.
    rewrite lstrip_cons in Hs. destruct (is_space c1) eqn:E1.
    - apply H1; [exact E1 | exact Hs | apply IH; [lia | exact Hs]].
    - destruct s1 as [|c2 s2]; [discriminate Hs|].
      cbn [String.length] in Hn. destruct (is_space2 c1 c2) eqn:E2.
      + apply H2; [exact E1 | exact E2 | exact Hs | apply IH; [lia | exact Hs]].
      + destruct s2 as [|c3 s3]; [discriminate Hs|].
        cbn [String.length] in Hn. destruct (is_space3 c1 c2 c3) eqn:E3;
          [|discriminate Hs].
        apply H3; [exact E1 | exact E2 | exact E3 | exact Hs
                  | apply IH; [lia | exact Hs]]. }
  intros s. exact (H _ s (le_n _)).
Qed.

(** White space before a text is passed over. *)
Lemma lstrip_blank_app (blank s : string) :
  lstrip blank = "" -> lstrip (blank ++ s) = lstrip s.
Proof.
  intros Hb. revert blank Hb. apply blank_ind.
  - reflexivity.
  - intros c b E1 _ IH. cbn [append]. now rewrite lstrip_cons, E1.
  - intros c1 c2 b E1 E2 _ IH. cbn [append]. now rewrite lstrip_cons, E1, E2.
  - intros c1 c2 c3 b E1 E2 E3 _ IH. cbn [append].
    now rewrite lstrip_cons, E1, E2, E3.
Qed.

(** No byte of a white-space character is a backquote. *)
Lemma backquote_is_no_space1 : is_space "`" = false.
Proof. reflexivity. Qed.

Lemma backquote_is_no_space2 (c1 c2 : ascii) :
  is_space2 c1 c2 = true -> c1 <> "`"%char /\ c2 <> "`"%char.
Proof.
  intros H. split; intros ->; revert H; unfold is_space2; cbv zeta;
    replace (nat_of_ascii "`") with 96 by reflexivity;
    cbn [Nat.eqb Nat.leb andb orb];
    [discriminate | now rewrite andb_false_r].
Qed.

Lemma backquote_is_no_space3 (c1 c2 c3 : ascii) :
  is_space3 c1 c2 c3 = true ->
  c1 <> "`"%char /\ c2 <> "`"%char /\ c3 <> "`"%char.
Proof.
  intros H. repeat split; intros ->; revert H; unfold is_space3; cbv zeta;
    replace (nat_of_ascii "`") with 96 by reflexivity;
    cbn [Nat.eqb Nat.leb andb orb];
    repeat match goal with
           | |- context [Nat.eqb (nat_of_ascii ?a) ?b] =>
               destruct (Nat.eqb (nat_of_ascii a) b)
           | |- context [Nat.leb ?a ?b] => destruct (Nat.leb a b)
           end; cbn [andb orb]; discriminate.
Qed.

Lemma contains_backquote_cons (c : ascii) (s : string) :
  c <> "`"%char -> contains "`" (String c s) = contains "`" s.
Proof.
  intros Hc. cbn [contains startswith].
  destruct (Ascii.eqb_spec "`"%char c) as [E|_]; [now destruct Hc | reflexivity].
Qed.

(** A text that is all white space holds no backquote. *)
Lemma blank_has_no_backquote (s : string) :
  lstrip s = "" -> contains "`" s = false.
Proof.
  revert s. apply blank_ind.
  - reflexivity.
  - intros c s E1 _ IH. rewrite contains_backquote_cons; [exact IH|].
    intros ->. discriminate E1.
  - intros c1 c2 s _ E2 _ IH.
    destruct (backquote_is_no_space2 c1 c2 E2) as (N1 & N2).
    now rewrite !contains_backquote_cons.
  - intros c1 c2 c3 s _ _ E3 _ IH.
    destruct (backquote_is_no_space3 c1 c2 c3 E3) as (N1 & N2 & N3).
    now rewrite !contains_backquote_cons.
Qed.

Lemma fenced_is_not_blank (a b : string) :
  String.eqb (lstrip (a ++ "`" ++ b)) "" = false.
Proof.
  apply String.eqb_neq. intros H. apply blank_has_no_backquote in H.
  now rewrite contains_infix in H.
Qed.

(** What ends in a fence is left alone by [rstrip], also when white space
    follows the fence. *)
Lemma rstrip_blank (s : string) : lstrip s = "" -> rstrip s = "".
Proof.
  destruct s as [|c s]; [reflexivity|]. intros H. now rewrite rstrip_cons, H.
Qed.

Lemma blank_rstrip (s : string) : rstrip s = "" -> lstrip s = "".
Proof.
  destruct s as [|c s]; [reflexivity|]. rewrite rstrip_cons.
  destruct (String.eqb_spec (lstrip (String c s)) "") as [E|_];
    [now intros _ | discriminate].
Qed.

Lemma rstrip_fenced (a after : string) :
  lstrip after = "" -> rstrip (a ++ "`" ++ after) = a ++ "`".
Proof.
  intros Hb. induction a as [|c a IH].
  - pose proof (fenced_is_not_blank "" after) as Hf.
    cbn [append] in Hf |- *. rewrite rstrip_cons, Hf.
    now rewrite (rstrip_blank _ Hb).
  - pose proof (fenced_is_not_blank (String c a) after) as Hf.
    cbn [append] in Hf, IH |- *. rewrite rstrip_cons, Hf. now rewrite IH.
Qed.

(** A line break is no second or third byte of a white-space character. *)
Lemma newline_is_no_second_byte (c1 : ascii) :
  is_space2 c1 (ascii_of_nat 10) = false.
Proof.
  unfold is_space2. cbv zeta.
  replace (nat_of_ascii (ascii_of_nat 10)) with 10 by reflexivity.
  cbn [Nat.eqb orb]. apply andb_false_r.
Qed.

Lemma newline_is_no_middle_byte (c1 c3 : ascii) :
  is_space3 c1 (ascii_of_nat 10) c3 = false.
Proof.
  unfold is_space3. cbv zeta.
  replace (nat_of_ascii (ascii_of_nat 10)) with 10 by reflexivity.
  cbn [Nat.eqb].
  repeat match goal with
         | |- context [Nat.eqb (nat_of_ascii ?a) ?b] =>
             destruct (Nat.eqb (nat_of_ascii a) b)
         | |- context [Nat.leb ?a ?b] => destruct (Nat.leb a b)
         end; reflexivity.
Qed.

Lemma newline_is_no_third_byte (c1 c2 : ascii) :
  is_space3 c1 c2 (ascii_of_nat 10) = false.
Proof.
  unfold is_space3. cbv zeta.
  replace (nat_of_ascii (ascii_of_nat 10)) with 10 by reflexivity.
  cbn [Nat.eqb Nat.leb].
  repeat match goal with
         | |- context [Nat.eqb (nat_of_ascii ?a) ?b] =>
             destruct (Nat.eqb (nat_of_ascii a) b)
         end; reflexivity.
Qed.

(** A text that [lstrip] leaves alone starts with no white space, whatever
    follows a line break after it. *)
Lemma lstrip_fixed_line (c rest : string) :
  c <> "" -> lstrip c = c -> lstrip (c ++ newline ++ rest) = c ++ newline ++ rest.
Proof.
  intros Hne H. destruct c as [|c1 s1]; [congruence|]. clear Hne.
  assert (Hshort : forall s, String.length (lstrip s) < String.length (String c1 s1) ->
                             lstrip s <> String c1 s1)
    by (intros s Hl E; rewrite E in Hl; lia).
  rewrite lstrip_cons in H. cbn [append]. rewrite lstrip_cons.
  destruct (is_space c1).
  { exfalso. apply (Hshort s1); [|exact H].
    pose proof (lstrip_length s1). cbn [String.length]. lia. }
  destruct s1 as [|c2 s2].
  { cbn [append newline chr]. rewrite newline_is_no_second_byte.
    destruct rest as [|c3 rest]; [reflexivity|].
    now rewrite newline_is_no_middle_byte. }
  cbn [append]. destruct (is_space2 c1 c2).
  { exfalso. apply (Hshort s2); [|exact H].
    pose proof (lstrip_length s2). cbn [String.length]. lia. }
  destruct s2 as [|c3 s3].
  { cbn [append newline chr]. now rewrite newline_is_no_third_byte. }
  cbn [append]. destruct (is_space3 c1 c2 c3); [|reflexivity].
  exfalso. apply (Hshort s3); [|exact H].
  pose proof (lstrip_length s3). cbn [String.length]. lia.
Qed.

(** A text followed by a line break is all white space only if the text
    is. *)
Lemma blank_before_newline (s : string) :
  lstrip (s ++ newline) = "" -> lstrip s = "".
Proof.
  assert (H : forall n s, String.length s <= n ->
                          lstrip (s ++ newline) = "" -> lstrip s = "").
  { induction n as [|n IH]; intros [|c1 s1] Hn Hs; cbn [String.length] in Hn;
      try lia; try reflexivity.
    cbn [append] in Hs. rewrite lstrip_cons in Hs. rewrite lstrip_cons.
    destruct (is_space c1); [apply IH; [lia | exact Hs]|].
    destruct s1 as [|c2 s2].
    { cbn [append newline chr] in Hs. rewrite newline_is_no_second_byte in Hs.
      discriminate Hs. }
    cbn [append] in Hs. cbn [String.length] in Hn.
    destruct (is_space2 c1 c2); [apply IH; [lia | exact Hs]|].
    destruct s2 as [|c3 s3].
    { cbn [append newline chr] in Hs. rewrite newline_is_no_third_byte in Hs.
      discriminate Hs. }
    cbn [append] in Hs. cbn [String.length] in Hn.
    destruct (is_space3 c1 c2 c3); [apply IH; [lia | exact Hs] | discriminate Hs]. }
  intros Hs. exact (H _ s (le_n _) Hs).
Qed.

Lemma rstrip_line (s : string) : rstrip (s ++ newline) = rstrip s.
Proof.
  induction s as [|c s IH]; [reflexivity|].
  cbn [append]. rewrite !rstrip_cons, IH.
  change (String c (s ++ newline)) with (String c s ++ newline).
  destruct (String.eqb_spec (lstrip (String c s)) "") as [E|N].
  - rewrite (lstrip_blank_app _ newline E). reflexivity.
  - destruct (String.eqb_spec (lstrip (String c s ++ newline)) "") as [E|_];
      [|reflexivity].
    now apply blank_before_newline in E.
Qed.

End SliceFacts.

(* ================================================================= *)
(** ** The code generator: taking the code out of its fence *)

Module CodeGeneratorProps.
Import PyStr CodeGenerator PyStrFacts SliceFacts.

Lemma drop_first_app (p s : string) : drop_first (String.length p) (p ++ s) = s.
Proof.
  unfold drop_first. rewrite length_app, substring_skip.
  replace (String.length p + String.length s - String.length p)
    with (String.length s) by lia.
  apply substring_all.
Qed.

Lemma drop_last_app (a p : string) : drop_last (String.length p) (a ++ p) = a.
Proof.
  unfold drop_last. rewrite length_app.
  replace (String.length a + String.length p - String.length p)
    with (String.length a) by lia.
  apply substring_take.
Qed.

(** What ends in the three backquotes of a fence, with white space after
    them or without, is stripped to the fence. *)
Lemma rstrip_fence (a after : string) :
  lstrip after = "" -> rstrip ((a ++ fence) ++ after) = a ++ fence.
Proof.
  intros Hb. unfold fence.
  replace ((a ++ "```") ++ after) with ((a ++ "``") ++ "`" ++ after)
    by (rewrite !append_assoc; reflexivity).
  rewrite (rstrip_fenced _ _ Hb). now rewrite append_assoc.
Qed.

(** What is left once the opening fence is gone: the code, a line break
    and the closing fence give back the code. *)
Lemma close_fence (code : string) :
  lstrip code = code -> rstrip code = code ->
  (let body := strip (newline ++ code ++ newline ++ fence) in
   if endswith body fence then strip (drop_last (String.length fence) body)
   else body) = code.
Proof.
  intros Hl Hr. cbv zeta. destruct code as [|ch code]; [reflexivity|].
  set (c := String ch code) in *.
  assert (Hc : c <> "") by discriminate.
  assert (Hbody : strip (newline ++ c ++ newline ++ fence) = c ++ newline ++ fence).
  { unfold strip.
    replace (lstrip (newline ++ c ++ newline ++ fence))
      with (lstrip (c ++ newline ++ fence)) by reflexivity.
    rewrite (lstrip_fixed_line c fence Hc Hl).
    replace (c ++ newline ++ fence) with (((c ++ newline) ++ fence) ++ "")
      by now rewrite append_nil_r, append_assoc.
    rewrite (rstrip_fence _ "" eq_refl). now rewrite append_nil_r. }
  rewrite Hbody, <- append_assoc.
  rewrite endswith_app, drop_last_app. unfold strip.
  replace (c ++ newline) with (c ++ newline ++ "") by reflexivity.
  rewrite (lstrip_fixed_line c "" Hc Hl).
  replace (c ++ newline ++ "") with (c ++ newline) by reflexivity.
  now rewrite rstrip_line.
Qed.

(** Stripping an answer that is a fenced block between two blank
    texts. *)
Lemma strip_fenced (before after opening inner : string) :
  opening = python_fence \/ opening = fence ->
  lstrip before = "" -> rstrip after = "" ->
  strip (before ++ (opening ++ inner ++ fence) ++ after)
  = opening ++ inner ++ fence.
Proof.
  intros Hopen Hb Ha. unfold strip. rewrite (lstrip_blank_app _ _ Hb).
  assert (Hlead : lstrip ((opening ++ inner ++ fence) ++ after)
                  = (opening ++ inner ++ fence) ++ after).
  { destruct Hopen as [-> | ->]; cbn [python_fence fence append];
      rewrite lstrip_cons; reflexivity. }
  rewrite Hlead.
  replace (opening ++ inner ++ fence) with ((opening ++ inner) ++ fence)
    by now rewrite append_assoc.
  apply rstrip_fence. now apply blank_rstrip.
Qed.

(** Taking out what was fenced in: for a code without white space at
    either end, [_extract_code] gives the code back from the answer that
    puts it between a fence tagged [python], or a bare fence, and a closing
    fence, each on a line of its own, whatever white space stands before
    and after the block. *)
Theorem extract_code_unfences (before after code : string) :
  lstrip before = "" -> rstrip after = "" ->
  lstrip code = code -> rstrip code = code ->
  _extract_code (before ++ (python_fence ++ (newline ++ code ++ newline) ++ fence)
                        ++ after) = code /\
  _extract_code (before ++ (fence ++ (newline ++ code ++ newline) ++ fence)
                        ++ after) = code.
Proof.
  intros Hb Ha Hl Hr.
  assert (Hclose : forall rest,
             rest = newline ++ code ++ newline ++ fence ->
             (let body := strip rest in
              if endswith body fence
              then strip (drop_last (String.length fence) body)
              else body) = code)
    by (intros rest ->; now apply close_fence).
  split.
  - unfold _extract_code.
    rewrite (strip_fenced before after python_fence _ (or_introl eq_refl) Hb Ha).
    rewrite startswith_app, drop_first_app. apply Hclose.
    now rewrite !append_assoc.
  - unfold _extract_code.
    rewrite (strip_fenced before after fence _ (or_intror eq_refl) Hb Ha).
    assert (Hpy : startswith (fence ++ (newline ++ code ++ newline) ++ fence)
                             python_fence = false) by reflexivity.
    rewrite Hpy, startswith_app, drop_first_app. apply Hclose.
    now rewrite !append_assoc.
Qed.

(** An answer with a line break and a no-break space, U+00A0, before the
    block, and a line separator, U+2028, after it. *)
Lemma extract_code_unfences_witness :
  _extract_code ((newline ++ chr 194 ++ chr 160)
                   ++ (python_fence ++ (newline ++ "print(1)" ++ newline) ++ fence)
                   ++ (chr 226 ++ chr 128 ++ chr 168))
  = "print(1)" /\
  _extract_code ((newline ++ chr 194 ++ chr 160)
                   ++ (fence ++ (newline ++ "print(1)" ++ newline) ++ fence)
                   ++ (chr 226 ++ chr 128 ++ chr 168))
  = "print(1)".
Proof.
  apply (extract_code_unfences (newline ++ chr 194 ++ chr 160)
                               (chr 226 ++ chr 128 ++ chr 168) "print(1)");
    reflexivity.
Defined.

End CodeGeneratorProps.

(* ================================================================= *)
(** ** The result processor: visualizations, titles, data outputs *)

Module ResultProcessorProps.
Import PyStr Py ResultProcessor PyStrFacts SliceFacts.

Example title_of_plot_perf : _filename_to_title "plot_perf.png" = "Perf".
Proof. reflexivity. Qed.

Example title_of_two_words :
  _filename_to_title "chart_monthly_returns.html" = "Monthly Returns".
Proof. reflexivity. Qed.

Example title_after_digit : title "q3results 2024" = "Q3Results 2024".
Proof. reflexivity. Qed.

Example prefixes_in_order : strip_prefixes "plot_chart_x" = "x".
Proof. reflexivity. Qed.

Example prefixes_only_in_order : strip_prefixes "chart_plot_x" = "plot_x".
Proof. reflexivity. Qed.

Section Visualizations.

Variable b64encode : string -> string.

Local Abbreviation _extract_visualizations := (_extract_visualizations b64encode).

(** The visualizations are made from exactly the outputs named [.png] or
    [.html], one for each, in the order of the outputs; an image named
    [.jpg] or [.jpeg] gives none. *)
Theorem visualizations_are_the_png_and_html_outputs (outputs : dict content) :
  map filename_of (_extract_visualizations outputs)
  = map (fun filename => Some (CStr filename))
        (filter (fun filename => endswith filename ".png" || endswith filename ".html")
                (map fst outputs)).
Proof.
  unfold ResultProcessor._extract_visualizations.
  induction outputs as [|[filename c] outputs IH]; [reflexivity|].
  cbn [flat_map map fst filter]. rewrite map_app, IH.
  unfold visualization_of at 1.
  destruct (endswith filename ".png"); [reflexivity|].
  destruct (endswith filename ".html"); reflexivity.
Qed.

End Visualizations.

Lemma before_last_app (sep : ascii) (stem ext : string) :
  before_last sep ext = None ->
  before_last sep (stem ++ String sep ext) = Some stem.
Proof.
  intros Hext. induction stem as [|c stem IH]; cbn [append before_last].
  - now rewrite Hext, Ascii.eqb_refl.
  - now rewrite IH.
Qed.

(** One character of a title is never an underscore. *)
Lemma titled_char_is_no_underscore (previous : bool) (c : ascii) :
  let c' := if Ascii.eqb c "_" then " "%char else c in
  Ascii.eqb "_"
    (if is_upper c' || is_lower c'
     then (if previous then lower_ascii c' else upper_ascii c')
     else c') = false.
Proof.
  destruct previous;
    destruct c as [[] [] [] [] [] [] [] []]; vm_compute; reflexivity.
Qed.

Lemma title_has_no_underscore (s : string) :
  forall previous,
    contains "_" (title_from previous (replace_char "_" " " s)) = false.
Proof.
  induction s as [|c s IH]; intros previous; [reflexivity|].
  cbn [replace_char title_from].
  pose proof (titled_char_is_no_underscore previous c) as Hc. cbv zeta in Hc.
  destruct (is_upper (if Ascii.eqb c "_" then " "%char else c)
            || is_lower (if Ascii.eqb c "_" then " "%char else c)).
  - cbn [contains startswith]. rewrite Hc. apply IH.
  - cbn [contains startswith]. rewrite Hc. apply IH.
Qed.

(** The title of a file: only what follows the last dot is dropped as the
    extension, and no underscore is left in a title. *)
Theorem filename_title_drops_extension_and_underscores
        (stem ext filename : string) :
  before_last "." ext = None ->
  _filename_to_title (stem ++ "." ++ ext)
  = title (replace_char "_" " " (strip_prefixes stem)) /\
  contains "_" (_filename_to_title filename) = false.
Proof.
  intros Hext. split.
  - unfold _filename_to_title, rsplit_head.
    change (stem ++ "." ++ ext) with (stem ++ String "." ext).
    now rewrite (before_last_app "." stem ext Hext).
  - unfold _filename_to_title, title. apply title_has_no_underscore.
Qed.

(** Looking up a key that is not among the keys. *)
Lemma dict_get_absent {V : Type} (d : dict V) (k : string) :
  ~ In k (map fst d) -> dict_get d k = None.
Proof.
  induction d as [|[k0 v0] d IH]; intros Hnot; [reflexivity|].
  cbn [dict_get]. destruct (String.eqb_spec k0 k) as [->|Hne].
  - exfalso. apply Hnot. now left.
  - apply IH. intros Hin. apply Hnot. now right.
Qed.

(** The entry [_extract_data_outputs] makes for one output, if any. *)
Lemma data_outputs_step (outputs : dict content) (k : string) :
  forall acc : dict (dict content),
    NoDup (map fst outputs) ->
    dict_get
      (fold_left
         (fun data_outputs (item : string * content) =>
            let '(filename, c) := item in
            if endswith filename ".csv" then
              dict_set data_outputs filename [("type", CStr "csv"); ("content", c)]
            else if endswith filename ".txt"
                    && negb (String.eqb filename "insights.txt") then
              dict_set data_outputs filename [("type", CStr "text"); ("content", c)]
            else data_outputs)
         outputs acc) k
    = match dict_get outputs k with
      | Some c =>
          if endswith k ".csv" then Some [("type", CStr "csv"); ("content", c)]
          else if endswith k ".txt" && negb (String.eqb k "insights.txt")
               then Some [("type", CStr "text"); ("content", c)]
               else dict_get acc k
      | None => dict_get acc k
      end.
Proof.
  induction outputs as [|[k0 c0] outputs IH]; intros acc Hnodup; [reflexivity|].
  cbn [map fst] in Hnodup. apply NoDup_cons_iff in Hnodup as [Hfresh Hnodup].
  cbn [fold_left dict_get]. rewrite (IH _ Hnodup).
  destruct (String.eqb_spec k0 k) as [->|Hne].
  - rewrite (dict_get_absent outputs k Hfresh).
    destruct (endswith k ".csv");
      [apply BackendProps.dict_get_set_same|].
    destruct (endswith k ".txt" && negb (String.eqb k "insights.txt"));
      [apply BackendProps.dict_get_set_same | reflexivity].
  - assert (Hacc : dict_get
                     (if endswith k0 ".csv"
                      then dict_set acc k0 [("type", CStr "csv"); ("content", c0)]
                      else if endswith k0 ".txt"
                              && negb (String.eqb k0 "insights.txt")
                           then dict_set acc k0 [("type", CStr "text"); ("content", c0)]
                           else acc) k
                   = dict_get acc k).
    { destruct (endswith k0 ".csv"); [now apply CollectProps.dict_get_set_other|].
      destruct (endswith k0 ".txt" && negb (String.eqb k0 "insights.txt"));
        [now apply CollectProps.dict_get_set_other | reflexivity]. }
    destruct (dict_get outputs k) as [c|]; [|exact Hacc].
    destruct (endswith k ".csv"); [reflexivity|].
    destruct (endswith k ".txt" && negb (String.eqb k "insights.txt"));
      [reflexivity | exact Hacc].
Qed.

(** The data outputs, key by key: an output named [.csv] is passed on
    with the tag 'csv', an output named [.txt] with the tag 'text', each
    with its content unchanged; nothing else is a data output, and
    [insights.txt] never is. *)
Theorem data_outputs_by_name (outputs : dict content) (k : string) :
  NoDup (map fst outputs) ->
  dict_get (Agent._extract_data_outputs outputs) k
  = (match dict_get outputs k with
     | Some c =>
         if endswith k ".csv" then Some [("type", CStr "csv"); ("content", c)]
         else if endswith k ".txt" && negb (String.eqb k "insights.txt")
              then Some [("type", CStr "text"); ("content", c)]
              else None
     | None => None
     end) /\
  dict_get (Agent._extract_data_outputs outputs) "insights.txt" = None.
Proof.
  intros Hnodup. unfold Agent._extract_data_outputs. split.
  - now rewrite data_outputs_step.
  - rewrite data_outputs_step by exact Hnodup.
    now destruct (dict_get outputs "insights.txt").
Qed.

Lemma filename_title_drops_extension_and_underscores_witness :
  _filename_to_title ("plot_sales.v2_by_region" ++ "." ++ "png")
  = title (replace_char "_" " " (strip_prefixes "plot_sales.v2_by_region")) /\
  contains "_" (_filename_to_title "monthly_totals.csv") = false.
Proof.
  apply (filename_title_drops_extension_and_underscores
           "plot_sales.v2_by_region" "png" "monthly_totals.csv").
  reflexivity.
Defined.

Lemma data_outputs_by_name_witness :
  let outputs := [ ("totals.csv", CStr "a,b"); ("insights.txt", CStr "- up");
                   ("notes.txt", CStr "n"); ("plot.png", CBytes "png") ] in
  dict_get (Agent._extract_data_outputs outputs) "notes.txt"
  = (match dict_get outputs "notes.txt" with
     | Some c =>
         if endswith "notes.txt" ".csv"
         then Some [("type", CStr "csv"); ("content", c)]
         else if endswith "notes.txt" ".txt"
                 && negb (String.eqb "notes.txt" "insights.txt")
              then Some [("type", CStr "text"); ("content", c)]
              else None
     | None => None
     end) /\
  dict_get (Agent._extract_data_outputs outputs) "insights.txt" = None.
Proof.
  cbv zeta.
  apply (data_outputs_by_name
           [ ("totals.csv", CStr "a,b"); ("insights.txt", CStr "- up");
             ("notes.txt", CStr "n"); ("plot.png", CBytes "png") ] "notes.txt").
  repeat (constructor; [cbn; intuition discriminate|]). constructor.
Defined.

End ResultProcessorProps.

(* ================================================================= *)
(** ** The session store *)

Module StoreProps.
Import PyStr Py Backend ChatEndpoint.

Lemma dict_get_del_same {V : Type} (d : dict V) (k : string) :
  NoDup (map fst d) -> dict_get (dict_del d k) k = None.
Proof.
  induction d as [|[k0 v0] d IH]; intros Hnodup; [reflexivity|].
  cbn [map fst] in Hnodup. apply NoDup_cons_iff in Hnodup as [Hfresh Hnodup].
  cbn [dict_del]. destruct (String.eqb_spec k0 k) as [->|Hne].
  - now apply ResultProcessorProps.dict_get_absent.
  - cbn [dict_get]. destruct (String.eqb_spec k0 k); [contradiction | now apply IH].
Qed.

Lemma dict_get_del_other {V : Type} (d : dict V) (k k' : string) :
  k <> k' -> dict_get (dict_del d k) k' = dict_get d k'.
Proof.
  intros Hne. induction d as [|[k0 v0] d IH]; [reflexivity|].
  cbn [dict_del dict_get]. destruct (String.eqb_spec k0 k) as [->|Hk0].
  - destruct (String.eqb_spec k k'); [contradiction | reflexivity].
  - cbn [dict_get]. destruct (String.eqb k0 k'); [reflexivity | exact IH].
Qed.

(** Deleting a session: a session that is there is answered with status
    200, is gone afterwards, so that reading it gives 404, and every other
    session reads as before; a session that is not there is answered with
    404 and nothing changes. *)
Theorem delete_then_read_is_not_found (sid : string) (st : Server) :
  well_formed st ->
  (dict_has (chat_sessions st) sid = true ->
   exists st',
     delete_session sid st = (Ok200 "Session deleted successfully", st') /\
     get_session_history sid st' = HTTPException 404 "Session not found" /\
     (forall other, other <> sid ->
        get_session_history other st' = get_session_history other st) /\
     clock_reads st' = clock_reads st) /\
  (dict_has (chat_sessions st) sid = false ->
   delete_session sid st = (HTTPException 404 "Session not found", st)).
Proof.
  intros Hwf. unfold delete_session. split; intros Hhas; rewrite Hhas; cbn [negb].
  - eexists. split; [reflexivity|]. unfold get_session_history. cbn [chat_sessions].
    split; [now rewrite dict_get_del_same|]. split; [|reflexivity].
    intros other Hne. rewrite dict_get_del_other by congruence. reflexivity.
  - reflexivity.
Qed.

Lemma in_get_sessions (sessions : dict (list Message)) (n : nat) (info : SessionInfo) :
  In info (get_sessions (mk_Server sessions n)) <->
  exists first rest,
    In (session_id info, first :: rest) sessions /\
    info = mk_SessionInfo (session_id info) (S (List.length rest)) (timestamp first)
                          (timestamp (last rest first)).
Proof.
  unfold get_sessions. cbn [chat_sessions]. rewrite in_flat_map. split.
  - intros ([sid messages] & Hin & Hinfo).
    destruct messages as [|first rest]; [contradiction|].
    destruct Hinfo as [<- | []]. cbn [session_id]. now exists first, rest.
  - intros (first & rest & Hin & Hinfo).
    exists (session_id info, first :: rest). split; [exact Hin|].
    left. symmetry. exact Hinfo.
Qed.

Lemma in_dict_get {V : Type} (d : dict V) (k : string) (v : V) :
  NoDup (map fst d) -> (In (k, v) d <-> dict_get d k = Some v).
Proof.
  induction d as [|[k0 v0] d IH]; intros Hnodup.
  - split; [contradiction | discriminate].
  - cbn [map fst] in Hnodup. apply NoDup_cons_iff in Hnodup as [Hfresh Hnodup].
    cbn [dict_get In]. destruct (String.eqb_spec k0 k) as [->|Hne].
    + split.
      * intros [[= ->] | Hin]; [reflexivity|].
        exfalso. apply Hfresh. now apply (in_map fst) in Hin.
      * intros [= ->]. now left.
    + rewrite <- (IH Hnodup). split; [|now right].
      intros [[= Hk _] | Hin]; [contradiction | exact Hin].
Qed.

(** The listing names exactly the sessions that have a message, with the
    number of their messages and the time stamps of their first and of
    their last message. *)
Theorem listing_is_the_sessions_with_messages (st : Server) (info : SessionInfo) :
  well_formed st ->
  (In info (get_sessions st) <->
   exists first rest,
     dict_get (chat_sessions st) (session_id info) = Some (first :: rest) /\
     message_count info = S (List.length rest) /\
     created_at info = timestamp first /\
     last_updated info = timestamp (last rest first)).
Proof.
  intros Hwf. destruct st as [sessions n]. unfold well_formed in Hwf.
  cbn [chat_sessions] in *. rewrite in_get_sessions. split.
  - intros (first & rest & Hin & Hinfo). exists first, rest.
    rewrite <- (in_dict_get _ _ _ Hwf). split; [exact Hin|].
    rewrite Hinfo. cbn. auto.
  - intros (first & rest & Hget & Hcount & Hcreated & Hlast).
    exists first, rest. rewrite (in_dict_get _ _ _ Hwf). split; [exact Hget|].
    destruct info as [sid c a l]. cbn in *. congruence.
Qed.

Import Cases.

Lemma two_sessions_well_formed : well_formed two_sessions.
Proof.
  unfold well_formed, two_sessions. cbn [chat_sessions map fst].
  constructor; [cbn; intros [H|[]]; discriminate H|].
  constructor; [intros []|constructor].
Qed.

(** Deleting the first of two sessions. *)
Lemma delete_then_read_is_not_found_witness :
  exists st',
    delete_session "s1" two_sessions = (Ok200 "Session deleted successfully", st') /\
    get_session_history "s1" st' = HTTPException 404 "Session not found" /\
    (forall other, other <> "s1" ->
       get_session_history other st' = get_session_history other two_sessions) /\
    clock_reads st' = clock_reads two_sessions.
Proof.
  apply (proj1 (delete_then_read_is_not_found "s1" two_sessions
                  two_sessions_well_formed)).
  reflexivity.
Defined.

(** Of two sessions, the one with a message is listed. *)
Lemma listing_is_the_sessions_with_messages_witness :
  In (mk_SessionInfo "s1" 1 "2024-05-01T09:00:00" "2024-05-01T09:00:00")
     (get_sessions two_sessions).
Proof.
  apply (listing_is_the_sessions_with_messages two_sessions
           (mk_SessionInfo "s1" 1 "2024-05-01T09:00:00" "2024-05-01T09:00:00")
           two_sessions_well_formed).
  exists first_question, []. repeat split.
Defined.

End StoreProps.

(* ================================================================= *)
(** ** Histories under the two chat endpoints *)

Module HistoryProps.
Import PyStr Py Backend ChatEndpoint.

Lemma process_with_agent_answers_text (m : string) :
  exists reply, process_with_agent (JStr m) = Return reply.
Proof.
  unfold process_with_agent.
  destruct (contains "portfolio" (lower m)); [eauto|].
  destruct (contains "return" (lower m)); [eauto|].
  destruct (contains "risk" (lower m)); eauto.
Qed.

Section Handlers.

Variable utcnow_isoformat : nat -> string.
Variable json_loads : string -> outcome json.

Local Abbreviation append_message := (append_message utcnow_isoformat).
Local Abbreviation handle_text := (handle_text utcnow_isoformat json_loads).
Local Abbreviation receive_loop := (receive_loop utcnow_isoformat json_loads).
Local Abbreviation websocket_chat := (websocket_chat utcnow_isoformat json_loads).
Local Abbreviation chat := (chat utcnow_isoformat).

(** Appending to a session that is there: one message more at the end of
    its history, the other sessions as they were. *)
Lemma append_message_appends (sid role : string) (c : json) (st : Server)
      (messages : list Message) :
  dict_get (chat_sessions st) sid = Some messages ->
  exists st',
    append_message sid role c st = (Return tt, st') /\
    dict_get (chat_sessions st') sid
    = Some (messages ++ [mk_Message role c (utcnow_isoformat (clock_reads st))])%list /\
    (forall other, other <> sid ->
       dict_get (chat_sessions st') other = dict_get (chat_sessions st) other).
Proof.
  intros Hget. unfold Backend.append_message. rewrite Hget. eexists.
  split; [reflexivity|]. cbn [chat_sessions]. split.
  - apply BackendProps.dict_get_set_same.
  - intros other Hne. apply CollectProps.dict_get_set_other. congruence.
Qed.

(** One turn of the loop on a session that is there: the history of the
    session grows at its end, by a user message and an assistant message
    carrying the reply when the turn ends with a frame to send; the other
    sessions are as they were. *)
Lemma handle_text_appends (sid data : string) (st st' : Server)
      (r : outcome frame) (messages : list Message) :
  dict_get (chat_sessions st) sid = Some messages ->
  handle_text sid data st = (r, st') ->
  (forall other, other <> sid ->
     dict_get (chat_sessions st') other = dict_get (chat_sessions st) other) /\
  exists extra,
    dict_get (chat_sessions st') sid = Some (messages ++ extra)%list /\
    (forall reply, r = Return reply ->
       frame_type reply = "message" /\
       map role extra = ["user"; "assistant"] /\
       map content (filter (fun m => String.eqb (role m) "assistant") extra)
       = [JStr (frame_content reply)]).
Proof.
  intros Hget H. unfold Backend.handle_text in H.
  assert (Hsame : forall r0, (r0, st) = (r, st') ->
            (forall reply, r0 <> Return reply) ->
            (forall other, other <> sid ->
               dict_get (chat_sessions st') other = dict_get (chat_sessions st) other) /\
            exists extra,
              dict_get (chat_sessions st') sid = Some (messages ++ extra)%list /\
              (forall reply, r = Return reply ->
                 frame_type reply = "message" /\
                 map role extra = ["user"; "assistant"] /\
                 map content (filter (fun m => String.eqb (role m) "assistant") extra)
                 = [JStr (frame_content reply)])).
  { intros r0 [= <- <-] Hnot. split; [reflexivity|]. exists [].
    rewrite app_nil_r. split; [exact Hget|].
    intros reply Hreply. now destruct (Hnot reply). }
  destruct (json_loads data) as [message_data|e];
    [|apply (Hsame _ H); discriminate].
  destruct message_data as [| | | | | |members];
    try (apply (Hsame _ H); discriminate).
  set (user_message := dict_get_default members "message" (JStr "")) in *.
  destruct (append_message_appends sid "user" user_message st messages Hget)
    as (st1 & Happ1 & Hget1 & Hother1).
  rewrite Happ1 in H.
  destruct (process_with_agent user_message) as [reply_text|e].
  - destruct (append_message_appends sid "assistant" (JStr reply_text) st1 _ Hget1)
      as (st2 & Happ2 & Hget2 & Hother2).
    rewrite Happ2 in H. injection H as <- <-. cbn [chat_sessions]. split.
    + intros other Hne. now rewrite Hother2, Hother1.
    + eexists. split; [rewrite Hget2, <- app_assoc; reflexivity|].
      intros reply [= <-]. cbn. auto.
  - injection H as <- <-. split; [exact Hother1|].
    eexists. split; [exact Hget1|]. discriminate.
Qed.

(** The loop on a session that is there. *)
Lemma receive_loop_appends (sid : string) (inbox : list inbound) :
  forall (st : Server) (out : list frame) (messages : list Message),
    dict_get (chat_sessions st) sid = Some messages ->
    let run := receive_loop sid inbox st out in
    (forall other, other <> sid ->
       dict_get (chat_sessions (server run)) other
       = dict_get (chat_sessions st) other) /\
    exists extra replies,
      dict_get (chat_sessions (server run)) sid = Some (messages ++ extra)%list /\
      (status run = Receiving ->
       sent run = (out ++ replies)%list /\
       List.length replies = List.length inbox /\
       Forall (fun f => frame_type f = "message") replies /\
       map role extra = flat_map (fun _ => ["user"; "assistant"]) replies /\
       map content (filter (fun m => String.eqb (role m) "assistant") extra)
       = map (fun f => JStr (frame_content f)) replies).
Proof.
  induction inbox as [|[data|] inbox IH]; intros st out messages Hget;
    cbv zeta; cbn [Backend.receive_loop].
  - cbn [server sent status]. split; [reflexivity|]. exists [], [].
    rewrite !app_nil_r. split; [exact Hget|]. intros _. repeat split. constructor.
  - destruct (handle_text sid data st) as [r st'] eqn:Eh.
    destruct (handle_text_appends sid data st st' r messages Hget Eh)
      as (Hother & extra & Hget' & Hreply).
    destruct r as [reply|e].
    + destruct (Hreply reply eq_refl) as (Htype & Hroles & Hcontents).
      destruct (IH st' (out ++ [reply])%list _ Hget')
        as (Hother' & extra' & replies & Hget'' & Hrun).
      split; [intros other Hne; now rewrite Hother', Hother|].
      exists (extra ++ extra')%list, (reply :: replies).
      split; [now rewrite Hget'', <- app_assoc|].
      intros Hstatus. destruct (Hrun Hstatus) as (Hsent & Hlen & Hall & Hr & Hc).
      split; [now rewrite Hsent, <- app_assoc|].
      split; [cbn; now rewrite Hlen|].
      split; [now constructor|].
      split.
      * rewrite map_app, Hroles, Hr. reflexivity.
      * rewrite filter_app, map_app, Hcontents, Hc. reflexivity.
    + destruct e; cbn [server sent status];
        (split; [exact Hother|]; exists extra, []; split; [exact Hget'|];
         discriminate).
  - cbn [server sent status]. split; [reflexivity|]. exists [], [].
    rewrite app_nil_r. split; [exact Hget|]. discriminate.
Qed.

Lemma accept_session_makes_it (sid : string) (st : Server) :
  dict_get (chat_sessions (accept_session sid st)) sid = Some (history st sid) /\
  forall other, other <> sid ->
    dict_get (chat_sessions (accept_session sid st)) other
    = dict_get (chat_sessions st) other.
Proof.
  unfold accept_session, history, dict_has.
  destruct (dict_get (chat_sessions st) sid) as [messages|] eqn:E; cbn [negb].
  - split; [exact E | reflexivity].
  - cbn [chat_sessions]. split; [apply BackendProps.dict_get_set_same|].
    intros other Hne. apply CollectProps.dict_get_set_other. congruence.
Qed.

(** The streaming endpoint only ever appends: whatever frames arrive and
    however the connection ends, the history of its session afterwards is
    the history before followed by new messages, and every other session is
    untouched. *)
Theorem websocket_only_appends (sid : string) (inbox : list inbound) (st : Server) :
  let run := websocket_chat sid inbox st in
  (exists extra,
      dict_get (chat_sessions (server run)) sid = Some (history st sid ++ extra)%list) /\
  (forall other, other <> sid ->
     dict_get (chat_sessions (server run)) other = dict_get (chat_sessions st) other).
Proof.
  cbv zeta. unfold Backend.websocket_chat.
  destruct (accept_session_makes_it sid st) as (Hget & Hother).
  destruct (receive_loop_appends sid inbox _ [] _ Hget)
    as (Hother' & extra & replies & Hget' & _).
  split; [now exists extra|].
  intros other Hne. now rewrite Hother', Hother.
Qed.

(** While every frame is answered, the conversation alternates: when the
    handler is still receiving after a list of frames, it has sent one
    'message' frame for each of them, and the history of the session has
    grown by a user message and an assistant message for each, in this
    order, the assistant messages carrying the contents of the frames
    sent. *)
Theorem answered_frames_alternate (sid : string) (inbox : list inbound) (st : Server) :
  let run := websocket_chat sid inbox st in
  status run = Receiving ->
  List.length (sent run) = List.length inbox /\
  Forall (fun f => frame_type f = "message") (sent run) /\
  exists extra,
    dict_get (chat_sessions (server run)) sid = Some (history st sid ++ extra)%list /\
    map role extra = flat_map (fun _ => ["user"; "assistant"]) (sent run) /\
    map content (filter (fun m => String.eqb (role m) "assistant") extra)
    = map (fun f => JStr (frame_content f)) (sent run).
Proof.
  cbv zeta. unfold Backend.websocket_chat. intros Hstatus.
  destruct (accept_session_makes_it sid st) as (Hget & _).
  destruct (receive_loop_appends sid inbox _ [] _ Hget)
    as (_ & extra & replies & Hget' & Hrun).
  destruct (Hrun Hstatus) as (Hsent & Hlen & Hall & Hroles & Hcontents).
  cbn [app] in Hsent. rewrite Hsent.
  split; [exact Hlen|]. split; [exact Hall|]. now exists extra.
Qed.

Lemma push_message_appends (sid : string) (m : Message) (st : Server)
      (messages : list Message) :
  dict_get (chat_sessions st) sid = Some messages ->
  exists st',
    push_message sid m st = (Return tt, st') /\
    clock_reads st' = clock_reads st /\
    dict_get (chat_sessions st') sid = Some (messages ++ [m])%list /\
    (forall other, other <> sid ->
       dict_get (chat_sessions st') other = dict_get (chat_sessions st) other).
Proof.
  intros Hget. unfold push_message. rewrite Hget. eexists.
  split; [reflexivity|]. cbn [chat_sessions clock_reads].
  split; [reflexivity|]. split.
  - apply BackendProps.dict_get_set_same.
  - intros other Hne. apply CollectProps.dict_get_set_other. congruence.
Qed.

(** The synchronous endpoint always answers: a request is never turned
    into a status 500.  The answer names the session of the request and
    carries the reply of the agent; the history of that session has grown
    by the user message and the reply, stamped with the first and the
    second reading of the clock, the answer with the third; the other
    sessions are untouched. *)
Theorem chat_answers_and_records (fresh : string) (chat_message : ChatMessage)
        (st : Server) :
  let sid := session_of fresh chat_message in
  let now := clock_reads st in
  exists r st',
    chat fresh chat_message st = (Ok200 r, st') /\
    response_session r = sid /\
    process_with_agent (JStr (message chat_message)) = Return (response_text r) /\
    response_timestamp r = utcnow_isoformat (S (S now)) /\
    dict_get (chat_sessions st') sid
    = Some (history st sid
              ++ [ mk_Message "user" (JStr (message chat_message))
                              (utcnow_isoformat now);
                   mk_Message "assistant" (JStr (response_text r))
                              (utcnow_isoformat (S now)) ])%list /\
    (forall other, other <> sid ->
       dict_get (chat_sessions st') other = dict_get (chat_sessions st) other).
Proof.
  cbv zeta. unfold ChatEndpoint.chat, chat_body.
  set (sid := session_of fresh chat_message).
  set (st0 := if negb (dict_has (chat_sessions st) sid)
              then mk_Server (dict_set (chat_sessions st) sid []) (clock_reads st)
              else st).
  assert (H0 : dict_get (chat_sessions st0) sid = Some (history st sid) /\
               clock_reads st0 = clock_reads st /\
               forall other, other <> sid ->
                 dict_get (chat_sessions st0) other
                 = dict_get (chat_sessions st) other).
  { unfold st0, history, dict_has.
    destruct (dict_get (chat_sessions st) sid) as [messages|] eqn:E; cbn [negb].
    - auto.
    - cbn [chat_sessions clock_reads].
      split; [apply BackendProps.dict_get_set_same|]. split; [reflexivity|].
      intros other Hne. apply CollectProps.dict_get_set_other. congruence. }
  destruct H0 as (Hget0 & Hclock0 & Hother0). clearbody st0.
  unfold stamp at 1. rewrite Hclock0.
  match goal with
  | |- context [push_message sid ?m ?s] =>
      destruct (push_message_appends sid m s (history st sid) Hget0)
        as (st1 & Hpush1 & Hclock1 & Hget1 & Hother1)
  end.
  rewrite Hpush1. cbn [chat_sessions clock_reads] in Hclock1, Hother1.
  destruct (process_with_agent_answers_text (message chat_message))
    as (reply & Hreply).
  rewrite Hreply. unfold stamp at 1. rewrite Hclock1.
  match goal with
  | |- context [push_message sid ?m ?s] =>
      destruct (push_message_appends sid m s _ Hget1)
        as (st2 & Hpush2 & Hclock2 & Hget2 & Hother2)
  end.
  rewrite Hpush2. cbn [chat_sessions clock_reads] in Hclock2, Hother2.
  unfold stamp. rewrite Hclock2.
  eexists. eexists. split; [reflexivity|].
  cbn [response_session response_text response_timestamp chat_sessions].
  split; [reflexivity|]. split; [reflexivity|]. split; [reflexivity|].
  split.
  - rewrite Hget2, <- app_assoc. reflexivity.
  - intros other Hne. now rewrite Hother2, Hother1, Hother0.
Qed.

End Handlers.

Import Scenario.

(** Two frames, both answered. *)
Lemma answered_frames_alternate_witness :
  let run := websocket_chat scenario_clock scenario_json_loads "s1"
               [TextFrame hello_frame; TextFrame hello_frame] empty_server in
  List.length (sent run) = 2 /\
  Forall (fun f => frame_type f = "message") (sent run) /\
  exists extra,
    dict_get (chat_sessions (server run)) "s1"
    = Some (history empty_server "s1" ++ extra)%list /\
    map role extra = flat_map (fun _ => ["user"; "assistant"]) (sent run) /\
    map content (filter (fun m => String.eqb (role m) "assistant") extra)
    = map (fun f => JStr (frame_content f)) (sent run).
Proof.
  cbv zeta.
  apply (answered_frames_alternate scenario_clock scenario_json_loads "s1"
           [TextFrame hello_frame; TextFrame hello_frame] empty_server).
  reflexivity.
Defined.

End HistoryProps.

(* ================================================================= *)
(** ** The metrics of an analysis *)

Module MetricsProps.
Import PyStr Py ResultProcessor.

Lemma dict_get_in {V : Type} (d : dict V) (k : string) (v : V) :
  dict_get d k = Some v -> In (k, v) d.
Proof.
  induction d as [|[k0 v0] d IH]; [discriminate|]. cbn [dict_get].
  destruct (String.eqb_spec k0 k) as [->|Hne].
  - intros [= ->]. now left.
  - intros H. right. now apply IH.
Qed.

Lemma other_json_ends_in_json (filename : string) :
  other_json filename = true -> endswith filename ".json" = true.
Proof. unfold other_json. now intros [H _]%andb_true_iff. Qed.

Section Metrics.

Variable json_loads : string -> outcome json.
Variable json_loads_bytes : string -> outcome json.

Local Abbreviation document_of := (document_of json_loads json_loads_bytes).
Local Abbreviation metrics_document := (metrics_document json_loads json_loads_bytes).
Local Abbreviation add_metrics := (add_metrics json_loads json_loads_bytes).
Local Abbreviation add_all_metrics := (add_all_metrics json_loads json_loads_bytes).
Local Abbreviation _extract_metrics := (_extract_metrics json_loads json_loads_bytes).

Lemma document_of_no_text (j : json) :
  no_text j -> document_of (CJson j) = Raise (not_a_document j).
Proof. destruct j; cbn; intros H; (reflexivity || contradiction). Qed.

Lemma loop_stops_at_no_text (filename : string) (j : json) :
  other_json filename = true -> no_text j ->
  forall (items : dict content) (metrics : json),
    In (filename, CJson j) items ->
    exists e, add_all_metrics metrics items = Raise e.
Proof.
  intros Hother Hj. induction items as [|item items IH]; intros metrics Hin;
    [contradiction|].
  cbn [ResultProcessor.add_all_metrics].
  destruct Hin as [-> | Hin].
  - cbn [ResultProcessor.add_metrics]. rewrite Hother, (document_of_no_text _ Hj).
    unfold not_a_document. eauto.
  - destruct (add_metrics metrics item) as [metrics'|e]; [now apply IH | eauto].
Qed.

(** The loop over outputs whose JSON files all hold objects. *)
Lemma add_all_objects (items : dict content) :
  (forall f c, In (f, c) items -> endswith f ".json" = true ->
               exists o, c = CJson (JObj o)) ->
  forall acc : dict json,
  exists m,
    add_all_metrics (JObj acc) items = Return (JObj m) /\
    (forall k, dict_has acc k = true -> dict_has m k = true) /\
    (forall f o, In (f, CJson (JObj o)) items -> other_json f = true ->
                 dict_has m (remove_all ".json" f) = true) /\
    (forall k v, dict_get m k = Some v ->
       dict_get acc k = Some v \/
       exists f o, In (f, CJson (JObj o)) items /\ other_json f = true /\
                   remove_all ".json" f = k /\ v = JObj o) /\
    (forall k, (forall f, In f (map fst items) -> other_json f = true ->
                          remove_all ".json" f <> k) ->
               dict_get m k = dict_get acc k).
Proof.
  induction items as [|[f c] items IH]; intros Hobj acc.
  - exists acc. cbn. repeat split; auto; try contradiction.
  - assert (Hrest : forall f0 c0, In (f0, c0) items -> endswith f0 ".json" = true ->
                                  exists o, c0 = CJson (JObj o))
      by (intros f0 c0 Hin; apply Hobj; now right).
    cbn [ResultProcessor.add_all_metrics ResultProcessor.add_metrics].
    destruct (other_json f) eqn:Hother.
    + destruct (Hobj f c (or_introl eq_refl) (other_json_ends_in_json _ Hother))
        as [o ->].
      cbn [ResultProcessor.document_of setitem].
      set (stem := remove_all ".json" f).
      destruct (IH Hrest (dict_set acc stem (JObj o)))
        as (m & Hrun & Hkeep & Hfiles & Hfrom & Hbase).
      exists m. split; [exact Hrun|]. split; [|split; [|split]].
      * intros k Hk. apply Hkeep. rewrite CollectProps.dict_has_set, Hk.
        apply orb_true_r.
      * intros f0 o0 [[= -> ->] | Hin] Hot.
        -- apply Hkeep. rewrite CollectProps.dict_has_set. fold stem.
           now rewrite String.eqb_refl.
        -- now apply (Hfiles f0 o0).
      * intros k v Hget. destruct (Hfrom k v Hget) as [Hacc | (f0 & o0 & Hin & Hrest0)].
        -- destruct (String.eqb_spec stem k) as [<-|Hne].
           ++ rewrite BackendProps.dict_get_set_same in Hacc. injection Hacc as <-.
              right. exists f, o. repeat split; [now left | exact Hother].
           ++ rewrite (CollectProps.dict_get_set_other _ _ _ _ Hne) in Hacc.
              now left.
        -- right. exists f0, o0. split; [now right | exact Hrest0].
      * intros k Hk. rewrite Hbase.
        -- apply CollectProps.dict_get_set_other. apply Hk; [now left | exact Hother].
        -- intros f0 Hin. apply Hk. now right.
    + destruct (IH Hrest acc) as (m & Hrun & Hkeep & Hfiles & Hfrom & Hbase).
      exists m. split; [exact Hrun|]. split; [exact Hkeep|]. split; [|split].
      * intros f0 o0 [[= -> ->] | Hin] Hot; [congruence | now apply (Hfiles f0 o0)].
      * intros k v Hget. destruct (Hfrom k v Hget) as [Hacc | (f0 & o0 & Hin & Hrest0)];
          [now left|].
        right. exists f0, o0. split; [now right | exact Hrest0].
      * intros k Hk. apply Hbase. intros f0 Hin. apply Hk. now right.
Qed.

(** A JSON output that holds an array, a number, a truth value or [null]
    makes [_extract_metrics] raise: [json.loads] is called on what is no
    text, and a [TypeError] is not among the exceptions the function
    catches.  This holds for [metrics.json] and for every other file named
    [.json]. *)
Theorem non_object_json_output_raises
        (outputs : dict content) (filename : string) (j : json) :
  dict_get outputs filename = Some (CJson j) ->
  endswith filename ".json" = true ->
  no_text j ->
  exists e, _extract_metrics outputs = Raise e.
Proof.
  intros Hget Hends Hj. unfold ResultProcessor._extract_metrics.
  destruct (String.eqb_spec filename "metrics.json") as [->|Hne].
  - unfold ResultProcessor.metrics_document.
    rewrite Hget, (document_of_no_text _ Hj). unfold not_a_document. eauto.
  - destruct (metrics_document outputs) as [metrics|e]; [|eauto].
    apply (loop_stops_at_no_text filename j).
    + unfold other_json. rewrite Hends. cbn [andb]. apply negb_true_iff.
      now apply String.eqb_neq.
    + exact Hj.
    + now apply dict_get_in.
Qed.

(** When every output named [.json] holds an object, [_extract_metrics]
    returns a [dict]: it has an entry for every JSON file other than
    [metrics.json], under the name of the file without '.json'; each of
    its entries is a member of [metrics.json] or such a file; and a member
    of [metrics.json] is kept unless a file goes under its name. *)
Theorem metrics_of_object_outputs (outputs : dict content) :
  (forall f c, In (f, c) outputs -> endswith f ".json" = true ->
               exists o, c = CJson (JObj o)) ->
  let base := match dict_get outputs "metrics.json" with
              | Some (CJson (JObj members)) => members
              | _ => []
              end in
  exists m,
    _extract_metrics outputs = Return (JObj m) /\
    (forall f o, In (f, CJson (JObj o)) outputs -> other_json f = true ->
                 dict_has m (remove_all ".json" f) = true) /\
    (forall k v, dict_get m k = Some v ->
       dict_get base k = Some v \/
       exists f o, In (f, CJson (JObj o)) outputs /\ other_json f = true /\
                   remove_all ".json" f = k /\ v = JObj o) /\
    (forall k, (forall f, In f (map fst outputs) -> other_json f = true ->
                          remove_all ".json" f <> k) ->
               dict_get m k = dict_get base k).
Proof.
  intros Hobj. cbv zeta.
  assert (Hdoc : metrics_document outputs
                 = Return (JObj match dict_get outputs "metrics.json" with
                                | Some (CJson (JObj members)) => members
                                | _ => []
                                end)).
  { unfold ResultProcessor.metrics_document.
    destruct (dict_get outputs "metrics.json") as [c|] eqn:Hget; [|reflexivity].
    destruct (Hobj "metrics.json" c (dict_get_in _ _ _ Hget) eq_refl) as [o ->].
    reflexivity. }
  unfold ResultProcessor._extract_metrics. rewrite Hdoc.
  destruct (add_all_objects outputs Hobj
              match dict_get outputs "metrics.json" with
              | Some (CJson (JObj members)) => members
              | _ => []
              end)
    as (m & Hrun & _ & Hfiles & Hfrom & Hbase).
  exists m. auto.
Qed.

End Metrics.

Import Scenario.

Example stem_of_a_json_file : remove_all ".json" "summary.json" = "summary".
Proof. reflexivity. Qed.

Example stem_loses_every_occurrence :
  remove_all ".json" "a.json.v2.json" = "a.v2".
Proof. reflexivity. Qed.

(** A program that wrote an array to [summary.json]. *)
Lemma non_object_json_output_raises_witness :
  exists e,
    _extract_metrics (fun _ => Raise expecting_value) (fun _ => Raise expecting_value)
      [ ("metrics.json", CJson (JObj [("rows", JInt 3)]));
        ("summary.json", CJson (JArr [JInt 1; JInt 2])) ]
    = Raise e.
Proof.
  apply (non_object_json_output_raises _ _
           [ ("metrics.json", CJson (JObj [("rows", JInt 3)]));
             ("summary.json", CJson (JArr [JInt 1; JInt 2])) ]
           "summary.json" (JArr [JInt 1; JInt 2])).
  - reflexivity.
  - reflexivity.
  - exact I.
Defined.

(** A program that wrote two objects and a picture. *)
Lemma metrics_of_object_outputs_witness :
  exists m,
    _extract_metrics (fun _ => Raise expecting_value) (fun _ => Raise expecting_value)
      [ ("metrics.json", CJson (JObj [("rows", JInt 3)]));
        ("summary.json", CJson (JObj [("mean", JInt 2)]));
        ("plot.png", CBytes "png") ]
    = Return (JObj m) /\
    dict_has m "summary" = true /\
    dict_get m "rows" = Some (JInt 3).
Proof.
  destruct (metrics_of_object_outputs
              (fun _ => Raise expecting_value) (fun _ => Raise expecting_value)
              [ ("metrics.json", CJson (JObj [("rows", JInt 3)]));
                ("summary.json", CJson (JObj [("mean", JInt 2)]));
                ("plot.png", CBytes "png") ])
    as (m & Hrun & Hfiles & _ & Hbase).
  - intros f c [[= <- <-] | [[= <- <-] | [[= <- <-] | []]]] Hends;
      [eauto | eauto | discriminate Hends].
  - exists m. split; [exact Hrun|]. split.
    + apply (Hfiles "summary.json" [("mean", JInt 2)]);
        [right; now left | reflexivity].
    + rewrite (Hbase "rows"); [reflexivity|].
      intros f [<- | [<- | [<- | []]]] Hother; try discriminate Hother.
      discriminate.
Defined.

End MetricsProps.
